(** * eks-login: a shallow embedding of [main.go] and the properties of its run

    The program is a linear pipeline over two external command line tools
    ([aws] and [kubectl]).  Everything it does is an effect: it looks tools up
    on the PATH, starts subprocesses, prints, and reads lines from the
    terminal.  The embedding keeps the effects explicit:

    - the outside world is an oracle ([World]) that answers every subprocess
      call from the history of the run so far;
    - the run is a state-and-error computation over [AppState], which holds
      the [Config] the Go code mutates through [app.config], the lines still
      to be read from standard input, and the trace of events so far;
    - the few pure library functions the code relies on ([strings.TrimSpace],
      [strings.Split], [strconv.Atoi], [json.Unmarshal] into
      [ListClustersResponse]) are written out over byte strings.

    Standard input is a terminal: each [ReadString] of a selection loop
    gets the next line typed, and a read fails when no line is left.  What
    a subprocess that inherits the terminal takes from it is not followed.
    The
    output of the colour library is taken without its escape codes.  What
    [cobra] does around [Run] (parsing the flags, printing an error and
    the usage of its own) is outside the trace; [main] starts from the
    flags already parsed.

    The file has two parts: the definitions (the embedding of the code,
    then the vocabulary of the statements), and the lemmas and theorems,
    one section for each claim. *)

From Stdlib Require Import ZArith List String Ascii Bool Lia.
From Stdlib Require Import DecimalString DecimalPos.
Import ListNotations.

Set Warnings "-register-all".

Open Scope string_scope.
Open Scope Z_scope.

(* ===================================================================== *)
(** ** Go strings: bytes, [strings.TrimSpace], [strings.Split], [strconv.Atoi] *)
(* ===================================================================== *)

(** The functions of Go's standard library the program calls on strings,
    on bytes as Go has them. *)
Module GoStrings.

(** A Go string is a sequence of bytes; [string] is a list of [ascii], which
    are the 256 byte values. *)
Definition byte (c : ascii) : Z := Z.of_N (N_of_ascii c).

Definition chr (n : Z) : ascii := ascii_of_N (Z.to_N n).

Definition str1 (c : ascii) : string := String c EmptyString.

(** The double quote and the control characters, which have no literal
    form here. *)
Definition dquote : string := str1 (chr 34).
Definition newline : ascii := chr 10.
Definition nl : string := str1 newline.

Definition rev (s : string) : string :=
  string_of_list_ascii (List.rev (list_ascii_of_string s)).

(** [unicode.IsSpace] on the encoded forms.  One byte: TAB, LF, VT, FF, CR
    and the space. *)
Definition asciiSpace (c : ascii) : bool :=
  let b := byte c in
  ((9 <=? b) && (b <=? 13)) || (b =? 32).

(** Two bytes: U+0085 (C2 85) and U+00A0 (C2 A0). *)
Definition space2 (c1 c2 : ascii) : bool :=
  (byte c1 =? 194) && ((byte c2 =? 133) || (byte c2 =? 160)).

(** Three bytes: U+1680 (E1 9A 80), U+2000..U+200A (E2 80 80..8A),
    U+2028, U+2029 (E2 80 A8, A9), U+202F (E2 80 AF), U+205F (E2 81 9F)
    and U+3000 (E3 80 80). *)
Definition space3 (c1 c2 c3 : ascii) : bool :=
  let b1 := byte c1 in
  let b2 := byte c2 in
  let b3 := byte c3 in
  ((b1 =? 225) && (b2 =? 154) && (b3 =? 128))
  || ((b1 =? 226) && (b2 =? 128)
      && (((128 <=? b3) && (b3 <=? 138)) || (b3 =? 168) || (b3 =? 169)
          || (b3 =? 175)))
  || ((b1 =? 226) && (b2 =? 129) && (b3 =? 159))
  || ((b1 =? 227) && (b2 =? 128) && (b3 =? 128)).

(** [strings.TrimLeftFunc(s, unicode.IsSpace)]: runes are decoded from the
    left; a byte that starts no white space rune stops the scan. *)
Fixpoint TrimLeftSpace (s : string) : string :=
  match s with
  | EmptyString => EmptyString
  | String c1 t1 =>
      if asciiSpace c1 then TrimLeftSpace t1
      else
        match t1 with
        | String c2 t2 =>
            if space2 c1 c2 then TrimLeftSpace t2
            else
              match t2 with
              | String c3 t3 =>
                  if space3 c1 c2 c3 then TrimLeftSpace t3 else s
              | EmptyString => s
              end
        | EmptyString => s
        end
  end.

(** The same scan from the right, on the reversed string: the last rune is
    a white space exactly when the string ends with one of the encodings
    above (their first bytes are the only rune starts in them). *)
Fixpoint trimRevSpace (r : string) : string :=
  match r with
  | EmptyString => EmptyString
  | String c1 t1 =>
      if asciiSpace c1 then trimRevSpace t1
      else
        match t1 with
        | String c2 t2 =>
            if space2 c2 c1 then trimRevSpace t2
            else
              match t2 with
              | String c3 t3 =>
                  if space3 c3 c2 c1 then trimRevSpace t3 else r
              | EmptyString => r
              end
        | EmptyString => r
        end
  end.

Definition TrimRightSpace (s : string) : string := rev (trimRevSpace (rev s)).

(** [strings.TrimSpace]. *)
Definition TrimSpace (s : string) : string := TrimRightSpace (TrimLeftSpace s).

(** [strings.Split(s, sep)] for a separator of one byte: all the pieces,
    empty ones included; the empty string gives one empty piece. *)
Fixpoint Split (s : string) (sep : ascii) : list string :=
  match s with
  | EmptyString => [EmptyString]
  | String c t =>
      if Ascii.eqb c sep then EmptyString :: Split t sep
      else
        match Split t sep with
        | h :: r => String c h :: r
        | [] => [str1 c]
        end
  end.

(** [strconv.NumError.Err]: the two ways [Atoi] fails. *)
Inductive NumError : Type := ErrSyntax | ErrRange.

Definition isDigit (c : ascii) : bool := (48 <=? byte c) && (byte c <=? 57).

Fixpoint digitsValue (acc : Z) (s : string) : option Z :=
  match s with
  | EmptyString => Some acc
  | String c t =>
      if isDigit c then digitsValue (acc * 10 + (byte c - 48)) t else None
  end.

(** Go's [int] has 64 bits on every platform the Makefile builds for. *)
Definition maxInt : Z := 2 ^ 63 - 1.
Definition minInt : Z := - 2 ^ 63.

(** [strconv.Atoi]: an optional sign and decimal digits, at least one; the
    value and the error are both returned, the value clamped when it does
    not fit. *)
Definition Atoi (s : string) : Z * option NumError :=
  match s with
  | EmptyString => (0, Some ErrSyntax)
  | String c t =>
      let neg := Ascii.eqb c "-" in
      let body := if neg || Ascii.eqb c "+" then t else s in
      match body with
      | EmptyString => (0, Some ErrSyntax)
      | _ =>
          match digitsValue 0 body with
          | None => (0, Some ErrSyntax)
          | Some n =>
              let v := if neg then - n else n in
              if v <? minInt then (minInt, Some ErrRange)
              else if maxInt <? v then (maxInt, Some ErrRange)
              else (v, None)
          end
      end
  end.

(** [%d] of [fmt]. *)
Definition itoa (n : Z) : string := NilZero.string_of_int (Z.to_int n).

End GoStrings.

Import GoStrings.

(* ===================================================================== *)
(** ** Go's [encoding/json], as far as [ListClustersResponse] needs it *)
(* ===================================================================== *)

(** The decoder of Go's standard library, as [ListEKSClusters] uses it:
    the text is checked to be one JSON value, then stored into the struct
    by kind.  Keys are matched to the field name exactly or, failing that,
    without regard to case; a [null] leaves a string alone and empties a
    slice; the first value of a wrong kind is reported after the whole
    text has been gone through. *)
Module GoJSON.

(** A JSON text, read.  Strings are held decoded (escapes resolved, bytes
    coerced to well-formed UTF-8), numbers as their literal. *)
Inductive JSON : Type :=
  | JNull
  | JBool (b : bool)
  | JNumber (lit : string)
  | JString (s : string)
  | JArray (elems : list JSON)
  | JObject (members : list (string * JSON)).

(** *** Reading the text *)

Fixpoint skipWS (s : string) : string :=
  match s with
  | String c t =>
      let b := byte c in
      if (b =? 32) || (b =? 9) || (b =? 13) || (b =? 10) then skipWS t else s
  | EmptyString => s
  end.

Fixpoint stripPrefix (p s : string) : option string :=
  match p with
  | EmptyString => Some s
  | String a p' =>
      match s with
      | String b s' => if Ascii.eqb a b then stripPrefix p' s' else None
      | EmptyString => None
      end
  end.

Fixpoint dropBytes (n : nat) (s : string) : string :=
  match n, s with
  | S n', String _ t => dropBytes n' t
  | _, _ => s
  end.

Fixpoint takeBytes (n : nat) (s : string) : string :=
  match n, s with
  | S n', String c t => String c (takeBytes n' t)
  | _, _ => EmptyString
  end.

(** The longest run of decimal digits at the head, and what follows. *)
Fixpoint spanDigits (s : string) : string * string :=
  match s with
  | String c t =>
      if isDigit c then let (d, r) := spanDigits t in (String c d, r)
      else (EmptyString, s)
  | EmptyString => (EmptyString, EmptyString)
  end.

Definition isEmpty (s : string) : bool :=
  match s with EmptyString => true | _ => false end.

(** A number: [-]? ( 0 | [1-9][0-9]* ) ( . [0-9]+ )? ( [eE] [+-]? [0-9]+ )? *)
Definition scanInt (s : string) : option (string * string) :=
  match s with
  | String c t =>
      if byte c =? 48 then Some (str1 c, t)
      else if isDigit c then let (d, r) := spanDigits t in Some (String c d, r)
      else None
  | EmptyString => None
  end.

Definition scanFrac (s : string) : option (string * string) :=
  match s with
  | String c t =>
      if byte c =? 46 then
        let (d, r) := spanDigits t in
        if isEmpty d then None else Some (String c d, r)
      else Some (EmptyString, s)
  | EmptyString => Some (EmptyString, s)
  end.

Definition scanExp (s : string) : option (string * string) :=
  match s with
  | String c t =>
      if (byte c =? 101) || (byte c =? 69) then
        let (sign, t') :=
          match t with
          | String g u =>
              if (byte g =? 43) || (byte g =? 45) then (str1 g, u)
              else (EmptyString, t)
          | EmptyString => (EmptyString, t)
          end in
        let (d, r) := spanDigits t' in
        if isEmpty d then None else Some (String c (sign ++ d), r)
      else Some (EmptyString, s)
  | EmptyString => Some (EmptyString, s)
  end.

Definition scanNumber (s : string) : option (string * string) :=
  let (sign, s1) :=
    match s with
    | String c t => if byte c =? 45 then (str1 c, t) else (EmptyString, s)
    | EmptyString => (EmptyString, s)
    end in
  match scanInt s1 with
  | None => None
  | Some (i, s2) =>
      match scanFrac s2 with
      | None => None
      | Some (f, s3) =>
          match scanExp s3 with
          | None => None
          | Some (e, s4) => Some (sign ++ i ++ f ++ e, s4)
          end
      end
  end.

(** [utf8.DecodeRune] on a lead byte of 0x80 or more: the length of the
    well-formed encoding at the head of [s], or 0 when there is none. *)
Definition isCont (c : ascii) : bool := (128 <=? byte c) && (byte c <=? 191).

Definition utf8Len (s : string) : nat :=
  match s with
  | String c1 (String c2 t2) =>
      let b1 := byte c1 in
      let b2 := byte c2 in
      if (194 <=? b1) && (b1 <=? 223) then (if isCont c2 then 2 else 0)%nat
      else
        match t2 with
        | String c3 t3 =>
            let ok2for3 :=
              if b1 =? 224 then (160 <=? b2) && (b2 <=? 191)
              else if b1 =? 237 then (128 <=? b2) && (b2 <=? 159)
              else isCont c2 in
            if (224 <=? b1) && (b1 <=? 239) then
              (if ok2for3 && isCont c3 then 3 else 0)%nat
            else
              match t3 with
              | String c4 _ =>
                  let ok2for4 :=
                    if b1 =? 240 then (144 <=? b2) && (b2 <=? 191)
                    else if b1 =? 244 then (128 <=? b2) && (b2 <=? 143)
                    else isCont c2 in
                  if (240 <=? b1) && (b1 <=? 244) then
                    (if ok2for4 && isCont c3 && isCont c4 then 4 else 0)%nat
                  else 0%nat
              | EmptyString => 0%nat
              end
        | EmptyString => 0%nat
        end
  | _ => 0%nat
  end.

(** [utf8.EncodeRune]; a surrogate is written as U+FFFD. *)
Definition replacementChar : Z := 65533.

Definition EncodeRune (r : Z) : string :=
  let r := if ((55296 <=? r) && (r <=? 57343)) || (r <? 0) || (1114111 <? r)
           then replacementChar else r in
  if r <? 128 then str1 (chr r)
  else if r <? 2048 then
    String (chr (192 + r / 64)) (str1 (chr (128 + r mod 64)))
  else if r <? 65536 then
    String (chr (224 + r / 4096))
      (String (chr (128 + (r / 64) mod 64)) (str1 (chr (128 + r mod 64))))
  else
    String (chr (240 + r / 262144))
      (String (chr (128 + (r / 4096) mod 64))
         (String (chr (128 + (r / 64) mod 64)) (str1 (chr (128 + r mod 64))))).

Definition hexVal (c : ascii) : option Z :=
  let b := byte c in
  if (48 <=? b) && (b <=? 57) then Some (b - 48)
  else if (97 <=? b) && (b <=? 102) then Some (b - 97 + 10)
  else if (65 <=? b) && (b <=? 70) then Some (b - 65 + 10)
  else None.

(** Four hex digits at the head of [s] (what follows backslash-u). *)
Definition hex4 (s : string) : option (Z * string) :=
  match s with
  | String h1 (String h2 (String h3 (String h4 t))) =>
      match hexVal h1, hexVal h2, hexVal h3, hexVal h4 with
      | Some a, Some b, Some c, Some d =>
          Some (((a * 16 + b) * 16 + c) * 16 + d, t)
      | _, _, _, _ => None
      end
  | _ => None
  end.

(** [getu4]: backslash, u and four hex digits at the head of [s]. *)
Definition getu4 (s : string) : option (Z * string) :=
  match s with
  | String c1 (String c2 t) =>
      if (byte c1 =? 92) && (byte c2 =? 117) then hex4 t else None
  | _ => None
  end.

Definition isSurrogate (r : Z) : bool := (55296 <=? r) && (r <? 57344).

(** [utf16.DecodeRune]. *)
Definition utf16DecodeRune (r1 r2 : Z) : Z :=
  if (55296 <=? r1) && (r1 <? 56320) && (56320 <=? r2) && (r2 <? 57344)
  then (r1 - 55296) * 1024 + (r2 - 56320) + 65536
  else replacementChar.

(** The one-letter escapes the scanner admits. *)
Definition simpleEscape (e : ascii) : option ascii :=
  let b := byte e in
  if (b =? 34) || (b =? 92) || (b =? 47) then Some e
  else if b =? 98 then Some (chr 8)
  else if b =? 102 then Some (chr 12)
  else if b =? 110 then Some (chr 10)
  else if b =? 114 then Some (chr 13)
  else if b =? 116 then Some (chr 9)
  else None.

Definition andThen {A : Type} (pre : string) (k : option (string * A))
  : option (string * A) :=
  match k with
  | Some (d, r) => Some (pre ++ d, r)
  | None => None
  end.

(** The body of a string literal, after its opening quote: the decoded
    bytes and what follows the closing quote.  Every step takes at least
    one byte, so a fuel of the length of the text is never used up. *)
Fixpoint stringBody (fuel : nat) (s : string) : option (string * string) :=
  match fuel with
  | O => None
  | S f =>
      match s with
      | EmptyString => None
      | String c t =>
          let b := byte c in
          if b =? 34 then Some (EmptyString, t)
          else if b =? 92 then
            match t with
            | EmptyString => None
            | String e t' =>
                if byte e =? 117 then
                  match hex4 t' with
                  | None => None
                  | Some (r1, t1) =>
                      if isSurrogate r1 then
                        match getu4 t1 with
                        | Some (r2, t2) =>
                            let dec := utf16DecodeRune r1 r2 in
                            if dec =? replacementChar
                            then andThen (EncodeRune replacementChar)
                                   (stringBody f t1)
                            else andThen (EncodeRune dec) (stringBody f t2)
                        | None =>
                            andThen (EncodeRune replacementChar)
                              (stringBody f t1)
                        end
                      else andThen (EncodeRune r1) (stringBody f t1)
                  end
                else
                  match simpleEscape e with
                  | Some ch => andThen (str1 ch) (stringBody f t')
                  | None => None
                  end
            end
          else if b <? 32 then None
          else if b <? 128 then andThen (str1 c) (stringBody f t)
          else
            match utf8Len s with
            | O => andThen (EncodeRune replacementChar) (stringBody f t)
            | n => andThen (takeBytes n s) (stringBody f (dropBytes n s))
            end
      end
  end.

(** [maxNestingDepth] of the scanner. *)
Definition maxNestingDepth : Z := 10000.

(** One value at the head of [s] (white space skipped first), at nesting
    [depth]; [elements] and [members] read the rest of an array or an
    object after its first item has been found to exist. *)
Fixpoint value (fuel : nat) (depth : Z) (s : string)
  : option (JSON * string) :=
  match fuel with
  | O => None
  | S f =>
      let elements :=
        fix elements (g : nat) (s : string) (acc : list JSON)
          : option (JSON * string) :=
          match g with
          | O => None
          | S g' =>
              match value f (depth + 1) s with
              | None => None
              | Some (v, r) =>
                  match skipWS r with
                  | String c r' =>
                      if byte c =? 44 then elements g' r' (v :: acc)
                      else if byte c =? 93
                      then Some (JArray (List.rev (v :: acc)), r')
                      else None
                  | EmptyString => None
                  end
              end
          end in
      let members :=
        fix members (g : nat) (s : string) (acc : list (string * JSON))
          : option (JSON * string) :=
          match g with
          | O => None
          | S g' =>
              match skipWS s with
              | String q s1 =>
                  if byte q =? 34 then
                    match stringBody (String.length s1) s1 with
                    | None => None
                    | Some (k, s2) =>
                        match skipWS s2 with
                        | String colon s3 =>
                            if byte colon =? 58 then
                              match value f (depth + 1) s3 with
                              | None => None
                              | Some (v, r) =>
                                  match skipWS r with
                                  | String c r' =>
                                      if byte c =? 44
                                      then members g' r' ((k, v) :: acc)
                                      else if byte c =? 125
                                      then Some (JObject
                                                   (List.rev ((k, v) :: acc)), r')
                                      else None
                                  | EmptyString => None
                                  end
                              end
                            else None
                        | EmptyString => None
                        end
                    end
                  else None
              | EmptyString => None
              end
          end in
      match skipWS s with
      | EmptyString => None
      | String c t =>
          let b := byte c in
          if b =? 123 then
            if maxNestingDepth <=? depth then None
            else
              match skipWS t with
              | String c' t' =>
                  if byte c' =? 125 then Some (JObject [], t')
                  else members (String.length t) t []
              | EmptyString => None
              end
          else if b =? 91 then
            if maxNestingDepth <=? depth then None
            else
              match skipWS t with
              | String c' t' =>
                  if byte c' =? 93 then Some (JArray [], t')
                  else elements (String.length t) t []
              | EmptyString => None
              end
          else if b =? 34 then
            match stringBody (String.length t) t with
            | Some (d, r) => Some (JString d, r)
            | None => None
            end
          else if (b =? 45) || isDigit c then
            match scanNumber (String c t) with
            | Some (lit, r) => Some (JNumber lit, r)
            | None => None
            end
          else
            match stripPrefix "true" (String c t) with
            | Some r => Some (JBool true, r)
            | None =>
                match stripPrefix "false" (String c t) with
                | Some r => Some (JBool false, r)
                | None =>
                    match stripPrefix "null" (String c t) with
                    | Some r => Some (JNull, r)
                    | None => None
                    end
                end
            end
      end
  end.

(** The whole text must be one value, white space around it allowed
    ([checkValid]).  The outer fuel bounds the nesting reached, which is
    less than the length of the text. *)
Definition parse (data : string) : option JSON :=
  match value (S (String.length data)) 0 data with
  | Some (v, r) => if isEmpty (skipWS r) then Some v else None
  | None => None
  end.

(** *** Storing into Go values *)

(** The errors [json.Unmarshal] returns here: the text is no JSON
    ([SyntaxError]) or a value has the wrong kind for its target
    ([UnmarshalTypeError], with the kind found). *)
Inductive UnmarshalError : Type :=
  | SyntaxError
  | UnmarshalTypeError (found : string).

Definition kindName (v : JSON) : string :=
  match v with
  | JNull => "null"
  | JBool _ => "bool"
  | JNumber _ => "number"
  | JString _ => "string"
  | JArray _ => "array"
  | JObject _ => "object"
  end.

(** The decoder keeps the first error it saves and goes on. *)
Definition saveError (saved new : option UnmarshalError)
  : option UnmarshalError :=
  match saved with
  | Some _ => saved
  | None => new
  end.

(** An array element stored into a [string] slot holding [old]: a string
    is stored, [null] leaves the slot alone, anything else leaves it alone
    and saves a type error. *)
Definition storeString (old : string) (v : JSON)
  : string * option UnmarshalError :=
  match v with
  | JString s => (s, None)
  | JNull => (old, None)
  | _ => (old, Some (UnmarshalTypeError (kindName v)))
  end.

(** An array stored into a [[]string] that held [old]: slot [i] of the old
    slice is reused for element [i]; a slot past the old length is taken
    to be fresh (the empty string). *)
Fixpoint storeElems (old : list string) (elems : list JSON)
  (saved : option UnmarshalError) : list string * option UnmarshalError :=
  match elems with
  | [] => ([], saved)
  | e :: es =>
      let (x, err) := storeString (hd EmptyString old) e in
      let (xs, saved') := storeElems (tl old) es (saveError saved err) in
      (x :: xs, saved')
  end.

(** A value stored into a [[]string]: [null] empties it, an array fills
    it, anything else leaves it and saves a type error. *)
Definition storeStringSlice (old : list string) (v : JSON)
  (saved : option UnmarshalError) : list string * option UnmarshalError :=
  match v with
  | JNull => ([], saved)
  | JArray elems => storeElems old elems saved
  | _ => (old, saveError saved (Some (UnmarshalTypeError (kindName v))))
  end.

(** Key matching against a struct field whose name [s] is ASCII and has an
    [s] or a [k] in it ([equalFoldRight]): ASCII letters match without
    regard to case, and the long s U+017F (C5 BF) and the Kelvin sign
    U+212A (E2 84 AA) match [s] and [k]. *)
Definition isUpperLetter (b : Z) : bool := (65 <=? b) && (b <=? 90).

Definition caseMask (b : Z) : Z := Z.land b 223.

Fixpoint equalFoldRight (s t : string) : bool :=
  match s with
  | EmptyString => isEmpty t
  | String sc s' =>
      match t with
      | EmptyString => false
      | String tc t' =>
          let sb := byte sc in
          let tb := byte tc in
          if tb <? 128 then
            if sb =? tb then equalFoldRight s' t'
            else if isUpperLetter (caseMask sb)
                    && (caseMask sb =? caseMask tb)
            then equalFoldRight s' t'
            else false
          else if (sb =? 115) || (sb =? 83) then
            match t' with
            | String t2 t'' =>
                if (tb =? 197) && (byte t2 =? 191)
                then equalFoldRight s' t'' else false
            | EmptyString => false
            end
          else if (sb =? 107) || (sb =? 75) then
            match t' with
            | String t2 (String t3 t'') =>
                if (tb =? 226) && (byte t2 =? 132) && (byte t3 =? 170)
                then equalFoldRight s' t'' else false
            | _ => false
            end
          else false
      end
  end.

End GoJSON.

Import GoJSON.

(* ===================================================================== *)
(** ** The data of [main.go] *)
(* ===================================================================== *)

(** [Config]: the application configuration. *)
Record Config : Type := mkConfig {
  Profile : string;
  Region : string;
  Cluster : string;
  Interactive : bool;
  SkipSSO : bool;
  DefaultRegion : string
}.

(** [ListClustersResponse]: the response of [eks list-clusters]; its one
    field is tagged [json:"clusters"]. *)
Record ListClustersResponse : Type := mkListClustersResponse {
  Clusters : list string
}.

(** [ProfileInfo]: a profile and its region (the field [Region] of the
    Go struct is [PRegion] here, [Config] having a [Region] of its own). *)
Record ProfileInfo : Type := mkProfileInfo {
  Name : string;
  PRegion : string
}.

Definition setProfile (c : Config) (p : string) : Config :=
  mkConfig p (Region c) (Cluster c) (Interactive c) (SkipSSO c) (DefaultRegion c).

Definition setRegion (c : Config) (r : string) : Config :=
  mkConfig (Profile c) r (Cluster c) (Interactive c) (SkipSSO c) (DefaultRegion c).

Definition setCluster (c : Config) (k : string) : Config :=
  mkConfig (Profile c) (Region c) k (Interactive c) (SkipSSO c) (DefaultRegion c).

Definition setInteractive (c : Config) (b : bool) : Config :=
  mkConfig (Profile c) (Region c) (Cluster c) b (SkipSSO c) (DefaultRegion c).

(** The field name of [Clusters] for the decoder, from its tag. *)
Definition clustersTag : string := "clusters".

(** A member of the top level object stored into the response: a key that
    is the field name, exactly or under folding, stores its value into
    [Clusters]; any other key is skipped. *)
Definition storeMember (acc : ListClustersResponse * option UnmarshalError)
  (kv : string * JSON) : ListClustersResponse * option UnmarshalError :=
  let (resp, saved) := acc in
  let (key, v) := kv in
  if String.eqb key clustersTag || equalFoldRight clustersTag key then
    let (cl, saved') := storeStringSlice (Clusters resp) v saved in
    (mkListClustersResponse cl, saved')
  else (resp, saved).

(** [json.Unmarshal(data, &response)]: the text is checked first; then an
    object is stored member by member, [null] changes nothing, and any
    other value is a type error. *)
Definition Unmarshal (data : string) (resp : ListClustersResponse)
  : ListClustersResponse * option UnmarshalError :=
  match parse data with
  | None => (resp, Some SyntaxError)
  | Some JNull => (resp, None)
  | Some (JObject members) => fold_left storeMember members (resp, None)
  | Some v => (resp, Some (UnmarshalTypeError (kindName v)))
  end.

(* ===================================================================== *)
(** ** Errors, messages and events *)
(* ===================================================================== *)

(** What a captured subprocess ([cmd.Output]) comes to: its standard
    output, an [*exec.ExitError] with the standard error it collected, or
    another error (the command could not be started). *)
Inductive CmdResult : Type :=
  | CmdOk (stdout : string)
  | CmdExit (err stderr : string)
  | CmdFail (err : string).

(** The [error] values of the program.  [ErrIndex] is not an [error] but
    the run-time panic of an index out of range. *)
Inductive Error : Type :=
  | ErrCommandFailed (err stderr : string)
  | ErrCommand (err : string)
  | ErrDependency (dep : string)
  | ErrListProfiles (cause : Error)
  | ErrNoProfiles
  | ErrReadInput
  | ErrCheckSSO (cause : Error)
  | ErrLogin (cause : string)
  | ErrListClusters (cause : Error)
  | ErrParseClusters (cause : UnmarshalError)
  | ErrNoClusters (region profile : string)
  | ErrUpdateKubeconfig (cause : string)
  | ErrIndex.

(** Everything the program prints, by the statement that prints it. *)
Inductive Msg : Type :=
  | MCheckingDeps
  | MDepFound (dep : string)
  | MUsingProfile (profile region : string)
  | MAvailableProfiles
  | MProfileItem (i : Z) (name region : string)
  | MSelectProfile (n : Z)
  | MInvalidSelection (n : Z)
  | MSessionValid
  | MLoggingIn
  | MLoginOk
  | MFetchingClusters
  | MUsingCluster (cluster : string)
  | MAvailableClusters (region : string)
  | MClusterItem (i : Z) (cluster : string)
  | MSelectCluster (n : Z)
  | MUpdatingKubeconfig (cluster : string)
  | MKubeconfigUpdated
  | MVerifying
  | MUnableToVerify
  | MConnected
  | MCurrentContext (context : string)
  | MClusterInfo (info : string)
  | MLoginComplete
  | MSummaryProfile (profile : string)
  | MSummaryRegion (region : string)
  | MSummaryCluster (cluster : string)
  | MSummaryHint
  | MError (e : Error)
  | MVersion.

(** What the run does to the outside, in order. *)
Inductive Event : Type :=
  | EvLookPath (file : string) (found : bool)
  | EvOutput (name : string) (args : list string) (res : CmdResult)
  | EvRun (name : string) (args : list string) (res : option string)
  | EvPrint (m : Msg)
  | EvReadLine (input : option string)
  | EvExit (code : Z).

(** The outside world: what [exec.LookPath], [cmd.Output] and [cmd.Run]
    answer, given everything that has happened so far. *)
Record World : Type := mkWorld {
  wLookPath : list Event -> string -> bool;
  wOutput : list Event -> string -> list string -> CmdResult;
  wRun : list Event -> string -> list string -> option string
}.

(** The state of a run: [app.config], the lines the terminal still holds
    (each without its line end; when none is left a read fails, as
    [ReadString] does at the end of the input, a last piece with no line
    end included), and the events so far. *)
Record AppState : Type := mkState {
  config : Config;
  stdin : list string;
  trace : list Event
}.

(** *** The texts *)

Definition unmarshalErrorString (e : UnmarshalError) : string :=
  match e with
  | SyntaxError => "invalid character or unexpected end of JSON input"
  | UnmarshalTypeError found =>
      "json: cannot unmarshal " ++ found
      ++ " into Go value of type main.ListClustersResponse"
  end.

Fixpoint errorString (e : Error) : string :=
  match e with
  | ErrCommandFailed err stderr =>
      "command failed: " ++ err ++ nl ++ "stderr: " ++ stderr
  | ErrCommand err => err
  | ErrDependency dep => "required dependency '" ++ dep ++ "' not found in PATH"
  | ErrListProfiles c => "failed to list AWS profiles: " ++ errorString c
  | ErrNoProfiles => "no AWS profiles found. Please configure AWS CLI first"
  | ErrReadInput => "failed to read input: EOF"
  | ErrCheckSSO c => "failed to check SSO session: " ++ errorString c
  | ErrLogin c => "SSO login failed: " ++ c
  | ErrListClusters c => "failed to list EKS clusters: " ++ errorString c
  | ErrParseClusters c => "failed to parse cluster list: " ++ unmarshalErrorString c
  | ErrNoClusters region profile =>
      "no EKS clusters found in region " ++ region ++ " with profile " ++ profile
  | ErrUpdateKubeconfig c => "failed to update kubeconfig: " ++ c
  | ErrIndex => "runtime error: index out of range"
  end.

(** The text of each message, colours left out. *)
Definition render (m : Msg) : string :=
  match m with
  | MCheckingDeps => "🔍 Checking dependencies..." ++ nl
  | MDepFound dep => "  ✓ " ++ dep ++ " found" ++ nl
  | MUsingProfile p r =>
      "📋 Using profile: " ++ p ++ " (region: " ++ r ++ ")" ++ nl
  | MAvailableProfiles => nl ++ "📋 Available AWS Profiles:" ++ nl
  | MProfileItem i name region =>
      "  " ++ itoa i ++ ". " ++ name ++ " (region: " ++ region ++ ")" ++ nl
  | MSelectProfile n => nl ++ "Select profile (1-" ++ itoa n ++ "): "
  | MInvalidSelection n =>
      "Invalid selection. Please choose a number between 1 and "
      ++ itoa n ++ "." ++ nl
  | MSessionValid => "✓ SSO session is valid" ++ nl
  | MLoggingIn => "🔐 Logging in to AWS SSO..." ++ nl
  | MLoginOk => "✓ SSO login successful" ++ nl
  | MFetchingClusters => "📋 Fetching EKS clusters..." ++ nl
  | MUsingCluster c => "🎯 Using cluster: " ++ c ++ nl
  | MAvailableClusters r => nl ++ "🎯 Available EKS Clusters in " ++ r ++ ":" ++ nl
  | MClusterItem i c => "  " ++ itoa i ++ ". " ++ c ++ nl
  | MSelectCluster n => nl ++ "Select cluster (1-" ++ itoa n ++ "): "
  | MUpdatingKubeconfig c => "⚙️  Updating kubeconfig for cluster: " ++ c ++ nl
  | MKubeconfigUpdated => "✓ Kubeconfig updated successfully!" ++ nl
  | MVerifying => "🔍 Verifying cluster connection..." ++ nl
  | MUnableToVerify =>
      "⚠️  Kubeconfig updated but unable to verify connection" ++ nl
  | MConnected => "✓ Successfully connected to cluster!" ++ nl
  | MCurrentContext c => "📍 Current context: " ++ c ++ nl
  | MClusterInfo info => nl ++ info ++ nl
  | MLoginComplete => nl ++ "🎉 EKS Login Complete!" ++ nl
  | MSummaryProfile p => "Profile: " ++ p ++ nl
  | MSummaryRegion r => "Region: " ++ r ++ nl
  | MSummaryCluster c => "Cluster: " ++ c ++ nl
  | MSummaryHint =>
      nl ++ "You can now use kubectl to interact with your cluster." ++ nl
  | MError e => "Error: " ++ errorString e ++ nl
  | MVersion => "EKS Login Helper v1.0.0" ++ nl
  end.

(* ===================================================================== *)
(** ** The run as a state-and-error computation *)
(* ===================================================================== *)

(** A step either returns a value or returns early with an error; the
    state it leaves is kept in both cases, as the writes through
    [app.config] are. *)
Definition M (A : Type) : Type := AppState -> (Error + A) * AppState.

Definition ret {A : Type} (a : A) : M A := fun st => (inr a, st).

Definition fail {A : Type} (e : Error) : M A := fun st => (inl e, st).

Definition bind {A B : Type} (m : M A) (k : A -> M B) : M B :=
  fun st =>
    match m st with
    | (inl e, st') => (inl e, st')
    | (inr a, st') => k a st'
    end.

Declare Scope app_scope.
Delimit Scope app_scope with app.
Notation "x <- m ;; k" := (bind m (fun x => k))
  (at level 61, m at next level, right associativity) : app_scope.
Notation "m ;; k" := (bind m (fun _ => k))
  (at level 61, right associativity) : app_scope.
Open Scope app_scope.

Definition emit (ev : Event) : M unit :=
  fun st => (inr tt, mkState (config st) (stdin st) (trace st ++ [ev])).

Definition print (m : Msg) : M unit := emit (EvPrint m).

Definition getConfig : M Config := fun st => (inr (config st), st).

Definition putConfig (c : Config) : M unit :=
  fun st => (inr tt, mkState c (stdin st) (trace st)).

(** [for _, x := range l { body }], with the early return of [body]. *)
Fixpoint forEach {A : Type} (l : list A) (body : A -> M unit) : M unit :=
  match l with
  | [] => ret tt
  | x :: l' => body x ;; forEach l' body
  end.

(** [for i, x := range l { body }]. *)
Fixpoint forEachIndexed {A : Type} (i : Z) (l : list A)
  (body : Z -> A -> M unit) : M unit :=
  match l with
  | [] => ret tt
  | x :: l' => body i x ;; forEachIndexed (i + 1) l' body
  end.

Definition isNil {A : Type} (o : option A) : bool :=
  match o with None => true | Some _ => false end.

Definition len {A : Type} (l : list A) : Z := Z.of_nat (List.length l).

(** [DefaultRegion] of [NewEKSLoginApp]. *)
Definition defaultRegion : string := "us-west-2".

(** [NewEKSLoginApp]: the configuration before the flags are bound. *)
Definition NewEKSLoginApp : Config :=
  mkConfig EmptyString EmptyString EmptyString true false defaultRegion.

Section App.

Variable w : World.

Definition lookPath (file : string) : M bool :=
  fun st =>
    let found := wLookPath w (trace st) file in
    (inr found, mkState (config st) (stdin st)
                  (trace st ++ [EvLookPath file found])).

(** [cmd.Run] with the streams of the terminal. *)
Definition runCmd (name : string) (args : list string) : M (option string) :=
  fun st =>
    let res := wRun w (trace st) name args in
    (inr res, mkState (config st) (stdin st)
                (trace st ++ [EvRun name args res])).

(** [Execute]: the command's output, trimmed, or an error. *)
Definition Execute (name : string) (args : list string)
  : M (string * option Error) :=
  fun st =>
    let res := wOutput w (trace st) name args in
    let st' := mkState (config st) (stdin st)
                 (trace st ++ [EvOutput name args res]) in
    match res with
    | CmdExit err stderr => (inr (EmptyString, Some (ErrCommandFailed err stderr)), st')
    | CmdFail err => (inr (EmptyString, Some (ErrCommand err)), st')
    | CmdOk output => (inr (TrimSpace output, None), st')
    end.

(** [CheckDependencies]. *)
Definition CheckDependencies : M unit :=
  let dependencies := ["aws"; "kubectl"] in
  print MCheckingDeps ;;
  forEach dependencies (fun dep =>
    found <- lookPath dep ;;
    if negb found then fail (ErrDependency dep)
    else print (MDepFound dep)).

(** The body of the loop of [GetAWSProfiles] over the lines. *)
Fixpoint profilesOfLines (lines : list string) (profiles : list ProfileInfo)
  : M (list ProfileInfo) :=
  match lines with
  | [] => ret profiles
  | line :: lines' =>
      let line := TrimSpace line in
      if negb (String.eqb line EmptyString) then
        r <- Execute "aws" ["configure"; "get"; "region"; "--profile"; line] ;;
        cfg <- getConfig ;;
        let region := fst r in
        let region :=
          if String.eqb region EmptyString then DefaultRegion cfg else region in
        profilesOfLines lines' (profiles ++ [mkProfileInfo line region])
      else profilesOfLines lines' profiles
  end.

(** [GetAWSProfiles]. *)
Definition GetAWSProfiles : M (list ProfileInfo) :=
  r <- Execute "aws" ["configure"; "list-profiles"] ;;
  match snd r with
  | Some err => fail (ErrListProfiles err)
  | None =>
      let lines := Split (fst r) newline in
      profilesOfLines lines []
  end.

(** The [for] loop of [SelectProfile]: prompt, read a line, and go round
    again until the line is a number from 1 to [len(profiles)]. *)
Fixpoint selectProfileLoop (profiles : list ProfileInfo) (lines : list string)
  (cfg : Config) (tr : list Event) : (Error + unit) * AppState :=
  let tr := (tr ++ [EvPrint (MSelectProfile (len profiles))])%list in
  match lines with
  | [] => (inl ErrReadInput, mkState cfg [] (tr ++ [EvReadLine None]))
  | l :: rest =>
      let input := l ++ nl in
      let tr := (tr ++ [EvReadLine (Some input)])%list in
      let (choice, err) := Atoi (TrimSpace input) in
      if negb (isNil err) || (choice <? 1) || (len profiles <? choice) then
        selectProfileLoop profiles rest cfg
          (tr ++ [EvPrint (MInvalidSelection (len profiles))])
      else
        match nth_error profiles (Z.to_nat (choice - 1)) with
        | None => (inl ErrIndex, mkState cfg rest tr)
        | Some selectedProfile =>
            (inr tt,
             mkState (setRegion (setProfile cfg (Name selectedProfile))
                        (PRegion selectedProfile))
               rest tr)
        end
  end.

(** [SelectProfile]. *)
Definition SelectProfile : M unit :=
  profiles <- GetAWSProfiles ;;
  if len profiles =? 0 then fail ErrNoProfiles
  else if len profiles =? 1 then
    match nth_error profiles 0 with
    | None => fail ErrIndex
    | Some p =>
        cfg <- getConfig ;;
        putConfig (setRegion (setProfile cfg (Name p)) (PRegion p)) ;;
        cfg <- getConfig ;;
        print (MUsingProfile (Profile cfg) (Region cfg))
    end
  else
    print MAvailableProfiles ;;
    forEachIndexed 0 profiles (fun i profile =>
      print (MProfileItem (i + 1) (Name profile) (PRegion profile))) ;;
    (fun st => selectProfileLoop profiles (stdin st) (config st) (trace st)).

(** [CheckSSOSession]: the value and the error it returns. *)
Definition CheckSSOSession : M (bool * option Error) :=
  cfg <- getConfig ;;
  r <- Execute "aws" ["sts"; "get-caller-identity"; "--profile"; Profile cfg] ;;
  ret (isNil (snd r), None).

(** [LoginSSO]. *)
Definition LoginSSO : M unit :=
  cfg <- getConfig ;;
  if SkipSSO cfg then ret tt
  else
    print MLoggingIn ;;
    err <- runCmd "aws" ["sso"; "login"; "--profile"; Profile cfg] ;;
    match err with
    | Some e => fail (ErrLogin e)
    | None => print MLoginOk
    end.

(** [ListEKSClusters]. *)
Definition ListEKSClusters : M (list string) :=
  print MFetchingClusters ;;
  cfg <- getConfig ;;
  r <- Execute "aws" ["eks"; "list-clusters";
                      "--profile"; Profile cfg;
                      "--region"; Region cfg;
                      "--output"; "json"] ;;
  match snd r with
  | Some err => fail (ErrListClusters err)
  | None =>
      let (response, err) := Unmarshal (fst r) (mkListClustersResponse []) in
      match err with
      | Some e => fail (ErrParseClusters e)
      | None => ret (Clusters response)
      end
  end.

(** The [for] loop of [SelectCluster]. *)
Fixpoint selectClusterLoop (clusters : list string) (lines : list string)
  (cfg : Config) (tr : list Event) : (Error + unit) * AppState :=
  let tr := (tr ++ [EvPrint (MSelectCluster (len clusters))])%list in
  match lines with
  | [] => (inl ErrReadInput, mkState cfg [] (tr ++ [EvReadLine None]))
  | l :: rest =>
      let input := l ++ nl in
      let tr := (tr ++ [EvReadLine (Some input)])%list in
      let (choice, err) := Atoi (TrimSpace input) in
      if negb (isNil err) || (choice <? 1) || (len clusters <? choice) then
        selectClusterLoop clusters rest cfg
          (tr ++ [EvPrint (MInvalidSelection (len clusters))])
      else
        match nth_error clusters (Z.to_nat (choice - 1)) with
        | None => (inl ErrIndex, mkState cfg rest tr)
        | Some c => (inr tt, mkState (setCluster cfg c) rest tr)
        end
  end.

(** [SelectCluster]. *)
Definition SelectCluster : M unit :=
  clusters <- ListEKSClusters ;;
  cfg <- getConfig ;;
  if len clusters =? 0 then fail (ErrNoClusters (Region cfg) (Profile cfg))
  else if len clusters =? 1 then
    match nth_error clusters 0 with
    | None => fail ErrIndex
    | Some c =>
        putConfig (setCluster cfg c) ;;
        cfg <- getConfig ;;
        print (MUsingCluster (Cluster cfg))
    end
  else
    print (MAvailableClusters (Region cfg)) ;;
    forEachIndexed 0 clusters (fun i cluster =>
      print (MClusterItem (i + 1) cluster)) ;;
    (fun st => selectClusterLoop clusters (stdin st) (config st) (trace st)).

(** The arguments [UpdateKubeconfig] gives to [aws]. *)
Definition updateKubeconfigArgs (cfg : Config) : list string :=
  ["eks"; "update-kubeconfig";
   "--region"; Region cfg;
   "--name"; Cluster cfg;
   "--profile"; Profile cfg].

(** [UpdateKubeconfig]. *)
Definition UpdateKubeconfig : M unit :=
  cfg <- getConfig ;;
  print (MUpdatingKubeconfig (Cluster cfg)) ;;
  err <- runCmd "aws" (updateKubeconfigArgs cfg) ;;
  match err with
  | Some e => fail (ErrUpdateKubeconfig e)
  | None => print MKubeconfigUpdated
  end.

(** [VerifyConnection]. *)
Definition VerifyConnection : M unit :=
  print MVerifying ;;
  r <- Execute "kubectl" ["cluster-info"] ;;
  match snd r with
  | Some _ => print MUnableToVerify
  | None =>
      print MConnected ;;
      c <- Execute "kubectl" ["config"; "current-context"] ;;
      (if isNil (snd c) then print (MCurrentContext (fst c)) else ret tt) ;;
      print (MClusterInfo (TrimSpace (fst r)))
  end.

(** [ShowSummary]. *)
Definition ShowSummary : M unit :=
  cfg <- getConfig ;;
  print MLoginComplete ;;
  print (MSummaryProfile (Profile cfg)) ;;
  print (MSummaryRegion (Region cfg)) ;;
  print (MSummaryCluster (Cluster cfg)) ;;
  print MSummaryHint.

(** [Run]: the main application logic. *)
Definition Run : M unit :=
  CheckDependencies ;;
  cfg <- getConfig ;;
  (if String.eqb (Profile cfg) EmptyString then SelectProfile else ret tt) ;;
  r <- CheckSSOSession ;;
  match snd r with
  | Some err => fail (ErrCheckSSO err)
  | None =>
      (if fst r then print MSessionValid else LoginSSO) ;;
      cfg <- getConfig ;;
      (if String.eqb (Cluster cfg) EmptyString then SelectCluster else ret tt) ;;
      UpdateKubeconfig ;;
      VerifyConnection ;;
      ShowSummary
  end.

(** The command line as [cobra] hands it over: the root command with the
    flags that were given ([None] for a flag left out), or the [version]
    command. *)
Record Flags : Type := mkFlags {
  flagProfile : option string;
  flagRegion : option string;
  flagCluster : option string;
  flagSkipSSO : option bool;
  flagInteractive : option bool
}.

Inductive CommandLine : Type :=
  | CmdRoot (f : Flags)
  | CmdVersion.

Definition orDefault {A : Type} (o : option A) (d : A) : A :=
  match o with Some a => a | None => d end.

(** The flags bound to the fields of [app.config], each with its default. *)
Definition bindFlags (app : Config) (f : Flags) : Config :=
  mkConfig
    (orDefault (flagProfile f) EmptyString)
    (orDefault (flagRegion f) (DefaultRegion app))
    (orDefault (flagCluster f) EmptyString)
    (orDefault (flagInteractive f) true)
    (orDefault (flagSkipSSO f) false)
    (DefaultRegion app).

(** [main]: the exit status and the final state.  Returning from [main]
    is status 0; what [cobra] prints of its own is not in the trace. *)
Definition main (cl : CommandLine) (input : list string) : Z * AppState :=
  let app := NewEKSLoginApp in
  match cl with
  | CmdVersion =>
      (0, mkState app input [EvPrint MVersion])
  | CmdRoot f =>
      match Run (mkState (bindFlags app f) input []) with
      | (inr _, st) => (0, st)
      | (inl err, st) =>
          (1, mkState (config st) (stdin st)
                (trace st ++ [EvPrint (MError err); EvExit 1]))
      end
  end.

End App.

(** Equality of argument lists, for the worlds of the examples. *)
Fixpoint argsEqb (a b : list string) : bool :=
  match a, b with
  | [], [] => true
  | x :: a', y :: b' => String.eqb x y && argsEqb a' b'
  | _, _ => false
  end.

(** A world in which every tool is there and every command succeeds with
    the same output. *)
Definition quietWorld (out : string) : World :=
  mkWorld (fun _ _ => true) (fun _ _ _ => CmdOk out) (fun _ _ _ => None).

(* ===================================================================== *)
(** ** The vocabulary of the statements *)
(* ===================================================================== *)

(** *** What a step may do

    [frameAt proj Pev Qerr m st]: run from [st], the step [m] leaves the
    part [proj] of the configuration as it was, only adds events to the
    trace, all of them in [Pev], and returns no error outside [Qerr]. *)

Definition frameAt {T A : Type} (proj : Config -> T) (Pev : Event -> Prop)
  (Qerr : Error -> Prop) (m : M A) (st : AppState) : Prop :=
  proj (config (snd (m st))) = proj (config st)
  /\ (exists evs, trace (snd (m st)) = (trace st ++ evs)%list /\ Forall Pev evs)
  /\ (forall e, fst (m st) = inl e -> Qerr e).

Definition frame {T A : Type} (proj : Config -> T) (Pev : Event -> Prop)
  (Qerr : Error -> Prop) (m : M A) : Prop :=
  forall st, frameAt proj Pev Qerr m st.

(** *** The signature of each step

    For each step of the run: the part of the configuration it keeps, the
    events it may add, and the errors it may return. *)

Definition keepAll (c : Config) : Config := c.

Definition keepButProfile (c : Config) : string * bool * bool * string :=
  (Cluster c, Interactive c, SkipSSO c, DefaultRegion c).

Definition keepButCluster (c : Config)
  : string * string * bool * bool * string :=
  (Profile c, Region c, Interactive c, SkipSSO c, DefaultRegion c).

Definition evCheckDependencies (ev : Event) : Prop :=
  match ev with
  | EvPrint MCheckingDeps | EvPrint (MDepFound _) | EvLookPath _ _ => True
  | _ => False
  end.

Definition evSelectProfile (ev : Event) : Prop :=
  match ev with
  | EvPrint (MUsingProfile _ _) | EvPrint MAvailableProfiles
  | EvPrint (MProfileItem _ _ _) | EvPrint (MSelectProfile _)
  | EvPrint (MInvalidSelection _) | EvReadLine _ => True
  | EvOutput name args _ =>
      name = "aws" /\ exists rest, args = "configure" :: rest
  | _ => False
  end.

Definition evCheckSSOSession (ev : Event) : Prop :=
  match ev with
  | EvOutput name args _ =>
      name = "aws"
      /\ exists p, args = ["sts"; "get-caller-identity"; "--profile"; p]
  | _ => False
  end.

Definition evLoginSSO (ev : Event) : Prop :=
  match ev with
  | EvPrint MLoggingIn | EvPrint MLoginOk => True
  | EvRun name args _ =>
      name = "aws" /\ exists p, args = ["sso"; "login"; "--profile"; p]
  | _ => False
  end.

Definition evSelectCluster (ev : Event) : Prop :=
  match ev with
  | EvPrint MFetchingClusters | EvPrint (MUsingCluster _)
  | EvPrint (MAvailableClusters _) | EvPrint (MClusterItem _ _)
  | EvPrint (MSelectCluster _) | EvPrint (MInvalidSelection _)
  | EvReadLine _ => True
  | EvOutput name args _ =>
      name = "aws" /\ exists rest, args = "eks" :: "list-clusters" :: rest
  | _ => False
  end.

Definition evUpdateKubeconfig (ev : Event) : Prop :=
  match ev with
  | EvPrint (MUpdatingKubeconfig _) | EvPrint MKubeconfigUpdated => True
  | EvRun name args _ =>
      name = "aws" /\ exists cfg, args = updateKubeconfigArgs cfg
  | _ => False
  end.

Definition evVerifyConnection (ev : Event) : Prop :=
  match ev with
  | EvPrint MVerifying | EvPrint MUnableToVerify | EvPrint MConnected
  | EvPrint (MCurrentContext _) | EvPrint (MClusterInfo _) => True
  | EvOutput name _ _ => name = "kubectl"
  | _ => False
  end.

Definition evShowSummary (ev : Event) : Prop :=
  match ev with
  | EvPrint MLoginComplete | EvPrint (MSummaryProfile _)
  | EvPrint (MSummaryRegion _) | EvPrint (MSummaryCluster _)
  | EvPrint MSummaryHint => True
  | _ => False
  end.

Definition errCheckDependencies (e : Error) : Prop :=
  match e with ErrDependency _ => True | _ => False end.

Definition errSelectProfile (e : Error) : Prop :=
  match e with
  | ErrListProfiles _ | ErrNoProfiles | ErrReadInput => True
  | _ => False
  end.

Definition errNone (e : Error) : Prop := False.

Definition errLoginSSO (e : Error) : Prop :=
  match e with ErrLogin _ => True | _ => False end.

Definition errSelectCluster (e : Error) : Prop :=
  match e with
  | ErrListClusters _ | ErrParseClusters _ | ErrNoClusters _ _
  | ErrReadInput => True
  | _ => False
  end.

Definition errUpdateKubeconfig (e : Error) : Prop :=
  match e with ErrUpdateKubeconfig _ => True | _ => False end.

(** *** The steps as [Run] takes them *)

(** The profile step and the cluster step as [Run] takes them: the
    resolver is run only when the field is empty. *)
Definition profileStep (w : World) : M unit :=
  fun st =>
    if String.eqb (Profile (config st)) EmptyString
    then SelectProfile w st else (inr tt, st).

Definition clusterStep (w : World) : M unit :=
  fun st =>
    if String.eqb (Cluster (config st)) EmptyString
    then SelectCluster w st else (inr tt, st).

(** The login step as [Run] takes it, after the session check gave
    [valid]. *)
Definition loginStep (w : World) (valid : bool) : M unit :=
  if valid then print MSessionValid else LoginSSO w.

Definition evLoginStep (ev : Event) : Prop :=
  match ev with
  | EvPrint MSessionValid => True
  | _ => evLoginSSO ev
  end.

Definition succeeded (res : CmdResult) : bool :=
  match res with CmdOk _ => true | _ => false end.

(** *** C5: when the login subprocess is started *)

(** The login subprocess: [aws sso login ...] on the terminal. *)
Definition isLogin (ev : Event) : Prop :=
  match ev with
  | EvRun name args _ =>
      name = "aws" /\ exists rest, args = "sso" :: "login" :: rest
  | _ => False
  end.

(** The session check: [aws sts get-caller-identity ...], with whether it
    succeeded. *)
Definition sessionCheck (ev : Event) (ok : bool) : Prop :=
  match ev with
  | EvOutput name args res =>
      name = "aws"
      /\ (exists rest, args = "sts" :: "get-caller-identity" :: rest)
      /\ succeeded res = ok
  | _ => False
  end.

(** A world in which the session of every profile has expired: the
    identity call fails, everything else succeeds. *)
Definition worldSessionExpired : World :=
  mkWorld
    (fun _ _ => true)
    (fun _ name args =>
       if argsEqb (firstn 1 args) ["sts"]
       then CmdExit "exit status 255" "The SSO session has expired"
       else CmdOk "ok")
    (fun _ _ _ => None).

Definition flagsNoSkip : Flags :=
  mkFlags (Some "a") None (Some "prod") None None.

(** [a] comes before [b] in [l]. *)
Definition before {A : Type} (a b : A) (l : list A) : Prop :=
  exists l1 l2 l3, l = (l1 ++ a :: l2 ++ b :: l3)%list.

(** Neither a login nor a session check. *)
Definition quiet (ev : Event) : Prop :=
  ~ isLogin ev /\ forall ok, ~ sessionCheck ev ok.

(** *** C7: the connection check cannot fail the run *)

(** The lines of the summary for a configuration. *)
Definition summaryEvents (cfg : Config) : list Event :=
  [EvPrint MLoginComplete;
   EvPrint (MSummaryProfile (Profile cfg));
   EvPrint (MSummaryRegion (Region cfg));
   EvPrint (MSummaryCluster (Cluster cfg));
   EvPrint MSummaryHint].

(** A config update that succeeded, in a trace. *)
Definition isUpdateOk (ev : Event) : Prop :=
  match ev with
  | EvRun name args None =>
      name = "aws" /\ exists rest, args = "eks" :: "update-kubeconfig" :: rest
  | _ => False
  end.

Definition isKubectl (ev : Event) : Prop :=
  match ev with
  | EvOutput name _ _ => name = "kubectl"
  | _ => False
  end.

(** A world in which the tools are there and [aws] does what it is asked,
    but [kubectl] cannot reach the cluster. *)
Definition worldKubectlDown : World :=
  mkWorld
    (fun _ _ => true)
    (fun _ name _ =>
       if String.eqb name "kubectl"
       then CmdExit "exit status 1" "connection refused"
       else CmdOk "ok")
    (fun _ _ _ => None).

Definition flagsAll : Flags :=
  mkFlags (Some "a") None (Some "prod") (Some true) None.

(** *** C1: a run with profile, cluster and skip flag given *)

(** The prompts of the two selection steps and what goes with them: the
    listing headers, the prompt lines and any read from the terminal. *)
Definition isPrompt (ev : Event) : Prop :=
  match ev with
  | EvPrint MAvailableProfiles | EvPrint (MProfileItem _ _ _)
  | EvPrint (MSelectProfile _) | EvPrint (MAvailableClusters _)
  | EvPrint (MClusterItem _ _) | EvPrint (MSelectCluster _)
  | EvPrint (MInvalidSelection _) | EvReadLine _ => True
  | _ => False
  end.

(** *** C9: the interactive flag is never read *)

(** The same state with the interactive flag set to [b]. *)
Definition withInteractive (b : bool) (st : AppState) : AppState :=
  mkState (setInteractive (config st) b) (stdin st) (trace st).

(** A step does not look at the flag: run with another value of it, the
    step returns the same result, and leaves the same state but for the
    flag. *)
Definition blindAt {A : Type} (m m' : M A) (b : bool) (st : AppState) : Prop :=
  m' (withInteractive b st) = (fst (m st), withInteractive b (snd (m st))).

Definition blind {A : Type} (m : M A) : Prop :=
  forall b st, blindAt m m b st.

(** *** C4: the selection loops *)

(** What the loops make of a line typed at the prompt. *)
Definition parsedLine (l : string) : Z * option NumError :=
  Atoi (TrimSpace (l ++ nl)).

(** A line the loops reject, with [n] items listed: it is no number (or
    one that does not fit an [int]), or it is zero or negative, or it is
    greater than [n]. *)
Definition invalidLine (n : Z) (l : string) : Prop :=
  snd (parsedLine l) <> None \/ fst (parsedLine l) < 1 \/ n < fst (parsedLine l).

(** A line the loops accept as the choice [k]. *)
Definition validLine (n : Z) (l : string) (k : Z) : Prop :=
  parsedLine l = (k, None) /\ 1 <= k <= n.

(** The events of the rounds that rejected the lines [pre]. *)
Definition rejected (prompt : Msg) (n : Z) (pre : list string) : list Event :=
  flat_map (fun l => [EvPrint prompt; EvReadLine (Some (l ++ nl));
                      EvPrint (MInvalidSelection n)]) pre.

(** *** C3: selection by the number of items found *)

(** The lines of a numbered listing, from index [i]. *)
Fixpoint listing {A : Type} (item : Z -> A -> Msg) (i : Z) (l : list A)
  : list Event :=
  match l with
  | [] => []
  | x :: l' => EvPrint (item (i + 1) x) :: listing item (i + 1) l'
  end.

Definition profileItem (i : Z) (p : ProfileInfo) : Msg :=
  MProfileItem i (Name p) (PRegion p).

Definition clusterItem (i : Z) (c : string) : Msg := MClusterItem i c.

(** *** C8: the region of a profile *)

(** The region [GetAWSProfiles] gives a profile, from what the region
    lookup came to: its trimmed output, or the default when the lookup
    failed or gave nothing. *)
Definition regionOf (dflt : string) (res : CmdResult) : string :=
  match res with
  | CmdOk out =>
      if String.eqb (TrimSpace out) EmptyString then dflt else TrimSpace out
  | _ => dflt
  end.

Definition regionLookup (nr : string * CmdResult) : Event :=
  EvOutput "aws" ["configure"; "get"; "region"; "--profile"; fst nr] (snd nr).

Definition nonEmpty (s : string) : bool := negb (String.eqb s EmptyString).

(** The names [GetAWSProfiles] takes from the output of the listing. *)
Definition profileNames (output : string) : list string :=
  filter nonEmpty (map TrimSpace (Split output newline)).

(** A world with the profiles dev and prod, of regions us-west-2 and
    us-east-1, and one cluster. *)
Definition worldDevProd : World :=
  mkWorld
    (fun _ _ => true)
    (fun _ name args =>
       if argsEqb args ["configure"; "list-profiles"]
       then CmdOk ("dev" ++ nl ++ "prod" ++ nl)
       else if argsEqb args ["configure"; "get"; "region"; "--profile"; "dev"]
       then CmdOk ("us-west-2" ++ nl)
       else if argsEqb args ["configure"; "get"; "region"; "--profile"; "prod"]
       then CmdOk ("us-east-1" ++ nl)
       else if argsEqb (firstn 2 args) ["eks"; "list-clusters"]
       then CmdOk ("{" ++ dquote ++ "clusters" ++ dquote ++ ": ["
                   ++ dquote ++ "main" ++ dquote ++ "]}" ++ nl)
       else CmdOk "ok")
    (fun _ _ _ => None).

Definition noFlags : Flags := mkFlags None None None None None.

(** What the world answers to the region lookups of the names, one after
    the other, from the trace [tr] on. *)
Fixpoint lookups (w : World) (tr : list Event) (names : list string)
  : list CmdResult :=
  match names with
  | [] => []
  | name :: names' =>
      let res :=
        wOutput w tr "aws" ["configure"; "get"; "region"; "--profile"; name] in
      res :: lookups w (tr ++ [regionLookup (name, res)]) names'
  end.

(** A world with the profiles dev and prod and no region to be had: the
    lookup fails for dev and gives an empty line for prod. *)
Definition worldNoRegion : World :=
  mkWorld
    (fun _ _ => true)
    (fun _ name args =>
       if argsEqb args ["configure"; "list-profiles"]
       then CmdOk ("dev" ++ nl ++ "prod" ++ nl)
       else if argsEqb args ["configure"; "get"; "region"; "--profile"; "dev"]
       then CmdExit "exit status 1" EmptyString
       else if argsEqb args ["configure"; "get"; "region"; "--profile"; "prod"]
       then CmdOk nl
       else if argsEqb (firstn 2 args) ["eks"; "list-clusters"]
       then CmdOk ("{" ++ dquote ++ "clusters" ++ dquote ++ ": ["
                   ++ dquote ++ "main" ++ dquote ++ "]}" ++ nl)
       else CmdOk "ok")
    (fun _ _ _ => None).

Definition flagsRegion : Flags :=
  mkFlags None (Some "eu-central-1") None None None.

(** *** C10: a cluster listing without the clusters key *)

(** The arguments [ListEKSClusters] gives to [aws]. *)
Definition listClustersArgs (cfg : Config) : list string :=
  ["eks"; "list-clusters"; "--profile"; Profile cfg; "--region"; Region cfg;
   "--output"; "json"].

(** Events that are no captured subprocess. *)
Definition notOutput (ev : Event) : Prop :=
  match ev with EvOutput _ _ _ => False | _ => True end.

(** A cluster listing in a trace. *)
Definition isListClusters (ev : Event) : Prop :=
  match ev with
  | EvOutput name args _ =>
      name = "aws" /\ exists rest, args = "eks" :: "list-clusters" :: rest
  | _ => False
  end.

(** A world whose cluster listing gives the output [out]; everything
    else succeeds. *)
Definition worldListing (out : string) : World :=
  mkWorld
    (fun _ _ => true)
    (fun _ name args =>
       if argsEqb (firstn 2 args) ["eks"; "list-clusters"]
       then CmdOk out else CmdOk "ok")
    (fun _ _ _ => None).

Definition flagsProfile : Flags := mkFlags (Some "a") None None None None.

(** *** Concrete data *)

Definition threeProfiles : list ProfileInfo :=
  [mkProfileInfo "dev" "us-west-2"; mkProfileInfo "staging" "eu-west-1";
   mkProfileInfo "prod" "us-east-1"].

(** *** Further properties of the code *)

(** The errors [Run] can return. *)
Definition errRun (e : Error) : Prop :=
  match e with
  | ErrDependency _ | ErrListProfiles _ | ErrNoProfiles | ErrReadInput
  | ErrLogin _ | ErrListClusters _ | ErrParseClusters _ | ErrNoClusters _ _
  | ErrUpdateKubeconfig _ => True
  | _ => False
  end.

(** The events of the steps of [Run] before the summary. *)
Definition evBody (ev : Event) : Prop :=
  evCheckDependencies ev \/ evSelectProfile ev \/ evCheckSSOSession ev
  \/ evLoginStep ev \/ evSelectCluster ev \/ evUpdateKubeconfig ev
  \/ evVerifyConnection ev.

(** A line of the summary, or the exit. *)
Definition isClosing (ev : Event) : Prop :=
  match ev with
  | EvExit _ => True
  | _ => evShowSummary ev
  end.

(** A world in which [aws] is installed and [kubectl] is not. *)
Definition worldNoKubectl : World :=
  mkWorld
    (fun _ file => String.eqb file "aws")
    (fun _ _ _ => CmdOk "ok")
    (fun _ _ _ => None).

(** A subprocess on the terminal that failed. *)
Definition isFailedRun (ev : Event) : Prop :=
  match ev with EvRun _ _ (Some _) => True | _ => False end.

(** Neither a failed subprocess on the terminal nor a [kubectl] call. *)
Definition calm (ev : Event) : Prop := ~ isFailedRun ev /\ ~ isKubectl ev.

(** The arguments [LoginSSO] gives to [aws]. *)
Definition loginArgs (cfg : Config) : list string :=
  ["sso"; "login"; "--profile"; Profile cfg].

(** A world in which the login fails. *)
Definition worldLoginFails : World :=
  mkWorld
    (fun _ _ => true)
    (fun _ name args =>
       if argsEqb (firstn 1 args) ["sts"]
       then CmdExit "exit status 255" "The SSO session has expired"
       else CmdOk "ok")
    (fun _ name args =>
       if argsEqb (firstn 2 args) ["sso"; "login"]
       then Some "exit status 1" else None).

(** No event of the two selection steps. *)
Definition noSelection (ev : Event) : Prop :=
  ~ evSelectProfile ev /\ ~ evSelectCluster ev.

(** The errors of a run that selects nothing. *)
Definition errGiven (e : Error) : Prop :=
  match e with
  | ErrDependency _ | ErrLogin _ | ErrUpdateKubeconfig _ => True
  | _ => False
  end.

(** What is started on the terminal for a configuration: the login or
    the config update, by [aws], with the arguments the configuration
    gives. *)
Definition runsFor (cfg : Config) (ev : Event) : Prop :=
  match ev with
  | EvRun name args _ =>
      name = "aws" /\ (args = loginArgs cfg \/ args = updateKubeconfigArgs cfg)
  | _ => True
  end.

(** The arguments [CheckSSOSession] gives to [aws]. *)
Definition sessionArgs (cfg : Config) : list string :=
  ["sts"; "get-caller-identity"; "--profile"; Profile cfg].

(** The tools looked up and the commands captured in a run for a
    configuration: [aws] and [kubectl] on the PATH; the profile listing,
    a region lookup, the session check and the cluster listing by [aws],
    the last two with the profile and the region of the configuration;
    the two queries of [kubectl]. *)
Definition cmdFor (cfg : Config) (ev : Event) : Prop :=
  match ev with
  | EvLookPath file _ => file = "aws" \/ file = "kubectl"
  | EvOutput name args _ =>
      (name = "aws"
       /\ (args = ["configure"; "list-profiles"]
           \/ (exists profile,
                 args = ["configure"; "get"; "region"; "--profile"; profile])
           \/ args = sessionArgs cfg
           \/ args = listClustersArgs cfg))
      \/ (name = "kubectl"
          /\ (args = ["cluster-info"] \/ args = ["config"; "current-context"]))
  | _ => True
  end.

(** No part of the configuration, and any error. *)
Definition keepNone (c : Config) : unit := tt.

Definition errAny (e : Error) : Prop := True.

(** The value of the decimal digits [d], read onto [acc] as [Atoi] reads
    them. *)
Fixpoint decimalValue (acc : Z) (d : Decimal.uint) : Z :=
  match d with
  | Decimal.Nil => acc
  | Decimal.D0 d' => decimalValue (acc * 10 + 0) d'
  | Decimal.D1 d' => decimalValue (acc * 10 + 1) d'
  | Decimal.D2 d' => decimalValue (acc * 10 + 2) d'
  | Decimal.D3 d' => decimalValue (acc * 10 + 3) d'
  | Decimal.D4 d' => decimalValue (acc * 10 + 4) d'
  | Decimal.D5 d' => decimalValue (acc * 10 + 5) d'
  | Decimal.D6 d' => decimalValue (acc * 10 + 6) d'
  | Decimal.D7 d' => decimalValue (acc * 10 + 7) d'
  | Decimal.D8 d' => decimalValue (acc * 10 + 8) d'
  | Decimal.D9 d' => decimalValue (acc * 10 + 9) d'
  end.

(** A string of decimal digits. *)
Fixpoint allDigits (s : string) : bool :=
  match s with
  | EmptyString => true
  | String c t => isDigit c && allDigits t
  end.

(** The same state with the region set to [r]. *)
Definition withRegion (r : string) (st : AppState) : AppState :=
  mkState (setRegion (config st) r) (stdin st) (trace st).

(** Two results of a step that tell the same to the outside: the same
    value or error, and the same state (configuration, input left and
    trace), but that after a failure the region may still be [r] in the
    second. *)
Definition sameBut (r : string) {A : Type} (a b : (Error + A) * AppState)
  : Prop :=
  fst b = fst a
  /\ match fst a with
     | inr _ => snd b = snd a
     | inl _ => snd b = withRegion r (snd a) \/ snd b = snd a
     end.

(** The error [Execute] returns for what the command came to: none when
    it gave an output, the exit error with the standard error collected,
    or the error of a command that could not be started. *)
Definition executeError (res : CmdResult) : option Error :=
  match res with
  | CmdOk _ => None
  | CmdExit err stderr => Some (ErrCommandFailed err stderr)
  | CmdFail err => Some (ErrCommand err)
  end.

(** A listing by [aws], of the profiles or of the clusters, that
    failed. *)
Definition isFailedListing (ev : Event) : Prop :=
  match ev with
  | EvOutput name args res =>
      name = "aws"
      /\ succeeded res = false
      /\ (args = ["configure"; "list-profiles"]
          \/ exists rest, args = "eks" :: "list-clusters" :: rest)
  | _ => False
  end.

(** The error of the run that a failed listing ends. *)
Definition listingError (ev : Event) : option Error :=
  match ev with
  | EvOutput _ args res =>
      if argsEqb args ["configure"; "list-profiles"]
      then option_map ErrListProfiles (executeError res)
      else option_map ErrListClusters (executeError res)
  | _ => None
  end.

(** A world in which the cluster listing is refused. *)
Definition worldListingRefused : World :=
  mkWorld
    (fun _ _ => true)
    (fun _ name args =>
       if argsEqb (firstn 2 args) ["eks"; "list-clusters"]
       then CmdExit "exit status 254" "AccessDeniedException"
       else CmdOk "ok")
    (fun _ _ _ => None).

(* ===================================================================== *)
(** ** The library functions on examples *)
(* ===================================================================== *)

Example TrimSpace_ex1 : TrimSpace ("  2 " ++ nl) = "2".
Proof. reflexivity. Qed.

Example Atoi_ex1 : Atoi "+007" = (7, None).
Proof. reflexivity. Qed.

Example Atoi_ex2 : Atoi "9223372036854775808" = (maxInt, Some ErrRange).
Proof. reflexivity. Qed.

Example Split_ex1 :
  Split ("dev" ++ nl ++ nl ++ "prod") newline = ["dev"; EmptyString; "prod"].
Proof. reflexivity. Qed.

Example Split_ex2 : Split EmptyString newline = [EmptyString].
Proof. reflexivity. Qed.

(** The no-break space U+00A0 is trimmed, as [unicode.IsSpace] has it. *)
Example TrimSpace_ex2 :
  TrimSpace (String (chr 194) (String (chr 160) "1 ")) = "1".
Proof. reflexivity. Qed.

Example Atoi_ex3 : Atoi "2x" = (0, Some ErrSyntax) /\ Atoi "-" = (0, Some ErrSyntax).
Proof. split; reflexivity. Qed.

Example parse_ex1 :
  parse " [1, -2.5e3, true, null, {}] "
  = Some (JArray [JNumber "1"; JNumber "-2.5e3"; JBool true; JNull; JObject []]).
Proof. reflexivity. Qed.

Example parse_ex2 : parse "[1,]" = None /\ parse "01" = None /\ parse "{} x" = None.
Proof. repeat split; reflexivity. Qed.

(** Keys are matched without regard to case, the long s included. *)
Example equalFoldRight_ex :
  equalFoldRight "clusters" "CLUSTERS" = true
  /\ equalFoldRight "clusters"
       ("clu" ++ String (chr 197) (String (chr 191) "ters")) = true
  /\ equalFoldRight "clusters" "cluster" = false
  /\ equalFoldRight "clusters" "clusters " = false.
Proof. repeat split; reflexivity. Qed.

(** A later member for the same field replaces the list; a value of the
    wrong kind is an error. *)
Example Unmarshal_ex :
  let q := fun s => dquote ++ s ++ dquote in
  Unmarshal ("{" ++ q "clusters" ++ ":[" ++ q "a" ++ "," ++ q "b" ++ "],"
             ++ q "Clusters" ++ ":[" ++ q "c" ++ "]}")
    (mkListClustersResponse [])
  = (mkListClustersResponse ["c"], None)
  /\ snd (Unmarshal ("{" ++ q "clusters" ++ ":3}") (mkListClustersResponse []))
     = Some (UnmarshalTypeError "number")
  /\ Unmarshal "null" (mkListClustersResponse [])
     = (mkListClustersResponse [], None).
Proof. repeat split; reflexivity. Qed.

Example render_ex :
  render (MProfileItem 2 "prod" "us-east-1")
  = "  2. prod (region: us-east-1)" ++ nl.
Proof. reflexivity. Qed.

(* ===================================================================== *)
(** ** What a step may do: a frame for every step *)
(* ===================================================================== *)

(** The rules of [frameAt] for the combinators of a step. *)
Section Frame.

Context {T : Type}.
Variable proj : Config -> T.
Variable Pev : Event -> Prop.
Variable Qerr : Error -> Prop.

Lemma frameAt_ret {A : Type} (a : A) st : frameAt proj Pev Qerr (ret a) st.
Proof.
  repeat split; simpl.
  - exists []. rewrite app_nil_r. auto.
  - intros e H. discriminate H.
Qed.

Lemma frameAt_fail {A : Type} (e : Error) st :
  Qerr e -> frameAt proj Pev Qerr (@fail A e) st.
Proof.
  intros He. repeat split; simpl.
  - exists []. rewrite app_nil_r. auto.
  - intros e' H. inversion H. subst. exact He.
Qed.

Lemma frameAt_bind {A B : Type} (m : M A) (k : A -> M B) st :
  frameAt proj Pev Qerr m st ->
  (forall a st', m st = (inr a, st') -> frameAt proj Pev Qerr (k a) st') ->
  frameAt proj Pev Qerr (bind m k) st.
Proof.
  intros (Hc & (evs & Ht & Hp) & He) Hk. unfold frameAt, bind.
  destruct (m st) as [[e | a] st'] eqn:Hm; simpl in *.
  - split; [exact Hc | split; [exists evs; split; assumption |]].
    intros e0 H0. inversion H0. subst. apply He. reflexivity.
  - destruct (Hk a st' eq_refl) as (Hc' & (evs' & Ht' & Hp') & He').
    repeat split.
    + congruence.
    + exists (evs ++ evs')%list. split.
      * rewrite Ht', Ht, app_assoc. reflexivity.
      * apply Forall_app. auto.
    + exact He'.
Qed.

Lemma frameAt_emit ev st : Pev ev -> frameAt proj Pev Qerr (emit ev) st.
Proof.
  intros Hev. repeat split; simpl.
  - exists [ev]. auto.
  - intros e H. discriminate H.
Qed.

Lemma frameAt_print m st : Pev (EvPrint m) -> frameAt proj Pev Qerr (print m) st.
Proof. apply frameAt_emit. Qed.

Lemma frameAt_getConfig st : frameAt proj Pev Qerr getConfig st.
Proof.
  repeat split; simpl.
  - exists []. rewrite app_nil_r. auto.
  - intros e H. discriminate H.
Qed.

Lemma frameAt_putConfig c st :
  proj c = proj (config st) -> frameAt proj Pev Qerr (putConfig c) st.
Proof.
  intros Hc. repeat split; simpl.
  - exact Hc.
  - exists []. rewrite app_nil_r. auto.
  - intros e H. discriminate H.
Qed.

Lemma getConfig_inv st a st' :
  getConfig st = (inr a, st') -> a = config st /\ st' = st.
Proof. unfold getConfig. intros H. inversion H. auto. Qed.

Lemma frame_forEach {A : Type} (l : list A) (body : A -> M unit) :
  (forall x, frame proj Pev Qerr (body x)) -> frame proj Pev Qerr (forEach l body).
Proof.
  intros Hb. induction l as [| x l IH]; intros st; simpl.
  - apply frameAt_ret.
  - apply frameAt_bind; [apply Hb | intros; apply IH].
Qed.

Lemma frame_forEachIndexed {A : Type} (l : list A) (body : Z -> A -> M unit) :
  (forall i x, frame proj Pev Qerr (body i x)) ->
  forall i, frame proj Pev Qerr (forEachIndexed i l body).
Proof.
  intros Hb. induction l as [| x l IH]; intros i st; simpl.
  - apply frameAt_ret.
  - apply frameAt_bind; [apply Hb | intros; apply IH].
Qed.

End Frame.

(** A frame can be weakened: less of the configuration kept, more events
    and more errors allowed. *)
Lemma frameAt_weaken {T U A : Type} (proj : Config -> T) (f : T -> U)
  (Pev Pev' : Event -> Prop) (Qerr Qerr' : Error -> Prop) (m : M A) st :
  (forall ev, Pev ev -> Pev' ev) ->
  (forall e, Qerr e -> Qerr' e) ->
  frameAt proj Pev Qerr m st ->
  frameAt (fun c => f (proj c)) Pev' Qerr' m st.
Proof.
  intros Hp Hq (Hc & (evs & Ht & Hf) & He). repeat split.
  - rewrite Hc. reflexivity.
  - exists evs. split; auto. eapply Forall_impl; eauto.
  - auto.
Qed.

(** A step that keeps the whole configuration keeps every part of it. *)
Lemma frameAt_keepAll {T A : Type} (proj : Config -> T)
  (Pev Pev' : Event -> Prop) (Qerr Qerr' : Error -> Prop) (m : M A) st :
  frameAt (fun c => c) Pev Qerr m st ->
  (forall ev, Pev ev -> Pev' ev) ->
  (forall e, Qerr e -> Qerr' e) ->
  frameAt proj Pev' Qerr' m st.
Proof.
  intros (Hc & (evs & Ht & Hf) & He) Hp Hq. repeat split.
  - rewrite Hc. reflexivity.
  - exists evs. split; auto. eapply Forall_impl; eauto.
  - auto.
Qed.

Section StepFrames.

Variable w : World.

Lemma frameAt_lookPath {T : Type} (proj : Config -> T) Pev Qerr file st :
  (forall found, Pev (EvLookPath file found)) ->
  frameAt proj Pev Qerr (lookPath w file) st.
Proof.
  intros Hp. repeat split; simpl.
  - eexists. split; [reflexivity |]. constructor; auto.
  - intros e H. discriminate H.
Qed.

Lemma frameAt_Execute {T : Type} (proj : Config -> T) Pev Qerr name args st :
  (forall res, Pev (EvOutput name args res)) ->
  frameAt proj Pev Qerr (Execute w name args) st.
Proof.
  intros Hp. unfold frameAt, Execute.
  destruct (wOutput w (trace st) name args) eqn:Hres; simpl;
    (repeat split;
     [ eexists; split; [reflexivity | constructor; auto]
     | intros e H; discriminate H ]).
Qed.

Lemma frameAt_runCmd {T : Type} (proj : Config -> T) Pev Qerr name args st :
  (forall res, Pev (EvRun name args res)) ->
  frameAt proj Pev Qerr (runCmd w name args) st.
Proof.
  intros Hr. repeat split; simpl.
  - eexists. split; [reflexivity |]. constructor; auto.
  - intros e H. discriminate H.
Qed.

Lemma frame_CheckDependencies :
  frame keepAll evCheckDependencies errCheckDependencies (CheckDependencies w).
Proof.
  intros st. unfold CheckDependencies.
  apply frameAt_bind; [apply frameAt_print; exact I |].
  intros _ st1 _. apply frame_forEach. intros dep st2.
  apply frameAt_bind; [apply frameAt_lookPath; intros; exact I |].
  intros found st3 _. destruct found; simpl.
  - apply frameAt_print. exact I.
  - apply frameAt_fail. exact I.
Qed.

Lemma frame_profilesOfLines lines : forall profiles,
  frame keepAll evSelectProfile errSelectProfile
    (profilesOfLines w lines profiles).
Proof.
  induction lines as [| line lines IH]; intros profiles st; simpl.
  - apply frameAt_ret.
  - destruct (String.eqb (TrimSpace line) EmptyString); simpl.
    + apply IH.
    + apply frameAt_bind.
      * apply frameAt_Execute. intros res. simpl. eauto.
      * intros r st1 _. apply frameAt_bind; [apply frameAt_getConfig |].
        intros cfg st2 _. apply IH.
Qed.

Lemma frame_GetAWSProfiles :
  frame keepAll evSelectProfile errSelectProfile (GetAWSProfiles w).
Proof.
  intros st. unfold GetAWSProfiles.
  apply frameAt_bind.
  - apply frameAt_Execute. intros res. simpl. eauto.
  - intros r st1 _. destruct (snd r).
    + apply frameAt_fail. exact I.
    + apply frame_profilesOfLines.
Qed.

(** A choice the loops accept is the index of an element. *)
Lemma choice_in_range {A : Type} (l : list A) (choice : Z) :
  (choice <? 1) = false -> (len l <? choice) = false ->
  exists x, nth_error l (Z.to_nat (choice - 1)) = Some x.
Proof.
  unfold len. intros H1 H2.
  apply Z.ltb_ge in H1. apply Z.ltb_ge in H2.
  destruct (nth_error l (Z.to_nat (choice - 1))) as [x |] eqn:Hn.
  - exists x. reflexivity.
  - apply nth_error_None in Hn. lia.
Qed.

Lemma selectProfileLoop_frame profiles lines : forall cfg tr,
  frameAt keepButProfile evSelectProfile errSelectProfile
    (fun st => selectProfileLoop profiles (stdin st) (config st) (trace st))
    (mkState cfg lines tr).
Proof.
  unfold frameAt. simpl.
  induction lines as [| l rest IH]; intros cfg tr; simpl.
  - repeat split.
    + eexists. rewrite <- app_assoc. split; [reflexivity |].
      repeat constructor.
    + intros e H. inversion H. exact I.
  - destruct (Atoi (TrimSpace (l ++ nl))) as [choice err].
    destruct (negb (isNil err) || (choice <? 1) || (len profiles <? choice))
      eqn:Hbad.
    + match goal with
      | |- context [selectProfileLoop profiles rest cfg ?t] =>
          destruct (IH cfg t) as (Hc & (evs & Ht & Hp) & He)
      end.
      repeat split; auto.
      eexists. split.
      * rewrite Ht. rewrite <- !app_assoc. reflexivity.
      * simpl. repeat constructor. exact Hp.
    + apply orb_false_iff in Hbad. destruct Hbad as [Hbad H2].
      apply orb_false_iff in Hbad. destruct Hbad as [_ H1].
      destruct (choice_in_range profiles choice H1 H2) as [p Hp].
      rewrite Hp. simpl. repeat split.
      * eexists. rewrite <- app_assoc. split; [reflexivity |].
        repeat constructor.
      * intros e H. discriminate H.
Qed.

Lemma len_cons_nonzero {A : Type} (x : A) (l : list A) :
  (len (x :: l) =? 0) = false.
Proof.
  unfold len. change (List.length (x :: l)) with (S (List.length l)).
  rewrite Nat2Z.inj_succ. apply Z.eqb_neq. lia.
Qed.

Lemma frame_SelectProfile :
  frame keepButProfile evSelectProfile errSelectProfile (SelectProfile w).
Proof.
  intros st. unfold SelectProfile. apply frameAt_bind.
  - apply (frameAt_keepAll _ _ _ _ _ _ _ (frame_GetAWSProfiles st)); auto.
  - intros profiles st1 _. destruct profiles as [| p ps].
    + apply frameAt_fail. exact I.
    + rewrite len_cons_nonzero. destruct (len (p :: ps) =? 1).
      * simpl nth_error. apply frameAt_bind; [apply frameAt_getConfig |].
        intros cfg st2 Hg. apply getConfig_inv in Hg. destruct Hg; subst.
        apply frameAt_bind; [apply frameAt_putConfig; reflexivity |].
        intros _ st3 _. apply frameAt_bind; [apply frameAt_getConfig |].
        intros cfg st4 _. apply frameAt_print. exact I.
      * apply frameAt_bind; [apply frameAt_print; exact I |].
        intros _ st2 _. apply frameAt_bind.
        -- apply frame_forEachIndexed. intros i x st3.
           apply frameAt_print. exact I.
        -- intros _ st3 _. destruct st3 as [cfg lines tr].
           apply selectProfileLoop_frame.
Qed.

Lemma frame_CheckSSOSession :
  frame keepAll evCheckSSOSession errNone (CheckSSOSession w).
Proof.
  intros st. unfold CheckSSOSession.
  apply frameAt_bind; [apply frameAt_getConfig |].
  intros cfg st1 _. apply frameAt_bind.
  - apply frameAt_Execute. intros res. simpl. eauto.
  - intros r st2 _. apply frameAt_ret.
Qed.

Lemma frame_LoginSSO :
  frame keepAll evLoginSSO errLoginSSO (LoginSSO w).
Proof.
  intros st. unfold LoginSSO.
  apply frameAt_bind; [apply frameAt_getConfig |].
  intros cfg st1 _. destruct (SkipSSO cfg).
  - apply frameAt_ret.
  - apply frameAt_bind; [apply frameAt_print; exact I |].
    intros _ st2 _. apply frameAt_bind.
    + apply frameAt_runCmd. intros res. simpl. eauto.
    + intros err st3 _. destruct err.
      * apply frameAt_fail. exact I.
      * apply frameAt_print. exact I.
Qed.

Lemma frame_ListEKSClusters :
  frame keepAll evSelectCluster errSelectCluster (ListEKSClusters w).
Proof.
  intros st. unfold ListEKSClusters.
  apply frameAt_bind; [apply frameAt_print; exact I |].
  intros _ st1 _. apply frameAt_bind; [apply frameAt_getConfig |].
  intros cfg st2 _. apply frameAt_bind.
  - apply frameAt_Execute. intros res. simpl. eauto.
  - intros r st3 _. destruct (snd r).
    + apply frameAt_fail. exact I.
    + destruct (Unmarshal (fst r) (mkListClustersResponse [])) as [resp [e |]].
      * apply frameAt_fail. exact I.
      * apply frameAt_ret.
Qed.

Lemma selectClusterLoop_frame clusters lines : forall cfg tr,
  frameAt keepButCluster evSelectCluster errSelectCluster
    (fun st => selectClusterLoop clusters (stdin st) (config st) (trace st))
    (mkState cfg lines tr).
Proof.
  unfold frameAt. simpl.
  induction lines as [| l rest IH]; intros cfg tr; simpl.
  - repeat split.
    + eexists. rewrite <- app_assoc. split; [reflexivity |].
      repeat constructor.
    + intros e H. inversion H. exact I.
  - destruct (Atoi (TrimSpace (l ++ nl))) as [choice err].
    destruct (negb (isNil err) || (choice <? 1) || (len clusters <? choice))
      eqn:Hbad.
    + match goal with
      | |- context [selectClusterLoop clusters rest cfg ?t] =>
          destruct (IH cfg t) as (Hc & (evs & Ht & Hp) & He)
      end.
      repeat split; auto.
      eexists. split.
      * rewrite Ht. rewrite <- !app_assoc. reflexivity.
      * simpl. repeat constructor. exact Hp.
    + apply orb_false_iff in Hbad. destruct Hbad as [Hbad H2].
      apply orb_false_iff in Hbad. destruct Hbad as [_ H1].
      destruct (choice_in_range clusters choice H1 H2) as [p Hp].
      rewrite Hp. simpl. repeat split.
      * eexists. rewrite <- app_assoc. split; [reflexivity |].
        repeat constructor.
      * intros e H. discriminate H.
Qed.

Lemma frame_SelectCluster :
  frame keepButCluster evSelectCluster errSelectCluster (SelectCluster w).
Proof.
  intros st. unfold SelectCluster. apply frameAt_bind.
  - apply (frameAt_keepAll _ _ _ _ _ _ _ (frame_ListEKSClusters st)); auto.
  - intros clusters st1 _. apply frameAt_bind; [apply frameAt_getConfig |].
    intros cfg st2 Hg. apply getConfig_inv in Hg. destruct Hg; subst.
    destruct clusters as [| c cs].
    + apply frameAt_fail. exact I.
    + rewrite len_cons_nonzero. destruct (len (c :: cs) =? 1).
      * simpl nth_error.
        apply frameAt_bind; [apply frameAt_putConfig; reflexivity |].
        intros _ st3 _. apply frameAt_bind; [apply frameAt_getConfig |].
        intros cfg st4 _. apply frameAt_print. exact I.
      * apply frameAt_bind; [apply frameAt_print; exact I |].
        intros _ st2 _. apply frameAt_bind.
        -- apply frame_forEachIndexed. intros i x st3.
           apply frameAt_print. exact I.
        -- intros _ st3 _. destruct st3 as [cfg lines tr].
           apply selectClusterLoop_frame.
Qed.

Lemma frame_UpdateKubeconfig :
  frame keepAll evUpdateKubeconfig errUpdateKubeconfig (UpdateKubeconfig w).
Proof.
  intros st. unfold UpdateKubeconfig.
  apply frameAt_bind; [apply frameAt_getConfig |].
  intros cfg st1 _. apply frameAt_bind; [apply frameAt_print; exact I |].
  intros _ st2 _. apply frameAt_bind.
  - apply frameAt_runCmd. intros res. simpl. eauto.
  - intros err st3 _. destruct err.
    + apply frameAt_fail. exact I.
    + apply frameAt_print. exact I.
Qed.

Lemma frame_VerifyConnection :
  frame keepAll evVerifyConnection errNone (VerifyConnection w).
Proof.
  intros st. unfold VerifyConnection.
  apply frameAt_bind; [apply frameAt_print; exact I |].
  intros _ st1 _. apply frameAt_bind.
  - apply frameAt_Execute. intros res. reflexivity.
  - intros r st2 _. destruct (snd r).
    + apply frameAt_print. exact I.
    + apply frameAt_bind; [apply frameAt_print; exact I |].
      intros _ st3 _. apply frameAt_bind.
      * apply frameAt_Execute. intros res. reflexivity.
      * intros c st4 _. apply frameAt_bind.
        -- destruct (isNil (snd c)).
           ++ apply frameAt_print. exact I.
           ++ apply frameAt_ret.
        -- intros _ st5 _. apply frameAt_print. exact I.
Qed.

Lemma frame_ShowSummary :
  frame keepAll evShowSummary errNone ShowSummary.
Proof.
  intros st. unfold ShowSummary.
  apply frameAt_bind; [apply frameAt_getConfig |].
  intros cfg st1 _.
  repeat (apply frameAt_bind; [apply frameAt_print; exact I | intros _ ? _]).
  apply frameAt_print. exact I.
Qed.

End StepFrames.

(* ===================================================================== *)
(** ** The run, step by step *)
(* ===================================================================== *)

(** [Run] is the chain of its steps, each abandoned at the first error. *)
Lemma Run_unfold (w : World) (st : AppState) :
  Run w st =
  match CheckDependencies w st with
  | (inl e, s1) => (inl e, s1)
  | (inr _, s1) =>
      match profileStep w s1 with
      | (inl e, s2) => (inl e, s2)
      | (inr _, s2) =>
          match CheckSSOSession w s2 with
          | (inl e, s3) => (inl e, s3)
          | (inr r, s3) =>
              match snd r with
              | Some err => (inl (ErrCheckSSO err), s3)
              | None =>
                  match loginStep w (fst r) s3 with
                  | (inl e, s4) => (inl e, s4)
                  | (inr _, s4) =>
                      match clusterStep w s4 with
                      | (inl e, s5) => (inl e, s5)
                      | (inr _, s5) =>
                          match UpdateKubeconfig w s5 with
                          | (inl e, s6) => (inl e, s6)
                          | (inr _, s6) =>
                              match VerifyConnection w s6 with
                              | (inl e, s7) => (inl e, s7)
                              | (inr _, s7) => ShowSummary s7
                              end
                          end
                      end
                  end
              end
          end
      end
  end.
Proof.
  unfold Run, profileStep, clusterStep, loginStep, bind, getConfig, ret, fail.
  destruct (CheckDependencies w st) as [[e | u] s1]; [reflexivity |].
  destruct (String.eqb (Profile (config s1)) EmptyString).
  - destruct (SelectProfile w s1) as [[e | u'] s2]; [reflexivity |].
    destruct (CheckSSOSession w s2) as [[e | r] s3]; [reflexivity |].
    destruct (snd r); [reflexivity |].
    destruct (fst r).
    + destruct (print MSessionValid s3) as [[e | u''] s4]; [reflexivity |].
      destruct (String.eqb (Cluster (config s4)) EmptyString); reflexivity.
    + destruct (LoginSSO w s3) as [[e | u''] s4]; [reflexivity |].
      destruct (String.eqb (Cluster (config s4)) EmptyString); reflexivity.
  - destruct (CheckSSOSession w s1) as [[e | r] s3]; [reflexivity |].
    destruct (snd r); [reflexivity |].
    destruct (fst r).
    + destruct (print MSessionValid s3) as [[e | u''] s4]; [reflexivity |].
      destruct (String.eqb (Cluster (config s4)) EmptyString); reflexivity.
    + destruct (LoginSSO w s3) as [[e | u''] s4]; [reflexivity |].
      destruct (String.eqb (Cluster (config s4)) EmptyString); reflexivity.
Qed.

Lemma frame_profileStep w :
  frame keepButProfile evSelectProfile errSelectProfile (profileStep w).
Proof.
  intros st. unfold frameAt, profileStep. cbv beta.
  destruct (String.eqb (Profile (config st)) EmptyString).
  - exact (frame_SelectProfile w st).
  - exact (frameAt_ret _ _ _ tt st).
Qed.

Lemma frame_clusterStep w :
  frame keepButCluster evSelectCluster errSelectCluster (clusterStep w).
Proof.
  intros st. unfold frameAt, clusterStep. cbv beta.
  destruct (String.eqb (Cluster (config st)) EmptyString).
  - exact (frame_SelectCluster w st).
  - exact (frameAt_ret _ _ _ tt st).
Qed.

Lemma frame_loginStep w valid :
  frame keepAll evLoginStep errLoginSSO (loginStep w valid).
Proof.
  intros st. unfold loginStep. destruct valid.
  - apply frameAt_print. exact I.
  - apply (frameAt_keepAll _ _ _ _ _ _ _ (frame_LoginSSO w st)); auto.
    intros [] H; simpl in *; try contradiction; auto.
    destruct m; simpl in *; auto.
Qed.

(** What [CheckSSOSession] returns. *)
Lemma CheckSSOSession_eq w st :
  CheckSSOSession w st =
  let res := wOutput w (trace st) "aws"
               ["sts"; "get-caller-identity"; "--profile"; Profile (config st)] in
  (inr (succeeded res, None),
   mkState (config st) (stdin st)
     (trace st ++ [EvOutput "aws"
                     ["sts"; "get-caller-identity"; "--profile";
                      Profile (config st)] res])).
Proof.
  unfold CheckSSOSession, bind, getConfig, Execute, ret. simpl.
  destruct (wOutput w (trace st) "aws"
              ["sts"; "get-caller-identity"; "--profile"; Profile (config st)]);
    reflexivity.
Qed.

Lemma CheckSSOSession_res w st :
  exists res,
    res = wOutput w (trace st) "aws"
            ["sts"; "get-caller-identity"; "--profile"; Profile (config st)]
    /\ CheckSSOSession w st =
       (inr (succeeded res, None),
        mkState (config st) (stdin st)
          (trace st ++ [EvOutput "aws"
                          ["sts"; "get-caller-identity"; "--profile";
                           Profile (config st)] res])).
Proof. eexists. split; [reflexivity | apply CheckSSOSession_eq]. Qed.

(** The facts of a step's frame, at the equation [H] of its result. *)
Ltac frame_of F H :=
  let Fc := fresh "Fc" in
  let evs := fresh "evs" in
  let Ft := fresh "Ft" in
  let Fp := fresh "Fp" in
  let Fe := fresh "Fe" in
  pose proof F as (Fc & (evs & Ft & Fp) & Fe);
  rewrite H in Fc, Ft, Fe; simpl in Fc, Ft, Fe.

(** [Run w st] taken apart in the goal: one case for each step that can
    fail and one for the run that goes through, each with the frames of
    the steps taken. *)
Ltac run_steps w st :=
  rewrite (Run_unfold w st);
  let s1 := fresh "s1" in let s2 := fresh "s2" in let s3 := fresh "s3" in
  let s4 := fresh "s4" in let s5 := fresh "s5" in let s6 := fresh "s6" in
  let s7 := fresh "s7" in let s8 := fresh "s8" in
  let H1 := fresh "H1" in let H2 := fresh "H2" in let H3 := fresh "H3" in
  let H4 := fresh "H4" in let H5 := fresh "H5" in let H6 := fresh "H6" in
  let H7 := fresh "H7" in let H8 := fresh "H8" in
  destruct (CheckDependencies w st) as [[?e | ?u] s1] eqn:H1;
  frame_of (frame_CheckDependencies w st) H1;
  [ | destruct (profileStep w s1) as [[?e | ?u] s2] eqn:H2;
      frame_of (frame_profileStep w s1) H2;
      [ | let res := fresh "res" in
          let Hres := fresh "Hres" in
          destruct (CheckSSOSession_res w s2) as (res & Hres & H3);
          rewrite H3; cbv iota beta; simpl snd; simpl fst;
          match goal with
          | |- context [loginStep w ?b ?s] =>
              destruct (loginStep w b s) as [[?e | ?u] s4] eqn:H4;
              frame_of (frame_loginStep w b s) H4
          end;
          [ | destruct (clusterStep w s4) as [[?e | ?u] s5] eqn:H5;
              frame_of (frame_clusterStep w s4) H5;
              [ | destruct (UpdateKubeconfig w s5) as [[?e | ?u] s6] eqn:H6;
                  frame_of (frame_UpdateKubeconfig w s5) H6;
                  [ | destruct (VerifyConnection w s6) as [[?e | ?u] s7] eqn:H7;
                      frame_of (frame_VerifyConnection w s6) H7;
                      [ | destruct (ShowSummary s7) as [[?e | ?u] s8] eqn:H8;
                          frame_of (frame_ShowSummary s7) H8 ] ] ] ] ] ].

(** The equations of the frames, field by field. *)
Ltac keep_facts :=
  unfold keepAll, keepButProfile, keepButCluster in *;
  repeat match goal with
         | H : (_, _) = (_, _) |- _ => inversion H; clear H
         end.

Lemma Run_keeps_flags w st :
  Interactive (config (snd (Run w st))) = Interactive (config st)
  /\ SkipSSO (config (snd (Run w st))) = SkipSSO (config st)
  /\ DefaultRegion (config (snd (Run w st))) = DefaultRegion (config st).
Proof.
  run_steps w st; simpl; keep_facts; repeat split; congruence.
Qed.

(* ===================================================================== *)
(** ** C6: the session check returns no error *)
(* ===================================================================== *)

(** C6.  [CheckSSOSession] never returns an error: its error result is
    always nil and its boolean is true exactly when the identity
    subprocess succeeded; so the branch of [Run] that returns the error
    "failed to check SSO session" is never taken. *)
Theorem C6_session_check_never_fails (w : World) (st : AppState) :
  (exists b st',
      CheckSSOSession w st = (inr (b, None), st')
      /\ (b = true <->
          exists out,
            wOutput w (trace st) "aws"
              ["sts"; "get-caller-identity"; "--profile"; Profile (config st)]
            = CmdOk out))
  /\ (forall cause, fst (Run w st) <> inl (ErrCheckSSO cause)).
Proof.
  split.
  - rewrite CheckSSOSession_eq. cbv zeta.
    eexists. eexists. split; [reflexivity |].
    destruct (wOutput w (trace st) "aws"
                ["sts"; "get-caller-identity"; "--profile"; Profile (config st)])
      as [out | err stderr | err]; simpl; split; intros H.
    + exists out. reflexivity.
    + reflexivity.
    + discriminate H.
    + destruct H as [out Ho]. discriminate Ho.
    + discriminate H.
    + destruct H as [out Ho]. discriminate Ho.
  - intros cause. run_steps w st; simpl; intros Hr; inversion Hr; subst.
    all: match goal with
         | Fe : forall e0, inl ?x = inl e0 -> _ |- _ =>
             specialize (Fe _ eq_refl); simpl in Fe; contradiction
         end.
Qed.

(* ===================================================================== *)
(** ** C5: when the login subprocess is started *)
(* ===================================================================== *)

Lemma quiet_CheckDependencies ev : evCheckDependencies ev -> quiet ev.
Proof. destruct ev; simpl; try contradiction; intros _; split; auto. Qed.

Lemma quiet_SelectProfile ev : evSelectProfile ev -> quiet ev.
Proof.
  destruct ev; simpl; try contradiction; intros H; split; auto.
  intros ok (_ & (rest & Hr) & _). destruct H as (_ & rest' & Hr').
  congruence.
Qed.

Lemma quiet_SelectCluster ev : evSelectCluster ev -> quiet ev.
Proof.
  destruct ev; simpl; try contradiction; intros H; split; auto.
  intros ok (_ & (rest & Hr) & _). destruct H as (_ & rest' & Hr').
  congruence.
Qed.

Lemma quiet_UpdateKubeconfig ev : evUpdateKubeconfig ev -> quiet ev.
Proof.
  destruct ev; simpl; try contradiction; intros H; split; auto.
  intros (_ & rest & Hr). destruct H as (_ & cfg & Hc).
  unfold updateKubeconfigArgs in Hc. congruence.
Qed.

Lemma quiet_VerifyConnection ev : evVerifyConnection ev -> quiet ev.
Proof.
  destruct ev; simpl; try contradiction; intros H; split; auto.
  intros ok (Hn & _). congruence.
Qed.

Lemma quiet_ShowSummary ev : evShowSummary ev -> quiet ev.
Proof. destruct ev; simpl; try contradiction; intros _; split; auto. Qed.

Lemma noCheck_loginStep ev : evLoginStep ev -> forall ok, ~ sessionCheck ev ok.
Proof.
  destruct ev; simpl; auto.
Qed.

(** [LoginSSO] with the skip flag set does nothing. *)
Lemma LoginSSO_skip w st :
  SkipSSO (config st) = true -> LoginSSO w st = (inr tt, st).
Proof.
  intros H. unfold LoginSSO, bind, getConfig. rewrite H. reflexivity.
Qed.

(** The login step starts a login only after a failed check and with the
    skip flag unset. *)
Lemma loginStep_quiet w valid st evs :
  trace (snd (loginStep w valid st)) = (trace st ++ evs)%list ->
  valid = true \/ SkipSSO (config st) = true ->
  Forall (fun ev => ~ isLogin ev) evs.
Proof.
  intros Ht [Hv | Hs].
  - subst valid. simpl in Ht. apply app_inv_head in Ht. subst evs.
    repeat constructor. simpl. auto.
  - destruct valid.
    + simpl in Ht. apply app_inv_head in Ht. subst evs.
      repeat constructor. simpl. auto.
    + simpl in Ht. rewrite (LoginSSO_skip w st Hs) in Ht. simpl in Ht.
      rewrite <- (app_nil_r (trace st)) in Ht at 1.
      apply app_inv_head in Ht. subst evs. constructor.
Qed.

(** The shape of the trace of a run, as far as logins and session checks
    go: either the run stopped before the session check, or there is one
    session check, and a login can only come after it, when it failed and
    the skip flag is unset. *)
Lemma Run_login_shape (w : World) (st : AppState) :
  exists evs,
    trace (snd (Run w st)) = (trace st ++ evs)%list
    /\ (Forall quiet evs
        \/ exists pre p res mid rest,
             evs = (pre ++ EvOutput "aws"
                             ["sts"; "get-caller-identity"; "--profile"; p] res
                        :: mid ++ rest)%list
             /\ Forall quiet pre /\ Forall quiet rest
             /\ Forall (fun ev => forall ok, ~ sessionCheck ev ok) mid
             /\ (succeeded res = true \/ SkipSSO (config st) = true ->
                 Forall (fun ev => ~ isLogin ev) mid)).
Proof.
  assert (Hq1 : forall l, Forall evCheckDependencies l -> Forall quiet l)
    by (intros l; apply Forall_impl; exact quiet_CheckDependencies).
  assert (Hq2 : forall l, Forall evSelectProfile l -> Forall quiet l)
    by (intros l; apply Forall_impl; exact quiet_SelectProfile).
  assert (Hq5 : forall l, Forall evSelectCluster l -> Forall quiet l)
    by (intros l; apply Forall_impl; exact quiet_SelectCluster).
  assert (Hq6 : forall l, Forall evUpdateKubeconfig l -> Forall quiet l)
    by (intros l; apply Forall_impl; exact quiet_UpdateKubeconfig).
  assert (Hq7 : forall l, Forall evVerifyConnection l -> Forall quiet l)
    by (intros l; apply Forall_impl; exact quiet_VerifyConnection).
  assert (Hq8 : forall l, Forall evShowSummary l -> Forall quiet l)
    by (intros l; apply Forall_impl; exact quiet_ShowSummary).
  assert (Hn4 : forall l, Forall evLoginStep l ->
                Forall (fun ev => forall ok, ~ sessionCheck ev ok) l)
    by (intros l; apply Forall_impl; exact noCheck_loginStep).
  run_steps w st; simpl.
  1: { exists evs. split; [exact Ft | left; auto]. }
  1: { exists (evs ++ evs0)%list. split.
       - rewrite Ft0, Ft, app_assoc. reflexivity.
       - left. apply Forall_app. auto. }
  all: assert (Hskip : SkipSSO (config s2) = SkipSSO (config st))
         by (unfold keepButProfile, keepAll in *; congruence).
  all: assert (Hmid : succeeded res = true \/ SkipSSO (config st) = true ->
                      Forall (fun ev => ~ isLogin ev) evs1)
         by (intros Hor; eapply (loginStep_quiet w _ _ evs1);
             [ rewrite H4; simpl; exact Ft1
             | simpl; rewrite Hskip; exact Hor ]).
  1: { eexists. split.
       - rewrite Ft1, Ft0, Ft. rewrite <- !app_assoc. reflexivity.
       - right. exists (evs ++ evs0)%list. eexists. eexists. exists evs1, [].
         split; [rewrite <- !app_assoc; simpl; rewrite app_nil_r; reflexivity |].
         repeat split; auto. apply Forall_app. auto. }
  1: { eexists. split.
       - rewrite Ft2, Ft1, Ft0, Ft. rewrite <- !app_assoc. reflexivity.
       - right. exists (evs ++ evs0)%list. eexists. eexists. exists evs1, evs2.
         split; [rewrite <- !app_assoc; simpl; reflexivity |].
         repeat split; auto. apply Forall_app. auto. }
  1: { eexists. split.
       - rewrite Ft3, Ft2, Ft1, Ft0, Ft. rewrite <- !app_assoc. reflexivity.
       - right. exists (evs ++ evs0)%list. eexists. eexists.
         exists evs1, (evs2 ++ evs3)%list.
         split; [rewrite <- !app_assoc; simpl; reflexivity |].
         repeat split; auto; apply Forall_app; auto. }
  1: { eexists. split.
       - rewrite Ft4, Ft3, Ft2, Ft1, Ft0, Ft. rewrite <- !app_assoc.
         reflexivity.
       - right. exists (evs ++ evs0)%list. eexists. eexists.
         exists evs1, (evs2 ++ evs3 ++ evs4)%list.
         split; [rewrite <- !app_assoc; simpl; reflexivity |].
         repeat split; auto; repeat (apply Forall_app; split); auto. }
  all: eexists; split;
    [ rewrite Ft5, Ft4, Ft3, Ft2, Ft1, Ft0, Ft; rewrite <- !app_assoc;
      reflexivity
    | right; exists (evs ++ evs0)%list; eexists; eexists;
      exists evs1, (evs2 ++ evs3 ++ evs4 ++ evs5)%list;
      split; [rewrite <- !app_assoc; simpl; reflexivity |];
      repeat split; auto; repeat (apply Forall_app; split); auto ].
Qed.

(** C5.  In every run, a login subprocess is started only when the skip
    flag is unset and a session check has failed before it; if a session
    check succeeded no login is started; and if the skip flag is set no
    login is started, whatever the session check gave. *)
Theorem C5_login_only_after_failed_check (w : World) (st : AppState) :
  exists evs,
    trace (snd (Run w st)) = (trace st ++ evs)%list
    /\ (forall ev, In ev evs -> isLogin ev ->
        SkipSSO (config st) = false
        /\ exists chk, sessionCheck chk false /\ before chk ev evs)
    /\ (forall chk, In chk evs -> sessionCheck chk true ->
        forall ev, In ev evs -> ~ isLogin ev)
    /\ (SkipSSO (config st) = true -> forall ev, In ev evs -> ~ isLogin ev).
Proof.
  destruct (Run_login_shape w st) as (evs & Ht & Hshape).
  exists evs. split; [exact Ht |].
  destruct Hshape
    as [Hq | (pre & p & res & mid & rest & Hevs & Hpre & Hrest & Hmid & Hlog)].
  - rewrite Forall_forall in Hq.
    split; [| split].
    + intros ev Hin Hl. destruct (Hq ev Hin) as [Hn _]. contradiction.
    + intros chk _ _ ev Hin. apply (Hq ev Hin).
    + intros _ ev Hin. apply (Hq ev Hin).
  - subst evs. rewrite Forall_forall in Hpre, Hrest, Hmid.
    assert (Hwhere : forall ev,
               In ev (pre ++ EvOutput "aws"
                               ["sts"; "get-caller-identity"; "--profile"; p] res
                          :: mid ++ rest)%list ->
               isLogin ev -> In ev mid).
    { intros ev Hin Hl. apply in_app_or in Hin. destruct Hin as [Hin | Hin].
      - destruct (Hpre ev Hin) as [Hn _]. contradiction.
      - destruct Hin as [Heq | Hin].
        + subst ev. simpl in Hl. contradiction.
        + apply in_app_or in Hin. destruct Hin as [Hin | Hin]; [exact Hin |].
          destruct (Hrest ev Hin) as [Hn _]. contradiction. }
    split; [| split].
    + intros ev Hin Hl. pose proof (Hwhere ev Hin Hl) as Hm.
      assert (Hno : ~ (succeeded res = true \/ SkipSSO (config st) = true)).
      { intros Hor. specialize (Hlog Hor). rewrite Forall_forall in Hlog.
        exact (Hlog ev Hm Hl). }
      split.
      * destruct (SkipSSO (config st)); [exfalso; apply Hno; auto | reflexivity].
      * exists (EvOutput "aws"
                  ["sts"; "get-caller-identity"; "--profile"; p] res).
        split.
        -- simpl. split; [reflexivity | split; [eauto |]].
           destruct (succeeded res); [exfalso; apply Hno; auto | reflexivity].
        -- apply in_split in Hm. destruct Hm as (m1 & m2 & Hm). subst mid.
           exists pre, m1, (m2 ++ rest)%list.
           rewrite <- app_assoc. reflexivity.
    + intros chk Hin Hchk ev Hin' Hl.
      assert (Hres : succeeded res = true).
      { apply in_app_or in Hin. destruct Hin as [Hin | Hin].
        - destruct (Hpre chk Hin) as [_ Hn]. exfalso. exact (Hn true Hchk).
        - destruct Hin as [Heq | Hin].
          + subst chk. simpl in Hchk. tauto.
          + apply in_app_or in Hin. destruct Hin as [Hin | Hin].
            * exfalso. exact (Hmid chk Hin true Hchk).
            * destruct (Hrest chk Hin) as [_ Hn]. exfalso.
              exact (Hn true Hchk). }
      specialize (Hlog (or_introl Hres)). rewrite Forall_forall in Hlog.
      exact (Hlog ev (Hwhere ev Hin' Hl) Hl).
    + intros Hskip ev Hin Hl.
      specialize (Hlog (or_intror Hskip)). rewrite Forall_forall in Hlog.
      exact (Hlog ev (Hwhere ev Hin Hl) Hl).
Qed.

(** With the session expired and the skip flag unset the login is
    started, after the failed check. *)
Example run_with_login :
  let r := main worldSessionExpired (CmdRoot flagsNoSkip) [] in
  fst r = 0
  /\ before
       (EvOutput "aws" ["sts"; "get-caller-identity"; "--profile"; "a"]
          (CmdExit "exit status 255" "The SSO session has expired"))
       (EvRun "aws" ["sso"; "login"; "--profile"; "a"] None)
       (trace (snd r)).
Proof.
  split; [reflexivity |].
  exists [EvPrint MCheckingDeps; EvLookPath "aws" true;
          EvPrint (MDepFound "aws"); EvLookPath "kubectl" true;
          EvPrint (MDepFound "kubectl")],
         [EvPrint MLoggingIn].
  eexists. vm_compute. reflexivity.
Qed.

(* ===================================================================== *)
(** ** C7: the connection check cannot fail the run *)
(* ===================================================================== *)

(** [UpdateKubeconfig], written out. *)
Lemma UpdateKubeconfig_eq w st :
  UpdateKubeconfig w st =
  let cfg := config st in
  let tr1 := (trace st ++ [EvPrint (MUpdatingKubeconfig (Cluster cfg))])%list in
  let res := wRun w tr1 "aws" (updateKubeconfigArgs cfg) in
  let tr2 := (tr1 ++ [EvRun "aws" (updateKubeconfigArgs cfg) res])%list in
  match res with
  | Some e => (inl (ErrUpdateKubeconfig e), mkState cfg (stdin st) tr2)
  | None =>
      (inr tt, mkState cfg (stdin st) (tr2 ++ [EvPrint MKubeconfigUpdated]))
  end.
Proof.
  unfold UpdateKubeconfig, bind, getConfig, print, emit, runCmd, fail. simpl.
  destruct (wRun w (trace st ++ [EvPrint (MUpdatingKubeconfig (Cluster (config st)))])
              "aws" (updateKubeconfigArgs (config st))); reflexivity.
Qed.

(** [VerifyConnection], written out: it returns no error on any path, and
    a failed [current-context] call leaves no mark but its own event. *)
Lemma VerifyConnection_eq w st :
  VerifyConnection w st =
  let tr1 := (trace st ++ [EvPrint MVerifying])%list in
  let res := wOutput w tr1 "kubectl" ["cluster-info"] in
  let tr2 := (tr1 ++ [EvOutput "kubectl" ["cluster-info"] res])%list in
  match res with
  | CmdOk output =>
      let tr3 := (tr2 ++ [EvPrint MConnected])%list in
      let res2 := wOutput w tr3 "kubectl" ["config"; "current-context"] in
      let tr4 :=
        (tr3 ++ [EvOutput "kubectl" ["config"; "current-context"] res2])%list in
      let tr5 :=
        match res2 with
        | CmdOk context =>
            (tr4 ++ [EvPrint (MCurrentContext (TrimSpace context))])%list
        | _ => tr4
        end in
      (inr tt,
       mkState (config st) (stdin st)
         (tr5 ++ [EvPrint (MClusterInfo (TrimSpace (TrimSpace output)))]))
  | _ =>
      (inr tt,
       mkState (config st) (stdin st) (tr2 ++ [EvPrint MUnableToVerify]))
  end.
Proof.
  unfold VerifyConnection, bind, print, emit, Execute, ret. simpl.
  destruct (wOutput w (trace st ++ [EvPrint MVerifying]) "kubectl"
              ["cluster-info"]) as [out | err stderr | err]; simpl;
    try reflexivity.
  match goal with
  | |- context [wOutput w ?t "kubectl" ["config"; "current-context"]] =>
      destruct (wOutput w t "kubectl" ["config"; "current-context"])
  end; reflexivity.
Qed.

Lemma ShowSummary_eq st :
  ShowSummary st =
  (inr tt,
   mkState (config st) (stdin st) (trace st ++ summaryEvents (config st))).
Proof.
  unfold ShowSummary, bind, getConfig, print, emit. simpl.
  rewrite <- !app_assoc. reflexivity.
Qed.

Lemma noUpdate_CheckDependencies ev : evCheckDependencies ev -> ~ isUpdateOk ev.
Proof. destruct ev; simpl; auto. Qed.

Lemma noUpdate_SelectProfile ev : evSelectProfile ev -> ~ isUpdateOk ev.
Proof. destruct ev; simpl; auto. Qed.

Lemma noUpdate_loginStep ev : evLoginStep ev -> ~ isUpdateOk ev.
Proof.
  destruct ev; simpl; auto.
  intros (_ & p & Hp). destruct res; auto.
  intros (_ & rest & Hr). congruence.
Qed.

Lemma noUpdate_SelectCluster ev : evSelectCluster ev -> ~ isUpdateOk ev.
Proof. destruct ev; simpl; auto. Qed.

Lemma not_in_app {A : Type} (P : A -> Prop) (l1 l2 : list A) :
  (forall x, In x l1 -> ~ P x) -> (forall x, In x l2 -> ~ P x) ->
  forall x, In x (l1 ++ l2) -> ~ P x.
Proof.
  intros H1 H2 x Hin. apply in_app_or in Hin. destruct Hin; auto.
Qed.

Lemma Forall_not_in {A : Type} (P Q : A -> Prop) (l : list A) :
  (forall x, P x -> ~ Q x) -> Forall P l -> forall x, In x l -> ~ Q x.
Proof.
  intros H Hf x Hin. rewrite Forall_forall in Hf. auto.
Qed.

Lemma noUpdate_sessionCheck p res :
  ~ isUpdateOk
      (EvOutput "aws" ["sts"; "get-caller-identity"; "--profile"; p] res).
Proof. simpl. auto. Qed.

(** A failed [UpdateKubeconfig] leaves no successful update in the trace. *)
Lemma UpdateKubeconfig_failed w st e st' :
  UpdateKubeconfig w st = (inl e, st') ->
  exists c,
    trace st' =
    (trace st ++ [EvPrint (MUpdatingKubeconfig (Cluster (config st)));
                  EvRun "aws" (updateKubeconfigArgs (config st)) (Some c)])%list.
Proof.
  rewrite UpdateKubeconfig_eq. cbv zeta.
  destruct (wRun w (trace st ++ [EvPrint (MUpdatingKubeconfig (Cluster (config st)))])
              "aws" (updateKubeconfigArgs (config st))) as [c |];
    intros H; inversion H; subst; simpl.
  exists c. rewrite <- app_assoc. reflexivity.
Qed.

(** What [VerifyConnection] leaves: no error, the configuration as it was,
    and the warning when [cluster-info] failed. *)
Lemma VerifyConnection_ok w st :
  fst (VerifyConnection w st) = inr tt
  /\ config (snd (VerifyConnection w st)) = config st
  /\ exists evs,
       trace (snd (VerifyConnection w st)) = (trace st ++ evs)%list
       /\ forall res,
            In (EvOutput "kubectl" ["cluster-info"] res) evs ->
            succeeded res = false -> In (EvPrint MUnableToVerify) evs.
Proof.
  rewrite VerifyConnection_eq. cbv zeta.
  destruct (wOutput w (trace st ++ [EvPrint MVerifying]) "kubectl"
              ["cluster-info"]) as [out | err stderr | err] eqn:Hres.
  - split; [reflexivity | split; [reflexivity |]].
    match goal with
    | |- context [wOutput w ?t "kubectl" ["config"; "current-context"]] =>
        destruct (wOutput w t "kubectl" ["config"; "current-context"])
    end; simpl; rewrite <- !app_assoc; simpl;
      (eexists; split; [reflexivity |]);
      intros res Hin Hf; simpl in Hin;
      repeat (destruct Hin as [Hin | Hin];
              [try discriminate Hin; inversion Hin; subst; discriminate Hf |]);
      contradiction.
  - split; [reflexivity | split; [reflexivity |]]. simpl.
    rewrite <- !app_assoc. simpl. eexists. split; [reflexivity |].
    intros res _ _. simpl. auto.
  - split; [reflexivity | split; [reflexivity |]]. simpl.
    rewrite <- !app_assoc. simpl. eexists. split; [reflexivity |].
    intros res _ _. simpl. auto.
Qed.

Lemma noKubectl_CheckDependencies ev : evCheckDependencies ev -> ~ isKubectl ev.
Proof. destruct ev; simpl; auto. Qed.

Lemma noKubectl_SelectProfile ev : evSelectProfile ev -> ~ isKubectl ev.
Proof. destruct ev; simpl; auto. intros (H & _) H'. congruence. Qed.

Lemma noKubectl_loginStep ev : evLoginStep ev -> ~ isKubectl ev.
Proof. destruct ev; simpl; auto. Qed.

Lemma noKubectl_SelectCluster ev : evSelectCluster ev -> ~ isKubectl ev.
Proof. destruct ev; simpl; auto. intros (H & _) H'. congruence. Qed.

Lemma noKubectl_UpdateKubeconfig ev : evUpdateKubeconfig ev -> ~ isKubectl ev.
Proof. destruct ev; simpl; auto. Qed.

Lemma Run_after_update (w : World) (st : AppState) :
  trace st = [] ->
  forall ev, In ev (trace (snd (Run w st))) -> isUpdateOk ev ->
  fst (Run w st) = inr tt
  /\ (exists tr,
        trace (snd (Run w st))
        = (tr ++ summaryEvents (config (snd (Run w st))))%list)
  /\ (forall res,
        In (EvOutput "kubectl" ["cluster-info"] res) (trace (snd (Run w st))) ->
        succeeded res = false ->
        In (EvPrint MUnableToVerify) (trace (snd (Run w st)))).
Proof.
  intros Hnil ev.
  run_steps w st; simpl.
  all: pose proof (Forall_not_in _ _ _ noUpdate_CheckDependencies Fp) as N1.
  all: try pose proof (Forall_not_in _ _ _ noUpdate_SelectProfile Fp0) as N2.
  all: try pose proof (Forall_not_in _ _ _ noUpdate_loginStep Fp1) as N4.
  all: try pose proof (Forall_not_in _ _ _ noUpdate_SelectCluster Fp2) as N5.
  all: rewrite Hnil in Ft; simpl in Ft.
  - intros Hin Hu. rewrite Ft in Hin. exfalso. exact (N1 ev Hin Hu).
  - intros Hin Hu. rewrite Ft0, Ft in Hin. exfalso.
    exact (not_in_app _ _ _ N1 N2 ev Hin Hu).
  - intros Hin Hu. rewrite Ft1, Ft0, Ft in Hin. exfalso.
    apply in_app_or in Hin. destruct Hin as [Hin | Hin]; [| exact (N4 ev Hin Hu)].
    apply in_app_or in Hin. destruct Hin as [Hin | Hin].
    + exact (not_in_app _ _ _ N1 N2 ev Hin Hu).
    + destruct Hin as [Hin | []]. subst ev. exact Hu.
  - intros Hin Hu. rewrite Ft2, Ft1, Ft0, Ft in Hin. exfalso.
    apply in_app_or in Hin. destruct Hin as [Hin | Hin]; [| exact (N5 ev Hin Hu)].
    apply in_app_or in Hin. destruct Hin as [Hin | Hin]; [| exact (N4 ev Hin Hu)].
    apply in_app_or in Hin. destruct Hin as [Hin | Hin].
    + exact (not_in_app _ _ _ N1 N2 ev Hin Hu).
    + destruct Hin as [Hin | []]. subst ev. exact Hu.
  - intros Hin Hu. exfalso.
    destruct (UpdateKubeconfig_failed w s5 e s6 H6) as [c Hc].
    rewrite Hc, Ft2, Ft1, Ft0, Ft in Hin.
    apply in_app_or in Hin. destruct Hin as [Hin | Hin].
    + apply in_app_or in Hin. destruct Hin as [Hin | Hin]; [| exact (N5 ev Hin Hu)].
      apply in_app_or in Hin. destruct Hin as [Hin | Hin]; [| exact (N4 ev Hin Hu)].
      apply in_app_or in Hin. destruct Hin as [Hin | Hin].
      * exact (not_in_app _ _ _ N1 N2 ev Hin Hu).
      * destruct Hin as [Hin | []]. subst ev. exact Hu.
    + destruct Hin as [Hin | [Hin | []]]; subst ev; exact Hu.
  - exfalso. exact (Fe4 e eq_refl).
  - exfalso. exact (Fe5 e eq_refl).
  - intros _ _. destruct u5. split; [reflexivity |].
    rewrite ShowSummary_eq in H8. injection H8 as Hs8. rewrite <- Hs8.
    simpl.
    split; [eexists; reflexivity |].
    intros res0 Hin Hf.
    destruct (VerifyConnection_ok w s6) as (_ & _ & evs7 & Ht7 & Hwarn).
    rewrite H7 in Ht7. simpl in Ht7.
    apply in_or_app. left. rewrite Ht7. apply in_or_app. right.
    apply (Hwarn res0); [| exact Hf].
    apply in_app_or in Hin. destruct Hin as [Hin | Hin].
    + rewrite Ht7 in Hin. apply in_app_or in Hin.
      destruct Hin as [Hin | Hin]; [| exact Hin]. exfalso.
      assert (K : isKubectl (EvOutput "kubectl" ["cluster-info"] res0))
        by reflexivity.
      revert K.
      rewrite Ft3, Ft2, Ft1, Ft0, Ft in Hin.
      pose proof (Forall_not_in _ _ _ noKubectl_CheckDependencies Fp) as K1.
      pose proof (Forall_not_in _ _ _ noKubectl_SelectProfile Fp0) as K2.
      pose proof (Forall_not_in _ _ _ noKubectl_loginStep Fp1) as K4.
      pose proof (Forall_not_in _ _ _ noKubectl_SelectCluster Fp2) as K5.
      pose proof (Forall_not_in _ _ _ noKubectl_UpdateKubeconfig Fp3) as K6.
      apply in_app_or in Hin. destruct Hin as [Hin | Hin]; [| exact (K6 _ Hin)].
      apply in_app_or in Hin. destruct Hin as [Hin | Hin]; [| exact (K5 _ Hin)].
      apply in_app_or in Hin. destruct Hin as [Hin | Hin]; [| exact (K4 _ Hin)].
      apply in_app_or in Hin. destruct Hin as [Hin | Hin].
      * exact (not_in_app _ _ _ K1 K2 _ Hin).
      * destruct Hin as [Hin | []]. discriminate Hin.
    + exfalso. simpl in Hin.
      repeat (destruct Hin as [Hin | Hin]; [discriminate Hin |]). exact Hin.
Qed.

(** C7.  [VerifyConnection] returns success on every path.  In every run
    of [main] in which the config update succeeded, the exit status is 0
    and the trace ends with the summary, whatever the connectivity check
    gave; when [cluster-info] failed, the warning is printed.  And when
    [cluster-info] succeeded and the [current-context] call failed,
    [VerifyConnection] prints the cluster information and returns success
    with no mention of the failure. *)
Theorem C7_verify_failure_not_fatal (w : World) :
  (forall st,
      fst (VerifyConnection w st) = inr tt
      /\ config (snd (VerifyConnection w st)) = config st)
  /\ (forall f input ev,
        let r := main w (CmdRoot f) input in
        In ev (trace (snd r)) -> isUpdateOk ev ->
        fst r = 0
        /\ (exists tr,
              trace (snd r) = (tr ++ summaryEvents (config (snd r)))%list)
        /\ (forall res,
              In (EvOutput "kubectl" ["cluster-info"] res) (trace (snd r)) ->
              succeeded res = false ->
              In (EvPrint MUnableToVerify) (trace (snd r))))
  /\ (forall st out res2,
        wOutput w (trace st ++ [EvPrint MVerifying]) "kubectl" ["cluster-info"]
        = CmdOk out ->
        wOutput w
          (trace st ++ [EvPrint MVerifying;
                        EvOutput "kubectl" ["cluster-info"] (CmdOk out);
                        EvPrint MConnected])
          "kubectl" ["config"; "current-context"] = res2 ->
        succeeded res2 = false ->
        VerifyConnection w st =
        (inr tt,
         mkState (config st) (stdin st)
           (trace st ++ [EvPrint MVerifying;
                         EvOutput "kubectl" ["cluster-info"] (CmdOk out);
                         EvPrint MConnected;
                         EvOutput "kubectl" ["config"; "current-context"] res2;
                         EvPrint (MClusterInfo (TrimSpace (TrimSpace out)))]))).
Proof.
  split; [| split].
  - intros st. destruct (VerifyConnection_ok w st) as (H1 & H2 & _). auto.
  - intros f input ev r. subst r. unfold main.
    set (st0 := mkState (bindFlags NewEKSLoginApp f) input []).
    pose proof (Run_after_update w st0 eq_refl ev) as HR.
    destruct (Run w st0) as [[e | u] st'] eqn:Hrun; simpl in *.
    + intros Hin Hu. exfalso.
      apply in_app_or in Hin. destruct Hin as [Hin | Hin].
      * destruct (HR Hin Hu) as [Hbad _]. discriminate Hbad.
      * destruct Hin as [Hin | [Hin | []]]; subst ev; exact Hu.
    + intros Hin Hu. destruct (HR Hin Hu) as (_ & Hsum & Hwarn).
      split; [reflexivity | split; assumption].
  - intros st out res2 Hci Hcc Hf.
    rewrite VerifyConnection_eq. cbv zeta. rewrite Hci.
    cbv iota beta. rewrite <- !app_assoc. simpl app.
    rewrite Hcc. destruct res2; [discriminate Hf | |];
      rewrite <- !app_assoc; reflexivity.
Qed.

(** In that world the run still ends with the summary and status 0. *)
Example run_with_kubectl_down :
  let r := main worldKubectlDown (CmdRoot flagsAll) [] in
  fst r = 0
  /\ In (EvOutput "kubectl" ["cluster-info"]
           (CmdExit "exit status 1" "connection refused")) (trace (snd r))
  /\ In (EvPrint MUnableToVerify) (trace (snd r))
  /\ In (EvPrint (MSummaryCluster "prod")) (trace (snd r)).
Proof. vm_compute. intuition. Qed.

(* ===================================================================== *)
(** ** C1: a run with profile, cluster and skip flag given *)
(* ===================================================================== *)

(** Every answer of the world in the goal, taken by cases. *)
Ltac world_cases w :=
  repeat match goal with
         | |- context [wLookPath w ?h ?f] =>
             let H := fresh "Hlook" in
             destruct (wLookPath w h f) eqn:H; simpl
         | |- context [wOutput w ?h ?n ?a] =>
             let H := fresh "Hout" in
             destruct (wOutput w h n a) eqn:H; simpl
         | |- context [wRun w ?h ?n ?a] =>
             let H := fresh "Hrun" in
             destruct (wRun w h n a) eqn:H; simpl
         end.

(** An answer of the world in the context against what [Hall] says of
    all its answers. *)
Ltac world_refute Hall :=
  match goal with
  | H : _ = false |- _ => rewrite Hall in H; discriminate H
  | H : _ = Some _ |- _ => rewrite Hall in H; discriminate H
  end.

(** Membership in an explicit list, taken by cases. *)
Ltac in_cases H :=
  simpl in H;
  repeat (destruct H as [H | H];
          [first [discriminate H | injection H; intros; subst | subst] |]);
  try contradiction.

(** C1.  With the flags profile=a, cluster=prod and skip-sso set, and the
    region flag left out: no event of a run is a selection prompt or a
    login; nothing is read from the terminal; every captured subprocess is
    the session check or a kubectl call; every subprocess started on the
    terminal is the config update with exactly region us-west-2, cluster
    prod and profile a; and every summary line printed carries those
    values.  When both tools are found the config update is started, and
    when it also succeeds the run exits 0 after printing the summary with
    exactly those three values. *)
Theorem C1_flags_given_run (w : World) (input : list string) (fi : option bool) :
  let r := main w (CmdRoot (mkFlags (Some "a") None (Some "prod") (Some true) fi))
             input in
  let tr := trace (snd r) in
  let updateArgs :=
    ["eks"; "update-kubeconfig"; "--region"; "us-west-2"; "--name"; "prod";
     "--profile"; "a"] in
  (forall ev, In ev tr -> ~ isPrompt ev /\ ~ isLogin ev)
  /\ stdin (snd r) = input
  /\ (forall name args res, In (EvOutput name args res) tr ->
      (name = "aws" /\ args = ["sts"; "get-caller-identity"; "--profile"; "a"])
      \/ name = "kubectl")
  /\ (forall name args res, In (EvRun name args res) tr ->
      name = "aws" /\ args = updateArgs)
  /\ (forall m, In (EvPrint m) tr ->
      match m with
      | MSummaryProfile p => p = "a"
      | MSummaryRegion x => x = "us-west-2"
      | MSummaryCluster c => c = "prod"
      | _ => True
      end)
  /\ ((forall h file, wLookPath w h file = true) ->
      exists res, In (EvRun "aws" updateArgs res) tr)
  /\ ((forall h file, wLookPath w h file = true) ->
      (forall h, wRun w h "aws" updateArgs = None) ->
      fst r = 0
      /\ exists tr0,
           tr = (tr0 ++ [EvPrint MLoginComplete;
                         EvPrint (MSummaryProfile "a");
                         EvPrint (MSummaryRegion "us-west-2");
                         EvPrint (MSummaryCluster "prod");
                         EvPrint MSummaryHint])%list).
Proof.
  intros r tr updateArgs. subst r tr updateArgs.
  unfold main, Run, CheckDependencies, CheckSSOSession, LoginSSO,
    UpdateKubeconfig, VerifyConnection, ShowSummary, forEach, bind, ret, fail,
    getConfig, print, emit, lookPath, Execute, runCmd, updateKubeconfigArgs,
    bindFlags, NewEKSLoginApp, defaultRegion, orDefault.
  simpl.
  world_cases w.
  all: split; [intros ev Hin; in_cases Hin; simpl; split; intros Hx;
               try exact Hx; destruct Hx as (_ & rest & Hr); discriminate Hr |].
  all: split; [reflexivity |].
  all: split; [intros name args res Hin; in_cases Hin; auto |].
  all: split; [intros name args res Hin; in_cases Hin; auto |].
  all: split; [intros m Hin; in_cases Hin; auto |].
  all: split;
    [ intros Hall;
      first [ exfalso; world_refute Hall
            | eexists; simpl; repeat (first [left; reflexivity | right]) ]
    | intros Hall Hupd;
      first [ exfalso; first [world_refute Hall | world_refute Hupd]
            | split; [reflexivity |] ] ].
  all: match goal with
       | |- exists tr0, ?l = (tr0 ++ ?s)%list =>
           exists (firstn (List.length l - 5) l); reflexivity
       end.
Qed.

(* ===================================================================== *)
(** ** C9: the interactive flag is never read *)
(* ===================================================================== *)

Lemma blind_ret {A : Type} (a : A) : blind (ret a).
Proof. intros b st. reflexivity. Qed.

Lemma blind_fail {A : Type} (e : Error) : blind (@fail A e).
Proof. intros b st. reflexivity. Qed.

Lemma blind_emit ev : blind (emit ev).
Proof. intros b st. reflexivity. Qed.

Lemma blind_bind {A B : Type} (m : M A) (k : A -> M B) :
  blind m -> (forall a, blind (k a)) -> blind (bind m k).
Proof.
  intros Hm Hk b st. unfold blindAt, bind. rewrite (Hm b st).
  destruct (m st) as [[e | a] st']; simpl.
  - reflexivity.
  - apply Hk.
Qed.

(** After [getConfig] the rest is run on the configuration read, which
    differs in the flag. *)
Lemma blind_getConfig {A : Type} (k : Config -> M A) :
  (forall cfg b st, blindAt (k cfg) (k (setInteractive cfg b)) b st) ->
  blind (bind getConfig k).
Proof.
  intros Hk b st. unfold blindAt, bind, getConfig. simpl. apply Hk.
Qed.

Lemma blind_forEach {A : Type} (l : list A) (body : A -> M unit) :
  (forall x, blind (body x)) -> blind (forEach l body).
Proof.
  intros Hb. induction l as [| x l IH]; simpl.
  - apply blind_ret.
  - apply blind_bind; auto.
Qed.

Lemma blind_forEachIndexed {A : Type} (l : list A) (body : Z -> A -> M unit) :
  (forall i x, blind (body i x)) -> forall i, blind (forEachIndexed i l body).
Proof.
  intros Hb. induction l as [| x l IH]; intros i; simpl.
  - apply blind_ret.
  - apply blind_bind; auto.
Qed.

Section Blind.

Variable w : World.

Lemma blind_lookPath file : blind (lookPath w file).
Proof. intros b st. reflexivity. Qed.

Lemma blind_runCmd name args : blind (runCmd w name args).
Proof. intros b st. reflexivity. Qed.

Lemma blind_Execute name args : blind (Execute w name args).
Proof.
  intros b st. unfold blindAt, Execute. simpl.
  destruct (wOutput w (trace st) name args); reflexivity.
Qed.

Lemma blind_CheckDependencies : blind (CheckDependencies w).
Proof.
  unfold CheckDependencies. apply blind_bind; [apply blind_emit |].
  intros _. apply blind_forEach. intros dep.
  apply blind_bind; [apply blind_lookPath |].
  intros found. destruct found; simpl.
  - apply blind_emit.
  - apply blind_fail.
Qed.

Lemma blind_profilesOfLines lines : forall profiles,
  blind (profilesOfLines w lines profiles).
Proof.
  induction lines as [| line lines IH]; intros profiles; simpl.
  - apply blind_ret.
  - destruct (String.eqb (TrimSpace line) EmptyString); simpl.
    + apply IH.
    + apply blind_bind; [apply blind_Execute |].
      intros r. apply blind_getConfig. intros cfg b st. simpl. apply IH.
Qed.

Lemma blind_GetAWSProfiles : blind (GetAWSProfiles w).
Proof.
  unfold GetAWSProfiles. apply blind_bind; [apply blind_Execute |].
  intros r. destruct (snd r).
  - apply blind_fail.
  - apply blind_profilesOfLines.
Qed.

Lemma blind_selectProfileLoop profiles lines : forall b cfg tr,
  selectProfileLoop profiles lines (setInteractive cfg b) tr =
  (fst (selectProfileLoop profiles lines cfg tr),
   withInteractive b (snd (selectProfileLoop profiles lines cfg tr))).
Proof.
  induction lines as [| l rest IH]; intros b cfg tr; simpl.
  - reflexivity.
  - destruct (Atoi (TrimSpace (l ++ nl))) as [choice err].
    destruct (negb (isNil err) || (choice <? 1) || (len profiles <? choice)).
    + apply IH.
    + destruct (nth_error profiles (Z.to_nat (choice - 1))); reflexivity.
Qed.

Lemma blind_SelectProfile : blind (SelectProfile w).
Proof.
  unfold SelectProfile. apply blind_bind; [apply blind_GetAWSProfiles |].
  intros profiles. destruct (len profiles =? 0); [apply blind_fail |].
  destruct (len profiles =? 1).
  - destruct (nth_error profiles 0) as [p |]; [| apply blind_fail].
    apply blind_getConfig. intros cfg b st. reflexivity.
  - apply blind_bind; [apply blind_emit |]. intros _.
    apply blind_bind.
    + apply blind_forEachIndexed. intros i x. apply blind_emit.
    + intros _ b st. unfold blindAt. simpl. apply blind_selectProfileLoop.
Qed.

Lemma blind_CheckSSOSession : blind (CheckSSOSession w).
Proof.
  unfold CheckSSOSession. apply blind_getConfig. intros cfg b st. simpl.
  apply blind_bind; [apply blind_Execute |]. intros r. apply blind_ret.
Qed.

Lemma blind_LoginSSO : blind (LoginSSO w).
Proof.
  unfold LoginSSO. apply blind_getConfig. intros cfg b st. simpl.
  destruct (SkipSSO cfg); [apply blind_ret |].
  apply blind_bind; [apply blind_emit |]. intros _.
  apply blind_bind; [apply blind_runCmd |]. intros err.
  destruct err; [apply blind_fail | apply blind_emit].
Qed.

Lemma blind_ListEKSClusters : blind (ListEKSClusters w).
Proof.
  unfold ListEKSClusters. apply blind_bind; [apply blind_emit |]. intros _.
  apply blind_getConfig. intros cfg b st. simpl.
  apply blind_bind; [apply blind_Execute |]. intros r.
  destruct (snd r); [apply blind_fail |].
  destruct (Unmarshal (fst r) (mkListClustersResponse [])) as [resp [e |]].
  - apply blind_fail.
  - apply blind_ret.
Qed.

Lemma blind_selectClusterLoop clusters lines : forall b cfg tr,
  selectClusterLoop clusters lines (setInteractive cfg b) tr =
  (fst (selectClusterLoop clusters lines cfg tr),
   withInteractive b (snd (selectClusterLoop clusters lines cfg tr))).
Proof.
  induction lines as [| l rest IH]; intros b cfg tr; simpl.
  - reflexivity.
  - destruct (Atoi (TrimSpace (l ++ nl))) as [choice err].
    destruct (negb (isNil err) || (choice <? 1) || (len clusters <? choice)).
    + apply IH.
    + destruct (nth_error clusters (Z.to_nat (choice - 1))); reflexivity.
Qed.

Lemma blind_SelectCluster : blind (SelectCluster w).
Proof.
  unfold SelectCluster. apply blind_bind; [apply blind_ListEKSClusters |].
  intros clusters. apply blind_getConfig. intros cfg b st.
  destruct clusters as [| c cs]; [reflexivity |].
  rewrite !len_cons_nonzero. destruct (len (c :: cs) =? 1); [reflexivity |].
  refine (blind_bind _ _ _ _ b st); [apply blind_emit |]. intros _.
  apply blind_bind.
  - apply blind_forEachIndexed. intros i x. apply blind_emit.
  - intros _ b' st'. unfold blindAt. simpl. apply blind_selectClusterLoop.
Qed.

Lemma blind_UpdateKubeconfig : blind (UpdateKubeconfig w).
Proof.
  unfold UpdateKubeconfig. apply blind_getConfig. intros cfg b st. simpl.
  apply blind_bind; [apply blind_emit |]. intros _.
  apply blind_bind; [apply blind_runCmd |]. intros err.
  destruct err; [apply blind_fail | apply blind_emit].
Qed.

Lemma blind_VerifyConnection : blind (VerifyConnection w).
Proof.
  unfold VerifyConnection. apply blind_bind; [apply blind_emit |]. intros _.
  apply blind_bind; [apply blind_Execute |]. intros r.
  destruct (snd r); [apply blind_emit |].
  apply blind_bind; [apply blind_emit |]. intros _.
  apply blind_bind; [apply blind_Execute |]. intros c.
  apply blind_bind.
  - destruct (isNil (snd c)); [apply blind_emit | apply blind_ret].
  - intros _. apply blind_emit.
Qed.

Lemma blind_ShowSummary : blind ShowSummary.
Proof.
  unfold ShowSummary. apply blind_getConfig. intros cfg b st. simpl.
  repeat (apply blind_bind; [apply blind_emit | intros _]).
  apply blind_emit.
Qed.

Lemma blind_Run : blind (Run w).
Proof.
  unfold Run. apply blind_bind; [apply blind_CheckDependencies |]. intros _.
  apply blind_getConfig. intros cfg b st. simpl.
  apply blind_bind.
  { destruct (String.eqb (Profile cfg) EmptyString);
      [apply blind_SelectProfile | apply blind_ret]. }
  intros _. apply blind_bind; [apply blind_CheckSSOSession |]. intros r.
  destruct (snd r); [apply blind_fail |].
  apply blind_bind.
  { destruct (fst r); [apply blind_emit | apply blind_LoginSSO]. }
  intros _. apply blind_getConfig. intros cfg' b' st'. simpl.
  apply blind_bind.
  { destruct (String.eqb (Cluster cfg') EmptyString);
      [apply blind_SelectCluster | apply blind_ret]. }
  intros _. apply blind_bind; [apply blind_UpdateKubeconfig |]. intros _.
  apply blind_bind; [apply blind_VerifyConnection |]. intros _.
  apply blind_ShowSummary.
Qed.

End Blind.

(** C9.  Two runs that differ only in the interactive flag (given or not,
    true or false) have the same exit status, the same trace (so the same
    subprocesses in the same order, the same prints and reads), leave the
    same input unread and resolve the same profile, region and cluster. *)
Theorem C9_interactive_flag_unused (w : World)
  (p r c : option string) (s i1 i2 : option bool) (input : list string) :
  let r1 := main w (CmdRoot (mkFlags p r c s i1)) input in
  let r2 := main w (CmdRoot (mkFlags p r c s i2)) input in
  fst r1 = fst r2
  /\ trace (snd r1) = trace (snd r2)
  /\ stdin (snd r1) = stdin (snd r2)
  /\ Profile (config (snd r1)) = Profile (config (snd r2))
  /\ Region (config (snd r1)) = Region (config (snd r2))
  /\ Cluster (config (snd r1)) = Cluster (config (snd r2)).
Proof.
  intros r1 r2. subst r1 r2. unfold main.
  set (st1 := mkState (bindFlags NewEKSLoginApp (mkFlags p r c s i1)) input []).
  assert (Hst : mkState (bindFlags NewEKSLoginApp (mkFlags p r c s i2)) input []
                = withInteractive (orDefault i2 true) st1) by reflexivity.
  rewrite Hst. rewrite (blind_Run w (orDefault i2 true) st1).
  destruct (Run w st1) as [[e | u] st']; simpl; repeat split; reflexivity.
Qed.

(* ===================================================================== *)
(** ** C4: the selection loops *)
(* ===================================================================== *)

Lemma invalidLine_test n l :
  invalidLine n l ->
  negb (isNil (snd (parsedLine l))) || (fst (parsedLine l) <? 1)
  || (n <? fst (parsedLine l)) = true.
Proof.
  intros [H | [H | H]].
  - destruct (snd (parsedLine l)); [reflexivity | contradiction].
  - apply Z.ltb_lt in H. rewrite H. rewrite orb_true_r. reflexivity.
  - apply Z.ltb_lt in H. rewrite H. rewrite orb_true_r. reflexivity.
Qed.

Lemma validLine_test n l k :
  validLine n l k ->
  parsedLine l = (k, None)
  /\ negb (isNil (@None NumError)) || (k <? 1) || (n <? k) = false.
Proof.
  intros [Hp [H1 H2]]. split; [exact Hp |]. simpl.
  apply orb_false_iff. split; apply Z.ltb_ge; lia.
Qed.

Lemma valid_or_invalid n l :
  invalidLine n l <-> ~ exists k, validLine n l k.
Proof.
  unfold invalidLine, validLine. destruct (parsedLine l) as [v [e |]]; simpl.
  - split.
    + intros _ [k [Hk _]]. discriminate Hk.
    + intros _. left. discriminate.
  - split.
    + intros [H | H] [k [Hk Hr]]; [congruence |].
      inversion Hk. subst. lia.
    + intros Hno. right.
      destruct (Z_lt_dec v 1) as [H1 | H1]; [left; exact H1 |].
      destruct (Z_lt_dec n v) as [H2 | H2]; [right; exact H2 |].
      exfalso. apply Hno. exists v. split; [reflexivity | lia].
Qed.

Lemma selectProfileLoop_rejects profiles l rest cfg tr :
  invalidLine (len profiles) l ->
  selectProfileLoop profiles (l :: rest) cfg tr =
  selectProfileLoop profiles rest cfg
    (tr ++ rejected (MSelectProfile (len profiles)) (len profiles) [l]).
Proof.
  intros H. apply invalidLine_test in H. simpl. unfold parsedLine in H.
  destruct (Atoi (TrimSpace (l ++ nl))) as [choice err]. simpl in H.
  rewrite H. rewrite <- !app_assoc. reflexivity.
Qed.

Lemma selectProfileLoop_accepts profiles l rest cfg tr k :
  validLine (len profiles) l k ->
  exists p,
    nth_error profiles (Z.to_nat (k - 1)) = Some p
    /\ selectProfileLoop profiles (l :: rest) cfg tr =
       (inr tt,
        mkState (setRegion (setProfile cfg (Name p)) (PRegion p)) rest
          (tr ++ [EvPrint (MSelectProfile (len profiles));
                  EvReadLine (Some (l ++ nl))])).
Proof.
  intros H. pose proof H as [_ [Hlo Hhi]].
  apply validLine_test in H. destruct H as [Hp Ht].
  destruct (choice_in_range profiles k) as [p Hn];
    [apply Z.ltb_ge; lia | apply Z.ltb_ge; lia |].
  exists p. split; [exact Hn |]. simpl. unfold parsedLine in Hp.
  rewrite Hp. rewrite Ht. rewrite Hn. rewrite <- !app_assoc. reflexivity.
Qed.

Lemma selectClusterLoop_rejects clusters l rest cfg tr :
  invalidLine (len clusters) l ->
  selectClusterLoop clusters (l :: rest) cfg tr =
  selectClusterLoop clusters rest cfg
    (tr ++ rejected (MSelectCluster (len clusters)) (len clusters) [l]).
Proof.
  intros H. apply invalidLine_test in H. simpl. unfold parsedLine in H.
  destruct (Atoi (TrimSpace (l ++ nl))) as [choice err]. simpl in H.
  rewrite H. rewrite <- !app_assoc. reflexivity.
Qed.

Lemma selectClusterLoop_accepts clusters l rest cfg tr k :
  validLine (len clusters) l k ->
  exists c,
    nth_error clusters (Z.to_nat (k - 1)) = Some c
    /\ selectClusterLoop clusters (l :: rest) cfg tr =
       (inr tt,
        mkState (setCluster cfg c) rest
          (tr ++ [EvPrint (MSelectCluster (len clusters));
                  EvReadLine (Some (l ++ nl))])).
Proof.
  intros H. pose proof H as [_ [Hlo Hhi]].
  apply validLine_test in H. destruct H as [Hp Ht].
  destruct (choice_in_range clusters k) as [c Hn];
    [apply Z.ltb_ge; lia | apply Z.ltb_ge; lia |].
  exists c. split; [exact Hn |]. simpl. unfold parsedLine in Hp.
  rewrite Hp. rewrite Ht. rewrite Hn. rewrite <- !app_assoc. reflexivity.
Qed.

Lemma rejected_cons prompt n l pre :
  rejected prompt n (l :: pre)
  = (rejected prompt n [l] ++ rejected prompt n pre)%list.
Proof. reflexivity. Qed.

(** C4.  In a selection over the listed items, every line that is no
    number, or is zero, negative or greater than their count is passed
    over: the configuration stays as it was, the rejection is printed and
    the prompt is issued again, and no error is returned for it.  The loop
    ends at the first line that parses to a number from 1 to the count,
    selects that item and leaves the lines after it unread; while only
    rejected lines come, it goes on until the input itself ends.  A line
    is rejected exactly when it is not such a number.  This holds for the
    profile loop and for the cluster loop. *)
Theorem C4_selection_loop :
  (forall profiles cfg tr pre,
      Forall (invalidLine (len profiles)) pre ->
      let n := len profiles in
      let rounds := rejected (MSelectProfile n) n pre in
      selectProfileLoop profiles pre cfg tr =
      (inl ErrReadInput,
       mkState cfg []
         (tr ++ rounds ++ [EvPrint (MSelectProfile n); EvReadLine None]))
      /\ forall v k rest,
           validLine n v k ->
           exists p,
             nth_error profiles (Z.to_nat (k - 1)) = Some p
             /\ selectProfileLoop profiles (pre ++ v :: rest) cfg tr =
                (inr tt,
                 mkState (setRegion (setProfile cfg (Name p)) (PRegion p)) rest
                   (tr ++ rounds ++ [EvPrint (MSelectProfile n);
                                     EvReadLine (Some (v ++ nl))])))
  /\ (forall clusters cfg tr pre,
        Forall (invalidLine (len clusters)) pre ->
        let n := len clusters in
        let rounds := rejected (MSelectCluster n) n pre in
        selectClusterLoop clusters pre cfg tr =
        (inl ErrReadInput,
         mkState cfg []
           (tr ++ rounds ++ [EvPrint (MSelectCluster n); EvReadLine None]))
        /\ forall v k rest,
             validLine n v k ->
             exists c,
               nth_error clusters (Z.to_nat (k - 1)) = Some c
               /\ selectClusterLoop clusters (pre ++ v :: rest) cfg tr =
                  (inr tt,
                   mkState (setCluster cfg c) rest
                     (tr ++ rounds ++ [EvPrint (MSelectCluster n);
                                       EvReadLine (Some (v ++ nl))])))
  /\ (forall n l, invalidLine n l <-> ~ exists k, validLine n l k).
Proof.
  split; [| split].
  - intros profiles cfg tr pre Hpre. cbv zeta. revert tr.
    induction Hpre as [| l pre Hl Hpre IH]; intros tr.
    + split.
      * simpl. rewrite <- app_assoc. reflexivity.
      * intros v k rest Hv. simpl.
        destruct (selectProfileLoop_accepts profiles v rest cfg tr k Hv)
          as (p & Hn & Heq).
        exists p. split; [exact Hn | exact Heq].
    + split.
      * rewrite (selectProfileLoop_rejects _ _ _ _ _ Hl).
        destruct (IH (tr ++ rejected (MSelectProfile (len profiles))
                              (len profiles) [l])%list) as [IH1 _].
        rewrite IH1. rewrite rejected_cons. rewrite <- !app_assoc.
        reflexivity.
      * intros v k rest Hv. simpl app.
        rewrite (selectProfileLoop_rejects _ _ _ _ _ Hl).
        destruct (IH (tr ++ rejected (MSelectProfile (len profiles))
                              (len profiles) [l])%list) as [_ IH2].
        destruct (IH2 v k rest Hv) as (p & Hn & Heq).
        exists p. split; [exact Hn |]. rewrite Heq.
        rewrite rejected_cons. rewrite <- !app_assoc. reflexivity.
  - intros clusters cfg tr pre Hpre. cbv zeta. revert tr.
    induction Hpre as [| l pre Hl Hpre IH]; intros tr.
    + split.
      * simpl. rewrite <- app_assoc. reflexivity.
      * intros v k rest Hv. simpl.
        destruct (selectClusterLoop_accepts clusters v rest cfg tr k Hv)
          as (c & Hn & Heq).
        exists c. split; [exact Hn | exact Heq].
    + split.
      * rewrite (selectClusterLoop_rejects _ _ _ _ _ Hl).
        destruct (IH (tr ++ rejected (MSelectCluster (len clusters))
                              (len clusters) [l])%list) as [IH1 _].
        rewrite IH1. rewrite rejected_cons. rewrite <- !app_assoc.
        reflexivity.
      * intros v k rest Hv. simpl app.
        rewrite (selectClusterLoop_rejects _ _ _ _ _ Hl).
        destruct (IH (tr ++ rejected (MSelectCluster (len clusters))
                              (len clusters) [l])%list) as [_ IH2].
        destruct (IH2 v k rest Hv) as (c & Hn & Heq).
        exists c. split; [exact Hn |]. rewrite Heq.
        rewrite rejected_cons. rewrite <- !app_assoc. reflexivity.
  - apply valid_or_invalid.
Qed.

(** The claim as the specification states it fails at the end of the
    input.  With three profiles listed and the lines abc, 0 and 7, none
    of which is a number from 1 to 3, the loop still ends: the fourth read
    finds no line, and the selection returns the error of the failed read
    with the configuration as it was.  The cluster loop does the
    same on an empty input, and a run of [main] that meets the end of the
    input at the prompt exits with status 1. *)
Lemma C4_counterexample :
  let cfg := bindFlags NewEKSLoginApp noFlags in
  let lines := ["abc"; "0"; "7"] in
  (forall l k, In l lines -> ~ validLine (len threeProfiles) l k)
  /\ selectProfileLoop threeProfiles lines cfg [] =
     (inl ErrReadInput,
      mkState cfg []
        (rejected (MSelectProfile 3) 3 lines
         ++ [EvPrint (MSelectProfile 3); EvReadLine None]))
  /\ fst (selectClusterLoop ["a"; "b"] [] cfg []) = inl ErrReadInput
  /\ fst (main worldDevProd (CmdRoot noFlags) ["7"]) = 1
  /\ In (EvPrint (MError ErrReadInput))
        (trace (snd (main worldDevProd (CmdRoot noFlags) ["7"]))).
Proof.
  cbv zeta. split; [| split; [| split; [| split]]].
  - intros l k Hin [Hp Hr]. change (len threeProfiles) with 3 in Hr.
    destruct Hin as [<- | [<- | [<- | []]]]; vm_compute in Hp;
      try discriminate Hp; injection Hp as <-; lia.
  - vm_compute. reflexivity.
  - vm_compute. reflexivity.
  - vm_compute. reflexivity.
  - vm_compute. repeat (try (left; reflexivity); right).
Qed.

(* ===================================================================== *)
(** ** C3: selection by the number of items found *)
(* ===================================================================== *)

Lemma forEachIndexed_print {A : Type} (item : Z -> A -> Msg) (l : list A) :
  forall i st,
    forEachIndexed i l (fun i x => print (item (i + 1) x)) st =
    (inr tt, mkState (config st) (stdin st) (trace st ++ listing item i l)).
Proof.
  induction l as [| x l IH]; intros i st; simpl.
  - rewrite app_nil_r. destruct st; reflexivity.
  - unfold bind, print, emit. simpl. rewrite IH. simpl.
    rewrite <- app_assoc. reflexivity.
Qed.

(** The listing is numbered from 1. *)
Lemma listing_nth {A : Type} (item : Z -> A -> Msg) (l : list A) :
  forall i k x,
    nth_error l k = Some x ->
    nth_error (listing item i l) k = Some (EvPrint (item (i + Z.of_nat k + 1) x)).
Proof.
  induction l as [| y l IH]; intros i k x Hk.
  - destruct k; discriminate Hk.
  - destruct k as [| k].
    + simpl in Hk. inversion Hk. subst. simpl. rewrite Z.add_0_r. reflexivity.
    + simpl in Hk. simpl listing. simpl nth_error.
      rewrite (IH (i + 1) k x Hk). do 3 f_equal. lia.
Qed.

Lemma listing_length {A : Type} (item : Z -> A -> Msg) (l : list A) i :
  List.length (listing item i l) = List.length l.
Proof.
  revert i. induction l as [| y l IH]; intros i; simpl; [reflexivity |].
  rewrite IH. reflexivity.
Qed.

(** The line "2" is the choice 2 whenever two items or more are listed. *)
Lemma line_two_valid {A : Type} (x y : A) (l : list A) :
  validLine (len (x :: y :: l)) "2" 2.
Proof.
  split; [reflexivity |]. unfold len.
  change (List.length (x :: y :: l)) with (S (S (List.length l))).
  rewrite !Nat2Z.inj_succ. lia.
Qed.

Lemma len_two_not_one {A : Type} (x y : A) (l : list A) :
  (len (x :: y :: l) =? 1) = false.
Proof.
  unfold len. change (List.length (x :: y :: l)) with (S (S (List.length l))).
  rewrite !Nat2Z.inj_succ. apply Z.eqb_neq. lia.
Qed.

(** [SelectProfile], written out by the number of profiles found. *)
Lemma SelectProfile_by_count w st profiles st1 :
  GetAWSProfiles w st = (inr profiles, st1) ->
  SelectProfile w st =
  match profiles with
  | [] => (inl ErrNoProfiles, st1)
  | [p] =>
      (inr tt,
       mkState (setRegion (setProfile (config st1) (Name p)) (PRegion p))
         (stdin st1)
         (trace st1 ++ [EvPrint (MUsingProfile (Name p) (PRegion p))]))
  | _ =>
      selectProfileLoop profiles (stdin st1) (config st1)
        (trace st1 ++ EvPrint MAvailableProfiles :: listing profileItem 0 profiles)
  end.
Proof.
  intros Hg. unfold SelectProfile, bind. rewrite Hg.
  destruct profiles as [| p [| p2 ps]].
  - reflexivity.
  - reflexivity.
  - rewrite len_cons_nonzero, len_two_not_one.
    unfold bind. simpl print.
    change (fun (i : Z) (profile : ProfileInfo) =>
              print (MProfileItem (i + 1) (Name profile) (PRegion profile)))
      with (fun (i : Z) (x : ProfileInfo) => print (profileItem (i + 1) x)).
    unfold print at 1. unfold emit at 1.
    rewrite forEachIndexed_print. simpl. rewrite <- app_assoc. reflexivity.
Qed.

(** [SelectCluster], written out by the number of clusters found. *)
Lemma SelectCluster_by_count w st clusters st1 :
  ListEKSClusters w st = (inr clusters, st1) ->
  SelectCluster w st =
  match clusters with
  | [] => (inl (ErrNoClusters (Region (config st1)) (Profile (config st1))), st1)
  | [c] =>
      (inr tt,
       mkState (setCluster (config st1) c) (stdin st1)
         (trace st1 ++ [EvPrint (MUsingCluster c)]))
  | _ =>
      selectClusterLoop clusters (stdin st1) (config st1)
        (trace st1 ++ EvPrint (MAvailableClusters (Region (config st1)))
                   :: listing clusterItem 0 clusters)
  end.
Proof.
  intros Hg. unfold SelectCluster, bind. rewrite Hg.
  destruct clusters as [| c [| c2 cs]].
  - reflexivity.
  - reflexivity.
  - unfold getConfig. cbv iota beta.
    rewrite len_cons_nonzero, len_two_not_one.
    unfold bind. simpl print.
    change (fun (i : Z) (cluster : string) => print (MClusterItem (i + 1) cluster))
      with (fun (i : Z) (x : string) => print (clusterItem (i + 1) x)).
    unfold print at 1. unfold emit at 1.
    rewrite forEachIndexed_print. simpl. rewrite <- app_assoc. reflexivity.
Qed.

(** Each loop starts by printing its prompt, whatever the input. *)
Lemma selectProfileLoop_prompts profiles lines cfg tr :
  exists more,
    trace (snd (selectProfileLoop profiles lines cfg tr)) =
    (tr ++ EvPrint (MSelectProfile (len profiles)) :: more)%list.
Proof.
  destruct lines as [| l rest]; simpl.
  - eexists. rewrite <- app_assoc. reflexivity.
  - destruct (Atoi (TrimSpace (l ++ nl))) as [choice err].
    destruct (negb (isNil err) || (choice <? 1) || (len profiles <? choice)).
    + match goal with
      | |- context [selectProfileLoop profiles rest cfg ?t] =>
          destruct (selectProfileLoop_frame profiles rest cfg t)
            as (_ & (evs & Ht & _) & _)
      end.
      simpl in Ht. rewrite Ht. eexists. rewrite <- !app_assoc. reflexivity.
    + destruct (nth_error profiles (Z.to_nat (choice - 1))); simpl;
        eexists; rewrite <- !app_assoc; reflexivity.
Qed.

Lemma selectClusterLoop_prompts clusters lines cfg tr :
  exists more,
    trace (snd (selectClusterLoop clusters lines cfg tr)) =
    (tr ++ EvPrint (MSelectCluster (len clusters)) :: more)%list.
Proof.
  destruct lines as [| l rest]; simpl.
  - eexists. rewrite <- app_assoc. reflexivity.
  - destruct (Atoi (TrimSpace (l ++ nl))) as [choice err].
    destruct (negb (isNil err) || (choice <? 1) || (len clusters <? choice)).
    + match goal with
      | |- context [selectClusterLoop clusters rest cfg ?t] =>
          destruct (selectClusterLoop_frame clusters rest cfg t)
            as (_ & (evs & Ht & _) & _)
      end.
      simpl in Ht. rewrite Ht. eexists. rewrite <- !app_assoc. reflexivity.
    + destruct (nth_error clusters (Z.to_nat (choice - 1))); simpl;
        eexists; rewrite <- !app_assoc; reflexivity.
Qed.

(** C3.  For the list of profiles found, and in the same way for the list
    of clusters found: an empty list makes the selection step return its
    fatal error; a list of one element selects it with no prompt and no
    read; a list of more than one element is printed numbered from 1 and
    the prompt is issued, and the input line "2" selects the second
    element. *)
Theorem C3_selection_by_count (w : World) :
  (forall st profiles st1,
      GetAWSProfiles w st = (inr profiles, st1) ->
      (profiles = [] -> SelectProfile w st = (inl ErrNoProfiles, st1))
      /\ (forall p, profiles = [p] ->
          SelectProfile w st =
          (inr tt,
           mkState (setRegion (setProfile (config st1) (Name p)) (PRegion p))
             (stdin st1)
             (trace st1 ++ [EvPrint (MUsingProfile (Name p) (PRegion p))])))
      /\ (1 < len profiles ->
          let shown :=
            (EvPrint MAvailableProfiles :: listing profileItem 0 profiles
             ++ [EvPrint (MSelectProfile (len profiles))])%list in
          (forall k p, nth_error profiles k = Some p ->
             nth_error (listing profileItem 0 profiles) k =
             Some (EvPrint (MProfileItem (Z.of_nat k + 1) (Name p) (PRegion p))))
          /\ (exists more,
                trace (snd (SelectProfile w st)) = (trace st1 ++ shown ++ more)%list)
          /\ (forall rest, stdin st1 = "2" :: rest ->
              exists p2,
                nth_error profiles 1 = Some p2
                /\ SelectProfile w st =
                   (inr tt,
                    mkState
                      (setRegion (setProfile (config st1) (Name p2)) (PRegion p2))
                      rest
                      (trace st1 ++ shown ++ [EvReadLine (Some ("2" ++ nl))])))))
  /\ (forall st clusters st1,
        ListEKSClusters w st = (inr clusters, st1) ->
        (clusters = [] ->
         SelectCluster w st =
         (inl (ErrNoClusters (Region (config st1)) (Profile (config st1))), st1))
        /\ (forall c, clusters = [c] ->
            SelectCluster w st =
            (inr tt,
             mkState (setCluster (config st1) c) (stdin st1)
               (trace st1 ++ [EvPrint (MUsingCluster c)])))
        /\ (1 < len clusters ->
            let shown :=
              (EvPrint (MAvailableClusters (Region (config st1)))
               :: listing clusterItem 0 clusters
               ++ [EvPrint (MSelectCluster (len clusters))])%list in
            (forall k c, nth_error clusters k = Some c ->
               nth_error (listing clusterItem 0 clusters) k =
               Some (EvPrint (MClusterItem (Z.of_nat k + 1) c)))
            /\ (exists more,
                  trace (snd (SelectCluster w st))
                  = (trace st1 ++ shown ++ more)%list)
            /\ (forall rest, stdin st1 = "2" :: rest ->
                exists c2,
                  nth_error clusters 1 = Some c2
                  /\ SelectCluster w st =
                     (inr tt,
                      mkState (setCluster (config st1) c2) rest
                        (trace st1 ++ shown
                         ++ [EvReadLine (Some ("2" ++ nl))]))))).
Proof.
  split.
  - intros st profiles st1 Hg.
    pose proof (SelectProfile_by_count w st profiles st1 Hg) as Hs.
    split; [| split].
    + intros ->. exact Hs.
    + intros p ->. exact Hs.
    + intros Hlen. destruct profiles as [| p1 [| p2 ps]];
        [unfold len in Hlen; simpl in Hlen; lia
        | unfold len in Hlen; simpl in Hlen; lia |].
      cbv zeta. split; [| split].
      * intros k p Hk. rewrite (listing_nth profileItem _ 0 k p Hk).
        reflexivity.
      * rewrite Hs.
        destruct (selectProfileLoop_prompts (p1 :: p2 :: ps) (stdin st1)
                    (config st1)
                    (trace st1 ++ EvPrint MAvailableProfiles
                       :: listing profileItem 0 (p1 :: p2 :: ps))%list)
          as [more Hm].
        exists more. rewrite Hm. rewrite <- !app_assoc. simpl.
        rewrite <- !app_assoc. reflexivity.
      * intros rest Hin. exists p2. split; [reflexivity |].
        rewrite Hs, Hin.
        destruct (selectProfileLoop_accepts (p1 :: p2 :: ps) "2" rest
                    (config st1)
                    (trace st1 ++ EvPrint MAvailableProfiles
                       :: listing profileItem 0 (p1 :: p2 :: ps))%list 2
                    (line_two_valid p1 p2 ps)) as (p & Hn & Heq).
        simpl in Hn. inversion Hn. subst p. rewrite Heq.
        rewrite <- !app_assoc. simpl. rewrite <- !app_assoc. reflexivity.
  - intros st clusters st1 Hg.
    pose proof (SelectCluster_by_count w st clusters st1 Hg) as Hs.
    split; [| split].
    + intros ->. exact Hs.
    + intros c ->. exact Hs.
    + intros Hlen. destruct clusters as [| c1 [| c2 cs]];
        [unfold len in Hlen; simpl in Hlen; lia
        | unfold len in Hlen; simpl in Hlen; lia |].
      cbv zeta. split; [| split].
      * intros k c Hk. rewrite (listing_nth clusterItem _ 0 k c Hk).
        reflexivity.
      * rewrite Hs.
        destruct (selectClusterLoop_prompts (c1 :: c2 :: cs) (stdin st1)
                    (config st1)
                    (trace st1 ++ EvPrint (MAvailableClusters (Region (config st1)))
                       :: listing clusterItem 0 (c1 :: c2 :: cs))%list)
          as [more Hm].
        exists more. rewrite Hm. rewrite <- !app_assoc. simpl.
        rewrite <- !app_assoc. reflexivity.
      * intros rest Hin. exists c2. split; [reflexivity |].
        rewrite Hs, Hin.
        destruct (selectClusterLoop_accepts (c1 :: c2 :: cs) "2" rest
                    (config st1)
                    (trace st1 ++ EvPrint (MAvailableClusters (Region (config st1)))
                       :: listing clusterItem 0 (c1 :: c2 :: cs))%list 2
                    (line_two_valid c1 c2 cs)) as (c & Hn & Heq).
        simpl in Hn. inversion Hn. subst c. rewrite Heq.
        rewrite <- !app_assoc. simpl. rewrite <- !app_assoc. reflexivity.
Qed.

(* ===================================================================== *)
(** ** C8: the region of a profile *)
(* ===================================================================== *)

Lemma profilesOfLines_spec w lines : forall profiles st,
  exists ress,
    let names := filter nonEmpty (map TrimSpace lines) in
    List.length ress = List.length names
    /\ profilesOfLines w lines profiles st =
       (inr (profiles
             ++ map (fun nr => mkProfileInfo (fst nr)
                                 (regionOf (DefaultRegion (config st)) (snd nr)))
                  (combine names ress))%list,
        mkState (config st) (stdin st)
          (trace st ++ map regionLookup (combine names ress))).
Proof.
  induction lines as [| line lines IH]; intros profiles st.
  - exists []. simpl. split; [reflexivity |].
    rewrite !app_nil_r. destruct st; reflexivity.
  - cbv zeta.
    destruct (String.eqb (TrimSpace line) EmptyString) eqn:Hline.
    + assert (Hf : filter nonEmpty (map TrimSpace (line :: lines))
                   = filter nonEmpty (map TrimSpace lines))
        by (simpl; unfold nonEmpty at 1; rewrite Hline; reflexivity).
      rewrite Hf. simpl profilesOfLines. rewrite Hline. unfold negb.
      cbv beta iota. apply IH.
    + assert (Hf : filter nonEmpty (map TrimSpace (line :: lines))
                   = TrimSpace line :: filter nonEmpty (map TrimSpace lines))
        by (simpl; unfold nonEmpty at 1; rewrite Hline; reflexivity).
      rewrite Hf. simpl profilesOfLines. rewrite Hline. unfold negb.
      cbv beta iota. unfold bind, Execute, getConfig.
      destruct (wOutput w (trace st) "aws"
                  ["configure"; "get"; "region"; "--profile"; TrimSpace line])
        as [out | e se | e] eqn:Hres; simpl;
        match goal with
        | |- context [profilesOfLines w lines ?ps ?s] =>
            destruct (IH ps s) as (ress & Hlen & Heq)
        end;
        [ exists (CmdOk out :: ress)
        | exists (CmdExit e se :: ress)
        | exists (CmdFail e :: ress) ];
        cbv zeta in *; simpl; (split; [rewrite Hlen; reflexivity |]);
        rewrite Heq; simpl; rewrite <- !app_assoc; reflexivity.
Qed.

(** [GetAWSProfiles], written out: when it succeeds, the listing gave an
    output, each name taken from it had one region lookup, and the
    profiles are the names in order, each with the region of its lookup. *)
Lemma GetAWSProfiles_spec w st profiles st1 :
  GetAWSProfiles w st = (inr profiles, st1) ->
  exists out ress,
    wOutput w (trace st) "aws" ["configure"; "list-profiles"] = CmdOk out
    /\ List.length ress = List.length (profileNames (TrimSpace out))
    /\ profiles =
       map (fun nr => mkProfileInfo (fst nr)
                        (regionOf (DefaultRegion (config st)) (snd nr)))
         (combine (profileNames (TrimSpace out)) ress)
    /\ config st1 = config st
    /\ stdin st1 = stdin st
    /\ trace st1 =
       (trace st ++ EvOutput "aws" ["configure"; "list-profiles"] (CmdOk out)
          :: map regionLookup (combine (profileNames (TrimSpace out)) ress))%list.
Proof.
  unfold GetAWSProfiles, bind, Execute.
  destruct (wOutput w (trace st) "aws" ["configure"; "list-profiles"])
    as [out | e se | e] eqn:Hres; simpl; try discriminate.
  match goal with
  | |- context [profilesOfLines w ?ls ?ps ?s] =>
      destruct (profilesOfLines_spec w ls ps s) as (ress & Hlen & Heq)
  end.
  cbv zeta in *. rewrite Heq. simpl. intros H. inversion H. subst. clear H.
  exists out, ress. simpl. rewrite <- app_assoc. simpl.
  unfold profileNames. repeat split; auto.
Qed.

Lemma profileNames_nonempty out name :
  In name (profileNames out) -> name <> EmptyString.
Proof.
  unfold profileNames. intros H. apply filter_In in H. destruct H as [_ H].
  unfold nonEmpty in H. intros ->. discriminate H.
Qed.

(** The loop of [GetAWSProfiles] never fails: it asks the world for the
    region of each name in turn and gives each the region of its lookup. *)
Lemma profilesOfLines_lookups w lines : forall profiles st,
  let names := filter nonEmpty (map TrimSpace lines) in
  let ress := lookups w (trace st) names in
  profilesOfLines w lines profiles st =
  (inr (profiles
        ++ map (fun nr => mkProfileInfo (fst nr)
                            (regionOf (DefaultRegion (config st)) (snd nr)))
             (combine names ress))%list,
   mkState (config st) (stdin st)
     (trace st ++ map regionLookup (combine names ress))).
Proof.
  induction lines as [| line lines IH]; intros profiles st.
  - simpl. rewrite !app_nil_r. destruct st; reflexivity.
  - cbv zeta.
    destruct (String.eqb (TrimSpace line) EmptyString) eqn:Hline.
    + assert (Hf : filter nonEmpty (map TrimSpace (line :: lines))
                   = filter nonEmpty (map TrimSpace lines))
        by (simpl; unfold nonEmpty at 1; rewrite Hline; reflexivity).
      rewrite Hf. simpl profilesOfLines. rewrite Hline. unfold negb.
      cbv beta iota. apply IH.
    + assert (Hf : filter nonEmpty (map TrimSpace (line :: lines))
                   = TrimSpace line :: filter nonEmpty (map TrimSpace lines))
        by (simpl; unfold nonEmpty at 1; rewrite Hline; reflexivity).
      rewrite Hf. simpl profilesOfLines. rewrite Hline. unfold negb.
      cbv beta iota. unfold bind, Execute, getConfig. simpl lookups.
      destruct (wOutput w (trace st) "aws"
                  ["configure"; "get"; "region"; "--profile"; TrimSpace line])
        as [out | e se | e] eqn:Hres; simpl;
        rewrite IH; cbv zeta; simpl; rewrite <- !app_assoc; reflexivity.
Qed.

(** [GetAWSProfiles], written out: it fails exactly when the listing
    fails, whatever the region lookups give. *)
Lemma GetAWSProfiles_eq w st :
  GetAWSProfiles w st =
  let res := wOutput w (trace st) "aws" ["configure"; "list-profiles"] in
  let tr1 :=
    (trace st ++ [EvOutput "aws" ["configure"; "list-profiles"] res])%list in
  match res with
  | CmdOk out =>
      let names := profileNames (TrimSpace out) in
      let ress := lookups w tr1 names in
      (inr (map (fun nr => mkProfileInfo (fst nr)
                             (regionOf (DefaultRegion (config st)) (snd nr)))
              (combine names ress)),
       mkState (config st) (stdin st)
         (tr1 ++ map regionLookup (combine names ress)))
  | CmdExit err stderr =>
      (inl (ErrListProfiles (ErrCommandFailed err stderr)),
       mkState (config st) (stdin st) tr1)
  | CmdFail err =>
      (inl (ErrListProfiles (ErrCommand err)),
       mkState (config st) (stdin st) tr1)
  end.
Proof.
  unfold GetAWSProfiles, bind, Execute. cbv zeta.
  destruct (wOutput w (trace st) "aws" ["configure"; "list-profiles"])
    as [out | e se | e]; simpl; try reflexivity.
  rewrite profilesOfLines_lookups. reflexivity.
Qed.

Lemma lookups_length w names : forall tr,
  List.length (lookups w tr names) = List.length names.
Proof.
  induction names as [| name names IH]; intros tr; simpl; [reflexivity |].
  rewrite IH. reflexivity.
Qed.

Lemma map_fst_combine_eq {A B : Type} (l : list A) : forall (l' : list B),
  List.length l' = List.length l -> map fst (combine l l') = l.
Proof.
  induction l as [| a l IH]; intros [| b l'] H; simpl in *;
    try reflexivity; try discriminate H.
  rewrite IH; [reflexivity | congruence].
Qed.

Lemma nth_error_combine_snd {A B : Type} (l : list A) : forall (l' : list B) i a b r,
  nth_error (combine l l') i = Some (a, b) ->
  nth_error l' i = Some r -> b = r.
Proof.
  induction l as [| x l IH]; intros [| y l'] [| i] a b r H1 H2; simpl in *;
    try discriminate.
  - congruence.
  - eapply IH; eassumption.
Qed.

(** C8.  [GetAWSProfiles] fails only when the profile listing fails.
    When the listing gives an output, it returns one profile for every
    non-empty name of the listing, in order, after one region lookup
    each, and whatever the lookups give: a profile whose lookup failed or
    gave an empty string has the default region of the configuration, any
    other the trimmed output of its lookup.  That default is "us-west-2"
    in every configuration [main] sets up, in the one [Run] selects the
    profile in, and to the end of the run, whatever the region flag.  In
    particular, with the profiles dev
    and prod of regions us-west-2 and us-east-1 and the input line "1",
    the profile resolved is dev with region us-west-2; and with the
    profiles dev and prod, the lookup failing for the one and giving an
    empty line for the other, both have the region us-west-2, also in a
    run with the region flag set to eu-central-1. *)
Theorem C8_profile_region (w : World) :
  (forall st profiles st1,
      GetAWSProfiles w st = (inr profiles, st1) ->
      exists out ress,
        let names := profileNames (TrimSpace out) in
        wOutput w (trace st) "aws" ["configure"; "list-profiles"] = CmdOk out
        /\ (forall name, In name names -> name <> EmptyString)
        /\ List.length ress = List.length names
        /\ profiles =
           map (fun nr => mkProfileInfo (fst nr)
                            (regionOf (DefaultRegion (config st)) (snd nr)))
             (combine names ress)
        /\ trace st1 =
           (trace st ++ EvOutput "aws" ["configure"; "list-profiles"] (CmdOk out)
              :: map regionLookup (combine names ress))%list)
  /\ (forall dflt res,
        succeeded res = false
        \/ (exists out, res = CmdOk out /\ TrimSpace out = EmptyString) ->
        regionOf dflt res = dflt)
  /\ (forall f input,
        DefaultRegion (bindFlags NewEKSLoginApp f) = "us-west-2"
        /\ DefaultRegion (config (snd (main w (CmdRoot f) input))) = "us-west-2")
  /\ (let r := SelectProfile worldDevProd
                 (mkState (bindFlags NewEKSLoginApp noFlags) ["1"] []) in
      fst r = inr tt
      /\ Profile (config (snd r)) = "dev"
      /\ Region (config (snd r)) = "us-west-2")
  /\ (let r := main worldDevProd (CmdRoot noFlags) ["1"] in
      fst r = 0
      /\ Profile (config (snd r)) = "dev"
      /\ Region (config (snd r)) = "us-west-2")
  /\ (forall st out,
        wOutput w (trace st) "aws" ["configure"; "list-profiles"] = CmdOk out ->
        let names := profileNames (TrimSpace out) in
        let tr1 :=
          (trace st
           ++ [EvOutput "aws" ["configure"; "list-profiles"] (CmdOk out)])%list in
        let ress := lookups w tr1 names in
        exists profiles,
          GetAWSProfiles w st =
          (inr profiles,
           mkState (config st) (stdin st)
             (tr1 ++ map regionLookup (combine names ress)))
          /\ map Name profiles = names
          /\ List.length ress = List.length names
          /\ forall i p res,
               nth_error profiles i = Some p ->
               nth_error ress i = Some res ->
               (succeeded res = false
                \/ (exists o, res = CmdOk o /\ TrimSpace o = EmptyString) ->
                PRegion p = DefaultRegion (config st))
               /\ (forall o, res = CmdOk o -> TrimSpace o <> EmptyString ->
                   PRegion p = TrimSpace o))
  /\ (forall st,
        (exists profiles st1, GetAWSProfiles w st = (inr profiles, st1))
        <-> exists out,
              wOutput w (trace st) "aws" ["configure"; "list-profiles"]
              = CmdOk out)
  /\ (let st := mkState (bindFlags NewEKSLoginApp flagsRegion) ["2"] [] in
      let r := main worldNoRegion (CmdRoot flagsRegion) ["2"] in
      fst (GetAWSProfiles worldNoRegion st)
      = inr [mkProfileInfo "dev" "us-west-2"; mkProfileInfo "prod" "us-west-2"]
      /\ Region (config st) = "eu-central-1"
      /\ fst r = 0
      /\ Profile (config (snd r)) = "prod"
      /\ Region (config (snd r)) = "us-west-2")
  /\ (forall f input u st1,
        CheckDependencies w (mkState (bindFlags NewEKSLoginApp f) input [])
        = (inr u, st1) ->
        config st1 = bindFlags NewEKSLoginApp f
        /\ DefaultRegion (config st1) = "us-west-2").
Proof.
  split; [| split; [| split; [| split; [| split; [| split; [| split;
    [| split]]]]]]].
  - intros st profiles st1 Hg.
    destruct (GetAWSProfiles_spec w st profiles st1 Hg)
      as (out & ress & Hout & Hlen & Hp & _ & _ & Ht).
    exists out, ress. cbv zeta. repeat split; auto.
    intros name. apply profileNames_nonempty.
  - intros dflt res [Hf | (out & -> & Hout)].
    + destruct res; [discriminate Hf | reflexivity | reflexivity].
    + simpl. rewrite Hout. reflexivity.
  - intros f input. split; [reflexivity |]. unfold main.
    pose proof (Run_keeps_flags w (mkState (bindFlags NewEKSLoginApp f) input []))
      as (_ & _ & Hd).
    destruct (Run w (mkState (bindFlags NewEKSLoginApp f) input []))
      as [[e | u] st']; simpl in *; exact Hd.
  - vm_compute. repeat split.
  - vm_compute. repeat split.
  - intros st out Hout. cbv zeta. rewrite GetAWSProfiles_eq. cbv zeta.
    rewrite Hout. eexists. split; [reflexivity |].
    split; [| split; [apply lookups_length |]].
    + rewrite map_map. simpl. apply map_fst_combine_eq, lookups_length.
    + intros i p res Hp Hr. rewrite nth_error_map in Hp.
      destruct (nth_error
                  (combine (profileNames (TrimSpace out))
                     (lookups w
                        (trace st
                         ++ [EvOutput "aws" ["configure"; "list-profiles"]
                               (CmdOk out)])
                        (profileNames (TrimSpace out)))) i)
        as [[a b] |] eqn:Hc; simpl in Hp; [| discriminate Hp].
      injection Hp as <-.
      rewrite (nth_error_combine_snd _ _ _ _ _ _ Hc Hr). simpl. split.
      * intros [Hf | (o & -> & Ho)].
        -- destruct res; [discriminate Hf | reflexivity | reflexivity].
        -- simpl. rewrite Ho. reflexivity.
      * intros o -> Ho. simpl.
        destruct (String.eqb (TrimSpace o) EmptyString) eqn:E;
          [apply String.eqb_eq in E; contradiction | reflexivity].
  - intros st. rewrite GetAWSProfiles_eq. cbv zeta.
    destruct (wOutput w (trace st) "aws" ["configure"; "list-profiles"])
      as [out | e se | e]; split.
    + intros _. exists out. reflexivity.
    + intros _. eexists. eexists. reflexivity.
    + intros (profiles & st1 & H). discriminate H.
    + intros (out & H). discriminate H.
    + intros (profiles & st1 & H). discriminate H.
    + intros (out & H). discriminate H.
  - vm_compute. repeat split.
  - intros f input u st1 H.
    pose proof (frame_CheckDependencies w
                  (mkState (bindFlags NewEKSLoginApp f) input []))
      as (Hc & _).
    rewrite H in Hc. unfold keepAll in Hc. simpl in Hc.
    split; [exact Hc | rewrite Hc; reflexivity].
Qed.

(* ===================================================================== *)
(** ** C2: which fields the resolvers write *)
(* ===================================================================== *)

Lemma profileStep_given w st :
  Profile (config st) <> EmptyString -> profileStep w st = (inr tt, st).
Proof.
  intros H. unfold profileStep. apply String.eqb_neq in H. rewrite H.
  reflexivity.
Qed.

Lemma clusterStep_given w st :
  Cluster (config st) <> EmptyString -> clusterStep w st = (inr tt, st).
Proof.
  intros H. unfold clusterStep. apply String.eqb_neq in H. rewrite H.
  reflexivity.
Qed.







(* ===================================================================== *)
(** ** C10: a cluster listing without the clusters key *)
(* ===================================================================== *)

(** [ListEKSClusters], written out. *)
Lemma ListEKSClusters_eq w st :
  ListEKSClusters w st =
  let tr1 := (trace st ++ [EvPrint MFetchingClusters])%list in
  let res := wOutput w tr1 "aws" (listClustersArgs (config st)) in
  let st1 := mkState (config st) (stdin st)
               (tr1 ++ [EvOutput "aws" (listClustersArgs (config st)) res]) in
  match res with
  | CmdOk out =>
      match Unmarshal (TrimSpace out) (mkListClustersResponse []) with
      | (_, Some e) => (inl (ErrParseClusters e), st1)
      | (response, None) => (inr (Clusters response), st1)
      end
  | CmdExit err stderr =>
      (inl (ErrListClusters (ErrCommandFailed err stderr)), st1)
  | CmdFail err => (inl (ErrListClusters (ErrCommand err)), st1)
  end.
Proof.
  unfold ListEKSClusters, bind, print, emit, getConfig, Execute, fail, ret,
    listClustersArgs. simpl.
  destruct (wOutput w (trace st ++ [EvPrint MFetchingClusters]) "aws"
              ["eks"; "list-clusters"; "--profile"; Profile (config st);
               "--region"; Region (config st); "--output"; "json"])
    as [out | e se | e]; simpl; try reflexivity.
  destruct (Unmarshal (TrimSpace out) (mkListClustersResponse []))
    as [resp [e |]]; reflexivity.
Qed.

(** A key that is the field name matches it under folding too. *)
Lemma eqb_clustersTag_fold key :
  equalFoldRight clustersTag key = false ->
  String.eqb key clustersTag || equalFoldRight clustersTag key = false.
Proof.
  intros H. rewrite H. rewrite orb_false_r. apply String.eqb_neq.
  intros ->. vm_compute in H. discriminate H.
Qed.

(** Members none of which matches the field leave the response alone. *)
Lemma storeMembers_unmatched members : forall acc,
  (forall k v, In (k, v) members -> equalFoldRight clustersTag k = false) ->
  fold_left storeMember members acc = acc.
Proof.
  induction members as [| [k v] members IH]; intros acc Hno; simpl.
  - reflexivity.
  - rewrite IH.
    + unfold storeMember. destruct acc as [resp saved].
      rewrite (eqb_clustersTag_fold k); [reflexivity |].
      apply (Hno k v). left. reflexivity.
    + intros k' v' Hin. apply (Hno k' v'). right. exact Hin.
Qed.

Lemma Unmarshal_unmatched data members resp :
  parse data = Some (JObject members) ->
  (forall k v, In (k, v) members -> equalFoldRight clustersTag k = false) ->
  Unmarshal data resp = (resp, None).
Proof.
  intros Hp Hno. unfold Unmarshal. rewrite Hp.
  apply storeMembers_unmatched. exact Hno.
Qed.

(** If the cluster listing succeeds and its output is a JSON object in
    which no key matches the field, [ListEKSClusters] returns the empty
    list and [SelectCluster] the error for no clusters. *)
Lemma SelectCluster_without_key (w : World) (st : AppState)
  (out : string) (members : list (string * JSON)) :
  wOutput w (trace st ++ [EvPrint MFetchingClusters]) "aws"
    (listClustersArgs (config st)) = CmdOk out ->
  parse (TrimSpace out) = Some (JObject members) ->
  (forall k v, In (k, v) members -> equalFoldRight "clusters" k = false) ->
  let st1 :=
    mkState (config st) (stdin st)
      (trace st ++ [EvPrint MFetchingClusters;
                    EvOutput "aws" (listClustersArgs (config st)) (CmdOk out)]) in
  ListEKSClusters w st = (inr [], st1)
  /\ SelectCluster w st =
     (inl (ErrNoClusters (Region (config st)) (Profile (config st))), st1).
Proof.
  intros Hout Hparse Hno st1.
  assert (Hl : ListEKSClusters w st = (inr [], st1)).
  { rewrite ListEKSClusters_eq. cbv zeta. rewrite Hout.
    rewrite (Unmarshal_unmatched _ members _ Hparse Hno). simpl.
    subst st1. rewrite <- app_assoc. reflexivity. }
  split; [exact Hl |].
  rewrite (SelectCluster_by_count w st [] st1 Hl). reflexivity.
Qed.

Lemma listing_notOutput {A : Type} (item : Z -> A -> Msg) (l : list A) :
  forall i, Forall notOutput (listing item i l).
Proof.
  induction l as [| x l IH]; intros i; simpl; constructor; simpl; auto.
Qed.

Lemma selectClusterLoop_notOutput clusters lines : forall cfg tr,
  exists evs,
    trace (snd (selectClusterLoop clusters lines cfg tr)) = (tr ++ evs)%list
    /\ Forall notOutput evs.
Proof.
  induction lines as [| l rest IH]; intros cfg tr; simpl.
  - eexists. rewrite <- app_assoc. split; [reflexivity |].
    repeat constructor.
  - destruct (Atoi (TrimSpace (l ++ nl))) as [choice err].
    destruct (negb (isNil err) || (choice <? 1) || (len clusters <? choice)).
    + match goal with
      | |- context [selectClusterLoop clusters rest cfg ?t] =>
          destruct (IH cfg t) as (evs & Ht & Hp)
      end.
      eexists. split.
      * rewrite Ht. rewrite <- !app_assoc. reflexivity.
      * simpl. repeat constructor. exact Hp.
    + destruct (nth_error clusters (Z.to_nat (choice - 1))); simpl;
        (eexists; rewrite <- app_assoc; split; [reflexivity |];
         repeat constructor).
Qed.

(** The trace of [SelectCluster]: the listing call comes first and is the
    only captured subprocess. *)
Lemma SelectCluster_trace w st :
  exists more,
    trace (snd (SelectCluster w st)) =
    (trace st
     ++ EvPrint MFetchingClusters
     :: EvOutput "aws" (listClustersArgs (config st))
          (wOutput w (trace st ++ [EvPrint MFetchingClusters]) "aws"
             (listClustersArgs (config st)))
     :: more)%list
    /\ Forall notOutput more.
Proof.
  destruct (ListEKSClusters w st) as [[e | clusters] st1] eqn:Hl.
  - assert (Hs : SelectCluster w st = (inl e, st1))
      by (unfold SelectCluster, bind; rewrite Hl; reflexivity).
    rewrite Hs. rewrite ListEKSClusters_eq in Hl. cbv zeta in Hl.
    exists []. split; [| constructor].
    destruct (wOutput w (trace st ++ [EvPrint MFetchingClusters]) "aws"
                (listClustersArgs (config st))) as [out | e' se | e'];
      [destruct (Unmarshal (TrimSpace out) (mkListClustersResponse []))
         as [resp [e' |]] |..];
      inversion Hl; subst; simpl; rewrite <- app_assoc; reflexivity.
  - rewrite (SelectCluster_by_count w st clusters st1 Hl).
    assert (Ht1 : trace st1 =
                  (trace st
                   ++ [EvPrint MFetchingClusters;
                       EvOutput "aws" (listClustersArgs (config st))
                         (wOutput w (trace st ++ [EvPrint MFetchingClusters])
                            "aws" (listClustersArgs (config st)))])%list).
    { rewrite ListEKSClusters_eq in Hl. cbv zeta in Hl.
      destruct (wOutput w (trace st ++ [EvPrint MFetchingClusters]) "aws"
                  (listClustersArgs (config st))) as [out | e' se | e'];
        [destruct (Unmarshal (TrimSpace out) (mkListClustersResponse []))
           as [resp [e' |]] |..];
        inversion Hl; subst; simpl; rewrite <- app_assoc; reflexivity. }
    destruct clusters as [| c1 [| c2 cs]].
    + exists []. simpl. rewrite Ht1. split; [reflexivity | constructor].
    + exists [EvPrint (MUsingCluster c1)]. simpl. rewrite Ht1.
      rewrite <- app_assoc. split; [reflexivity |]. repeat constructor.
    + match goal with
      | |- context [selectClusterLoop ?cl ?ls ?cfg ?t] =>
          destruct (selectClusterLoop_notOutput cl ls cfg t) as (evs & Ht & Hp)
      end.
      rewrite Ht. rewrite Ht1.
      exists (EvPrint (MAvailableClusters (Region (config st1)))
                :: listing clusterItem 0 (c1 :: c2 :: cs) ++ evs)%list.
      split.
      * rewrite <- !app_assoc. reflexivity.
      * constructor; [exact I |]. apply Forall_app. split; [| exact Hp].
        apply listing_notOutput.
Qed.

(** If the cluster step has put a successful listing with output [out] in
    the trace, the resolver ran and its listing call gave [out]. *)
Lemma clusterStep_listing w s evs args out :
  trace (snd (clusterStep w s)) = (trace s ++ evs)%list ->
  In (EvOutput "aws" args (CmdOk out)) evs ->
  clusterStep w s = SelectCluster w s
  /\ wOutput w (trace s ++ [EvPrint MFetchingClusters]) "aws"
       (listClustersArgs (config s)) = CmdOk out.
Proof.
  unfold clusterStep.
  destruct (String.eqb (Cluster (config s)) EmptyString).
  - intros Ht Hin. split; [reflexivity |].
    destruct (SelectCluster_trace w s) as (more & Hm & Hno).
    rewrite Hm in Ht. apply app_inv_head in Ht. subst evs.
    destruct Hin as [Hin | [Hin | Hin]].
    + discriminate Hin.
    + inversion Hin. reflexivity.
    + rewrite Forall_forall in Hno. destruct (Hno _ Hin).
  - simpl. intros Ht Hin. rewrite <- (app_nil_r (trace s)) in Ht at 1.
    apply app_inv_head in Ht. subst evs. destruct Hin.
Qed.

Lemma noListing_CheckDependencies ev : evCheckDependencies ev -> ~ isListClusters ev.
Proof. destruct ev; simpl; auto. Qed.

Lemma noListing_SelectProfile ev : evSelectProfile ev -> ~ isListClusters ev.
Proof.
  destruct ev; simpl; auto.
  intros (_ & r1 & H1) (_ & r2 & H2). congruence.
Qed.

Lemma noListing_loginStep ev : evLoginStep ev -> ~ isListClusters ev.
Proof. destruct ev; simpl; auto. Qed.

Lemma noListing_UpdateKubeconfig ev : evUpdateKubeconfig ev -> ~ isListClusters ev.
Proof. destruct ev; simpl; auto. Qed.

Lemma noListing_VerifyConnection ev : evVerifyConnection ev -> ~ isListClusters ev.
Proof. destruct ev; simpl; auto. intros H (H' & _). congruence. Qed.

Lemma noListing_ShowSummary ev : evShowSummary ev -> ~ isListClusters ev.
Proof. destruct ev; simpl; auto. Qed.

(** [In x (l1 ++ ... ++ ln)] taken apart, the parts that hold no cluster
    listing dismissed. *)
Ltac find_listing Hin Hl :=
  repeat (apply in_app_or in Hin; destruct Hin as [Hin | Hin]);
  try (exfalso;
       match goal with
       | N : forall x, In x ?l -> ~ isListClusters x, H : In _ ?l |- _ =>
           exact (N _ H Hl)
       end);
  try (exfalso; simpl in Hin; destruct Hin as [Hin | []]; discriminate Hin).

(** In a run from an empty trace, a successful cluster listing whose
    output is an object with no key matching "clusters" makes the run
    return the error "no EKS clusters found". *)
Lemma Run_listing_without_key (w : World) (st : AppState) :
  trace st = [] ->
  forall args out members,
    In (EvOutput "aws" args (CmdOk out)) (trace (snd (Run w st))) ->
    (exists rest, args = "eks" :: "list-clusters" :: rest) ->
    parse (TrimSpace out) = Some (JObject members) ->
    (forall k v, In (k, v) members -> equalFoldRight "clusters" k = false) ->
    exists region profile, fst (Run w st) = inl (ErrNoClusters region profile).
Proof.
  intros Hnil args out members Hin Hargs Hparse Hno.
  assert (Hl : isListClusters (EvOutput "aws" args (CmdOk out)))
    by (simpl; auto).
  destruct Hargs as [rest ->].
  revert Hin. run_steps w st; simpl; intros Hin.
  all: pose proof (Forall_not_in _ _ _ noListing_CheckDependencies Fp) as N1.
  all: try pose proof (Forall_not_in _ _ _ noListing_SelectProfile Fp0) as N2.
  all: try pose proof (Forall_not_in _ _ _ noListing_loginStep Fp1) as N4.
  all: try pose proof (Forall_not_in _ _ _ noListing_UpdateKubeconfig Fp3) as N6.
  all: try pose proof (Forall_not_in _ _ _ noListing_VerifyConnection Fp4) as N7.
  all: try pose proof (Forall_not_in _ _ _ noListing_ShowSummary Fp5) as N8.
  all: rewrite Hnil in Ft; simpl in Ft.
  - rewrite Ft in Hin. find_listing Hin Hl.
  - rewrite Ft0, Ft in Hin. find_listing Hin Hl.
  - rewrite Ft1, Ft0, Ft in Hin. find_listing Hin Hl.
  - rewrite Ft2, Ft1, Ft0, Ft in Hin. find_listing Hin Hl.
    destruct (clusterStep_listing w s4 evs2
                ("eks" :: "list-clusters" :: rest) out) as [Hsel Hout];
      [rewrite H5; exact Ft2 | exact Hin |].
    destruct (SelectCluster_without_key w s4 out members Hout Hparse Hno)
      as [_ Hs].
    rewrite Hsel, Hs in H5. inversion H5. eauto.
  - rewrite Ft3, Ft2, Ft1, Ft0, Ft in Hin. find_listing Hin Hl.
    destruct (clusterStep_listing w s4 evs2
                ("eks" :: "list-clusters" :: rest) out) as [Hsel Hout];
      [rewrite H5; exact Ft2 | exact Hin |].
    destruct (SelectCluster_without_key w s4 out members Hout Hparse Hno)
      as [_ Hs].
    rewrite Hsel, Hs in H5. discriminate H5.
  - exfalso. exact (Fe4 e eq_refl).
  - exfalso. exact (Fe5 e eq_refl).
  - rewrite Ft5, Ft4, Ft3, Ft2, Ft1, Ft0, Ft in Hin. find_listing Hin Hl.
    destruct (clusterStep_listing w s4 evs2
                ("eks" :: "list-clusters" :: rest) out) as [Hsel Hout];
      [rewrite H5; exact Ft2 | exact Hin |].
    destruct (SelectCluster_without_key w s4 out members Hout Hparse Hno)
      as [_ Hs].
    rewrite Hsel, Hs in H5. discriminate H5.
Qed.

(** C10, as the code has it.  Let the output of the cluster listing be a
    JSON object in which no key matches "clusters" under the decoder's
    folding of letter case (the object {} for one).  Then decoding it
    succeeds and leaves the cluster list empty; [ListEKSClusters] returns
    the empty list and [SelectCluster] the error "no EKS clusters found"
    for the region and profile at hand; and every run of [main] in which
    the listing gave that output exits with status 1 after printing
    that error, not a parse error. *)
Theorem C10_listing_without_key (w : World) (out : string)
  (members : list (string * JSON)) :
  parse (TrimSpace out) = Some (JObject members) ->
  (forall k v, In (k, v) members -> equalFoldRight "clusters" k = false) ->
  Unmarshal (TrimSpace out) (mkListClustersResponse [])
  = (mkListClustersResponse [], None)
  /\ (forall st,
        wOutput w (trace st ++ [EvPrint MFetchingClusters]) "aws"
          (listClustersArgs (config st)) = CmdOk out ->
        let st1 :=
          mkState (config st) (stdin st)
            (trace st ++ [EvPrint MFetchingClusters;
                          EvOutput "aws" (listClustersArgs (config st))
                            (CmdOk out)]) in
        ListEKSClusters w st = (inr [], st1)
        /\ SelectCluster w st =
           (inl (ErrNoClusters (Region (config st)) (Profile (config st))), st1))
  /\ (forall f input args,
        let r := main w (CmdRoot f) input in
        In (EvOutput "aws" ("eks" :: "list-clusters" :: args) (CmdOk out))
          (trace (snd r)) ->
        fst r = 1
        /\ exists region profile,
             In (EvPrint (MError (ErrNoClusters region profile)))
               (trace (snd r))).
Proof.
  intros Hparse Hno. split; [| split].
  - apply (Unmarshal_unmatched _ members); assumption.
  - intros st Hout. apply (SelectCluster_without_key w st out members); assumption.
  - intros f input args r. subst r. unfold main.
    set (st0 := mkState (bindFlags NewEKSLoginApp f) input []).
    pose proof (Run_listing_without_key w st0 eq_refl
                  ("eks" :: "list-clusters" :: args) out members) as HR.
    destruct (Run w st0) as [[e | u] st'] eqn:Hrun; simpl in *.
    + intros Hin. apply in_app_or in Hin. destruct Hin as [Hin | Hin].
      * destruct (HR Hin (ex_intro _ args eq_refl) Hparse Hno)
          as (region & profile & He).
        inversion He. subst e. split; [reflexivity |].
        exists region, profile. apply in_or_app. right. left. reflexivity.
      * exfalso. destruct Hin as [Hin | [Hin | []]]; discriminate Hin.
    + intros Hin.
      destruct (HR Hin (ex_intro _ args eq_refl) Hparse Hno)
        as (region & profile & He).
      discriminate He.
Qed.

(** The claim as the specification states it fails on two counts.  The
    object with the one key "Clusters" has no key "clusters", yet the
    decoder stores its value: the cluster a is found and selected, and the
    run succeeds.  And the array [] is JSON with no key at all, yet cannot
    be stored into the response: the run fails with the parse error. *)
Lemma C10_counterexample :
  let out1 := "{" ++ dquote ++ "Clusters" ++ dquote ++ ":["
              ++ dquote ++ "a" ++ dquote ++ "]}" in
  let st := mkState (bindFlags NewEKSLoginApp flagsProfile) [] [] in
  (parse out1 = Some (JObject [("Clusters", JArray [JString "a"])])
   /\ ~ In "clusters" (map fst [("Clusters", JArray [JString "a"])])
   /\ fst (ListEKSClusters (worldListing out1) st) = inr ["a"]
   /\ fst (SelectCluster (worldListing out1) st) = inr tt
   /\ Cluster (config (snd (SelectCluster (worldListing out1) st))) = "a"
   /\ fst (main (worldListing out1) (CmdRoot flagsProfile) []) = 0)
  /\ (parse "[]" = Some (JArray [])
      /\ fst (ListEKSClusters (worldListing "[]") st)
         = inl (ErrParseClusters (UnmarshalTypeError "array"))
      /\ fst (SelectCluster (worldListing "[]") st)
         = inl (ErrParseClusters (UnmarshalTypeError "array"))
      /\ fst (main (worldListing "[]") (CmdRoot flagsProfile) []) = 1).
Proof.
  vm_compute. repeat split.
  intros [H | []]. discriminate H.
Qed.

(* ===================================================================== *)
(** ** The theorems at work on concrete runs *)
(* ===================================================================== *)

(** C1 in a world where everything succeeds. *)
Lemma C1_witness :
  fst (main (quietWorld "ok") (CmdRoot flagsAll) []) = 0
  /\ exists tr0,
       trace (snd (main (quietWorld "ok") (CmdRoot flagsAll) [])) =
       (tr0 ++ [EvPrint MLoginComplete;
                EvPrint (MSummaryProfile "a");
                EvPrint (MSummaryRegion "us-west-2");
                EvPrint (MSummaryCluster "prod");
                EvPrint MSummaryHint])%list.
Proof.
  apply (proj2 (proj2 (proj2 (proj2 (proj2 (proj2
           (C1_flags_given_run (quietWorld "ok") [] None))))))).
  - intros h file. reflexivity.
  - intros h. reflexivity.
Defined.

(** C4 on three profiles: six rejected lines, then the line " 2 ". *)
Lemma C4_witness :
  exists p,
    nth_error threeProfiles (Z.to_nat (2 - 1)) = Some p
    /\ selectProfileLoop threeProfiles
         (["abc"; "0"; "-1"; "4"; ""; "2x"] ++ " 2 " :: ["3"])
         NewEKSLoginApp [] =
       (inr tt,
        mkState (setRegion (setProfile NewEKSLoginApp (Name p)) (PRegion p))
          ["3"]
          ([] ++ rejected (MSelectProfile (len threeProfiles))
                   (len threeProfiles) ["abc"; "0"; "-1"; "4"; ""; "2x"]
              ++ [EvPrint (MSelectProfile (len threeProfiles));
                  EvReadLine (Some (" 2 " ++ nl))])).
Proof.
  apply (proj2 (proj1 C4_selection_loop threeProfiles NewEKSLoginApp []
                 ["abc"; "0"; "-1"; "4"; ""; "2x"]
                 ltac:(repeat constructor;
                       first [ left; vm_compute; discriminate
                             | right; left; vm_compute; reflexivity
                             | right; right; vm_compute; reflexivity ]))
           " 2 " 2 ["3"]).
  split; [reflexivity |]. vm_compute. split; discriminate.
Defined.

(** C3 with the profiles dev and prod and the input line "2". *)
Lemma C3_witness :
  let st := mkState (bindFlags NewEKSLoginApp noFlags) ["2"; "x"] [] in
  Profile (config (snd (SelectProfile worldDevProd st))) = "prod"
  /\ Region (config (snd (SelectProfile worldDevProd st))) = "us-east-1"
  /\ stdin (snd (SelectProfile worldDevProd st)) = ["x"].
Proof.
  intros st.
  destruct (proj2 (proj2 (proj2 (proj2
              (proj1 (C3_selection_by_count worldDevProd) st
                 (fst (match fst (GetAWSProfiles worldDevProd st) with
                       | inr ps => (ps, tt) | inl _ => ([], tt) end))
                 (snd (GetAWSProfiles worldDevProd st))
                 ltac:(vm_compute; reflexivity)))
              ltac:(vm_compute; reflexivity)))
             ["x"] ltac:(vm_compute; reflexivity))
    as (p2 & Hn & Heq).
  rewrite Heq. vm_compute in Hn. inversion Hn. subst p2.
  repeat split.
Defined.

(** C7 in the world where [kubectl] cannot reach the cluster. *)
Lemma C7_witness :
  fst (main worldKubectlDown (CmdRoot flagsAll) []) = 0
  /\ (exists tr,
        trace (snd (main worldKubectlDown (CmdRoot flagsAll) [])) =
        (tr ++ summaryEvents
                 (config (snd (main worldKubectlDown (CmdRoot flagsAll) []))))%list)
  /\ (forall res,
        In (EvOutput "kubectl" ["cluster-info"] res)
          (trace (snd (main worldKubectlDown (CmdRoot flagsAll) []))) ->
        succeeded res = false ->
        In (EvPrint MUnableToVerify)
          (trace (snd (main worldKubectlDown (CmdRoot flagsAll) [])))).
Proof.
  apply (proj1 (proj2 (C7_verify_failure_not_fatal worldKubectlDown))
           flagsAll []
           (EvRun "aws"
              ["eks"; "update-kubeconfig"; "--region"; "us-west-2";
               "--name"; "prod"; "--profile"; "a"] None)).
  - vm_compute. tauto.
  - simpl. split; [reflexivity |]. eexists. reflexivity.
Defined.

(** C10 on the output {}. *)
Lemma C10_witness :
  fst (main (worldListing "{}") (CmdRoot flagsProfile) []) = 1
  /\ exists region profile,
       In (EvPrint (MError (ErrNoClusters region profile)))
         (trace (snd (main (worldListing "{}") (CmdRoot flagsProfile) []))).
Proof.
  apply (proj2 (proj2 (C10_listing_without_key (worldListing "{}") "{}" []
                         eq_refl (fun k v (H : In (k, v) []) => match H with end)))
           flagsProfile []
           ["--profile"; "a"; "--region"; "us-west-2"; "--output"; "json"]).
  vm_compute. tauto.
Defined.

(* ===================================================================== *)
(** ** Further properties of the code *)
(* ===================================================================== *)

(** [CheckDependencies], written out. *)
Lemma CheckDependencies_eq w st :
  CheckDependencies w st =
  let tr0 := (trace st ++ [EvPrint MCheckingDeps])%list in
  let a := wLookPath w tr0 "aws" in
  let tr1 := (tr0 ++ [EvLookPath "aws" a])%list in
  if a then
    let tr2 := (tr1 ++ [EvPrint (MDepFound "aws")])%list in
    let k := wLookPath w tr2 "kubectl" in
    let tr3 := (tr2 ++ [EvLookPath "kubectl" k])%list in
    if k then
      (inr tt,
       mkState (config st) (stdin st) (tr3 ++ [EvPrint (MDepFound "kubectl")]))
    else (inl (ErrDependency "kubectl"), mkState (config st) (stdin st) tr3)
  else (inl (ErrDependency "aws"), mkState (config st) (stdin st) tr1).
Proof.
  unfold CheckDependencies, forEach, bind, print, emit, lookPath, fail, ret.
  simpl.
  destruct (wLookPath w (trace st ++ [EvPrint MCheckingDeps]) "aws");
    simpl; [| reflexivity].
  match goal with
  | |- context [wLookPath w ?h "kubectl"] => destruct (wLookPath w h "kubectl")
  end; reflexivity.
Qed.

(** [LoginSSO], written out. *)
Lemma LoginSSO_eq w st :
  LoginSSO w st =
  if SkipSSO (config st) then (inr tt, st)
  else
    let tr1 := (trace st ++ [EvPrint MLoggingIn])%list in
    let args := ["sso"; "login"; "--profile"; Profile (config st)] in
    let res := wRun w tr1 "aws" args in
    let tr2 := (tr1 ++ [EvRun "aws" args res])%list in
    match res with
    | Some e => (inl (ErrLogin e), mkState (config st) (stdin st) tr2)
    | None =>
        (inr tt, mkState (config st) (stdin st) (tr2 ++ [EvPrint MLoginOk]))
    end.
Proof.
  unfold LoginSSO, bind, getConfig, print, emit, runCmd, fail, ret. simpl.
  destruct (SkipSSO (config st)); [reflexivity |]. simpl.
  destruct (wRun w (trace st ++ [EvPrint MLoggingIn]) "aws"
              ["sso"; "login"; "--profile"; Profile (config st)]); reflexivity.
Qed.

(** X1.  A missing tool stops the run at once: when [aws] is not on the
    PATH, [kubectl] is not even looked up, and when [aws] is there and
    [kubectl] is not, the run stops at [kubectl].  In both cases [main]
    prints the error that names the missing tool and exits with status 1,
    having started no subprocess, read nothing and left the configuration
    as the flags set it. *)
Theorem X1_missing_dependency (w : World) (f : Flags) (input : list string) :
  let cfg := bindFlags NewEKSLoginApp f in
  (wLookPath w [EvPrint MCheckingDeps] "aws" = false ->
   main w (CmdRoot f) input =
   (1, mkState cfg input
         [EvPrint MCheckingDeps; EvLookPath "aws" false;
          EvPrint (MError (ErrDependency "aws")); EvExit 1]))
  /\ (wLookPath w [EvPrint MCheckingDeps] "aws" = true ->
      wLookPath w [EvPrint MCheckingDeps; EvLookPath "aws" true;
                   EvPrint (MDepFound "aws")] "kubectl" = false ->
      main w (CmdRoot f) input =
      (1, mkState cfg input
            [EvPrint MCheckingDeps; EvLookPath "aws" true;
             EvPrint (MDepFound "aws"); EvLookPath "kubectl" false;
             EvPrint (MError (ErrDependency "kubectl")); EvExit 1])).
Proof.
  intros cfg. subst cfg. split.
  - intros Ha. unfold main. rewrite Run_unfold, CheckDependencies_eq.
    cbv zeta. simpl. rewrite Ha. reflexivity.
  - intros Ha Hk. unfold main. rewrite Run_unfold, CheckDependencies_eq.
    cbv zeta. simpl. rewrite Ha. simpl. rewrite Hk. reflexivity.
Qed.

Lemma X1_witness :
  main worldNoKubectl (CmdRoot noFlags) ["1"] =
  (1, mkState (bindFlags NewEKSLoginApp noFlags) ["1"]
        [EvPrint MCheckingDeps; EvLookPath "aws" true;
         EvPrint (MDepFound "aws"); EvLookPath "kubectl" false;
         EvPrint (MError (ErrDependency "kubectl")); EvExit 1]).
Proof.
  apply (proj2 (X1_missing_dependency worldNoKubectl noFlags ["1"]));
    reflexivity.
Defined.


(** The trace of [Run]: the events of the steps taken, and behind them
    the summary when the run went through. *)
Lemma Run_trace_shape (w : World) (st : AppState) :
  exists evs,
    Forall evBody evs
    /\ match fst (Run w st) with
       | inr _ =>
           trace (snd (Run w st)) =
           (trace st ++ evs ++ summaryEvents (config (snd (Run w st))))%list
       | inl e => errRun e /\ trace (snd (Run w st)) = (trace st ++ evs)%list
       end.
Proof.
  assert (B1 : forall l, Forall evCheckDependencies l -> Forall evBody l)
    by (intros l; apply Forall_impl; unfold evBody; tauto).
  assert (B2 : forall l, Forall evSelectProfile l -> Forall evBody l)
    by (intros l; apply Forall_impl; unfold evBody; tauto).
  assert (B4 : forall l, Forall evLoginStep l -> Forall evBody l)
    by (intros l; apply Forall_impl; unfold evBody; tauto).
  assert (B5 : forall l, Forall evSelectCluster l -> Forall evBody l)
    by (intros l; apply Forall_impl; unfold evBody; tauto).
  assert (B6 : forall l, Forall evUpdateKubeconfig l -> Forall evBody l)
    by (intros l; apply Forall_impl; unfold evBody; tauto).
  assert (B7 : forall l, Forall evVerifyConnection l -> Forall evBody l)
    by (intros l; apply Forall_impl; unfold evBody; tauto).
  assert (B3 : forall p res,
             evBody (EvOutput "aws"
                       ["sts"; "get-caller-identity"; "--profile"; p] res))
    by (intros p res; unfold evBody; simpl; eauto 10).
  assert (E : forall (x : Error) (Q : Error -> Prop),
             (forall e0, inl x = @inl Error unit e0 -> Q e0) ->
             (forall e0, Q e0 -> errRun e0) -> errRun x)
    by (intros x Q H HQ; apply HQ, H; reflexivity).
  assert (F : forall l1 l2, Forall evBody l1 -> Forall evBody l2 ->
                           Forall evBody (l1 ++ l2))
    by (intros l1 l2 H1 H2; apply Forall_app; auto).
  run_steps w st; simpl.
  - exists evs. split; [auto |]. split; [| exact Ft].
    apply (E _ _ Fe). intros []; simpl; auto.
  - exists (evs ++ evs0)%list. split; [auto |].
    split; [| rewrite Ft0, Ft, app_assoc; reflexivity].
    apply (E _ _ Fe0). intros []; simpl; auto.
  - eexists. split.
    2: { split; [| rewrite Ft1, Ft0, Ft, <- !app_assoc; reflexivity].
         apply (E _ _ Fe1). intros []; simpl; auto. }
    repeat apply F; auto.
  - eexists. split.
    2: { split; [| rewrite Ft2, Ft1, Ft0, Ft, <- !app_assoc; reflexivity].
         apply (E _ _ Fe2). intros []; simpl; auto. }
    repeat apply F; auto.
  - eexists. split.
    2: { split; [| rewrite Ft3, Ft2, Ft1, Ft0, Ft, <- !app_assoc; reflexivity].
         apply (E _ _ Fe3). intros []; simpl; auto. }
    repeat apply F; auto.
  - exfalso. exact (Fe4 e eq_refl).
  - exfalso. exact (Fe5 e eq_refl).
  - destruct u5. rewrite ShowSummary_eq in H8. injection H8 as Hs8.
    rewrite <- Hs8. simpl trace. simpl config.
    assert (Hall : exists evs', trace s7 = (trace st ++ evs')%list
                                /\ Forall evBody evs').
    { eexists. split.
      - rewrite Ft4, Ft3, Ft2, Ft1, Ft0, Ft, <- !app_assoc. reflexivity.
      - repeat apply F; auto. }
    destruct Hall as (evs' & Ht' & Hb'). exists evs'. split; [exact Hb' |].
    rewrite Ht', app_assoc. reflexivity.
Qed.

Lemma evBody_notClosing ev : evBody ev -> ~ isClosing ev.
Proof.
  unfold evBody.
  destruct ev as [file found | name args res | name args res | m | input | code];
    simpl; try tauto.
  destruct m; simpl; tauto.
Qed.

(** X3.  The exit status of [main] on the root command tells how [Run]
    ended.  It is 0 exactly when [Run] returned no error, and then the
    last output is the five lines of the summary, which show the final
    configuration.  Otherwise it is 1, and the last thing [main] prints
    is its error line, which carries the error [Run] returned, one of the
    nine its steps make, followed by the exit.  Before that end the
    program printed no line of the summary and did not exit: a failed run
    shows no summary.  (The trace holds what this program prints; what
    [cobra] writes of its own when the command fails is not part of
    it.) *)
Theorem X3_exit_status (w : World) (f : Flags) (input : list string) :
  let r := main w (CmdRoot f) input in
  let run := Run w (mkState (bindFlags NewEKSLoginApp f) input []) in
  exists tr,
    Forall (fun ev => ~ isClosing ev) tr
    /\ ((fst r = 0 /\ fst run = inr tt
         /\ trace (snd r) = (tr ++ summaryEvents (config (snd r)))%list)
        \/ (fst r = 1
            /\ exists e,
                 fst run = inl e /\ errRun e
                 /\ trace (snd r) = (tr ++ [EvPrint (MError e); EvExit 1])%list)).
Proof.
  intros r run. subst r run. unfold main.
  destruct (Run_trace_shape w (mkState (bindFlags NewEKSLoginApp f) input []))
    as (evs & Hb & Hs).
  exists evs. split.
  - revert Hb. apply Forall_impl. exact evBody_notClosing.
  - destruct (Run w (mkState (bindFlags NewEKSLoginApp f) input []))
      as [[e | []] s]; simpl in *.
    + right. split; [reflexivity |]. exists e. destruct Hs as [He Ht].
      split; [reflexivity | split; [exact He |]]. rewrite Ht. reflexivity.
    + left. auto.
Qed.

Lemma calm_CheckDependencies ev : evCheckDependencies ev -> calm ev.
Proof. destruct ev; simpl; try contradiction; intros _; split; auto. Qed.

Lemma calm_SelectProfile ev : evSelectProfile ev -> calm ev.
Proof.
  destruct ev; simpl; try contradiction; intros H; split; simpl; auto.
  destruct H as (H & _). intros H'. congruence.
Qed.

Lemma calm_SelectCluster ev : evSelectCluster ev -> calm ev.
Proof.
  destruct ev; simpl; try contradiction; intros H; split; simpl; auto.
  destruct H as (H & _). intros H'. congruence.
Qed.

Lemma calm_sessionCheck p res :
  calm (EvOutput "aws" ["sts"; "get-caller-identity"; "--profile"; p] res).
Proof. split; simpl; auto. discriminate. Qed.

Lemma calm_print m : calm (EvPrint m).
Proof. split; simpl; auto. Qed.

(** The two ways the login step of [Run] ends: the login was started and
    failed, which is the error of the step; or the step went through, with
    no failed subprocess. *)
Lemma loginStep_cases w valid st :
  (exists c,
      loginStep w valid st =
      (inl (ErrLogin c),
       mkState (config st) (stdin st)
         (trace st ++ [EvPrint MLoggingIn;
                       EvRun "aws" (loginArgs (config st)) (Some c)])))
  \/ (exists evs,
        loginStep w valid st =
        (inr tt, mkState (config st) (stdin st) (trace st ++ evs))
        /\ Forall calm evs).
Proof.
  unfold loginStep. destruct valid.
  - right. exists [EvPrint MSessionValid]. split; [reflexivity |].
    repeat constructor; simpl; auto.
  - rewrite LoginSSO_eq. cbv zeta. destruct (SkipSSO (config st)).
    + right. exists []. split; [| constructor].
      rewrite app_nil_r. destruct st; reflexivity.
    + fold (loginArgs (config st)).
      destruct (wRun w (trace st ++ [EvPrint MLoggingIn]) "aws"
                  (loginArgs (config st))) as [c |].
      * left. exists c. rewrite <- app_assoc. reflexivity.
      * right. eexists. split.
        -- rewrite <- !app_assoc. reflexivity.
        -- simpl. repeat constructor; simpl; auto.
Qed.

(** The two ways [UpdateKubeconfig] ends. *)
Lemma UpdateKubeconfig_cases w st :
  (exists c,
      UpdateKubeconfig w st =
      (inl (ErrUpdateKubeconfig c),
       mkState (config st) (stdin st)
         (trace st ++ [EvPrint (MUpdatingKubeconfig (Cluster (config st)));
                       EvRun "aws" (updateKubeconfigArgs (config st)) (Some c)])))
  \/ UpdateKubeconfig w st =
     (inr tt,
      mkState (config st) (stdin st)
        (trace st ++ [EvPrint (MUpdatingKubeconfig (Cluster (config st)));
                      EvRun "aws" (updateKubeconfigArgs (config st)) None;
                      EvPrint MKubeconfigUpdated])).
Proof.
  rewrite UpdateKubeconfig_eq. cbv zeta.
  destruct (wRun w (trace st ++ [EvPrint (MUpdatingKubeconfig (Cluster (config st)))])
              "aws" (updateKubeconfigArgs (config st))) as [c |].
  - left. exists c. rewrite <- app_assoc. reflexivity.
  - right. rewrite <- !app_assoc. reflexivity.
Qed.

Lemma calm_not_failed (l : list Event) ev :
  Forall calm l -> In ev l -> ~ isFailedRun ev.
Proof.
  intros H Hin. rewrite Forall_forall in H. exact (proj1 (H ev Hin)).
Qed.

Lemma calm_last (pre : list Event) x ev :
  Forall calm pre -> In ev (pre ++ [x]) -> isFailedRun ev -> ev = x.
Proof.
  intros H Hin Hf. apply in_app_or in Hin. destruct Hin as [Hin | [Hin | []]].
  - exfalso. exact (calm_not_failed _ _ H Hin Hf).
  - auto.
Qed.

(** A failed subprocess on the terminal is the last event of [Run]: it is
    the login or the config update, for the configuration at the end, and
    its error is the cause of the error [Run] returns. *)
Lemma Run_failed_run (w : World) (st : AppState) :
  exists evs,
    trace (snd (Run w st)) = (trace st ++ evs)%list
    /\ forall ev, In ev evs -> isFailedRun ev ->
       exists pre c e,
         evs = (pre ++ [ev])%list
         /\ Forall calm pre
         /\ fst (Run w st) = inl e
         /\ ((ev = EvRun "aws" (loginArgs (config (snd (Run w st)))) (Some c)
              /\ e = ErrLogin c)
             \/ (ev = EvRun "aws"
                        (updateKubeconfigArgs (config (snd (Run w st)))) (Some c)
                 /\ e = ErrUpdateKubeconfig c)).
Proof.
  assert (B1 : forall l, Forall evCheckDependencies l -> Forall calm l)
    by (intros l; apply Forall_impl; exact calm_CheckDependencies).
  assert (B2 : forall l, Forall evSelectProfile l -> Forall calm l)
    by (intros l; apply Forall_impl; exact calm_SelectProfile).
  assert (B5 : forall l, Forall evSelectCluster l -> Forall calm l)
    by (intros l; apply Forall_impl; exact calm_SelectCluster).
  assert (F : forall l1 l2, Forall calm l1 -> Forall calm l2 ->
                           Forall calm (l1 ++ l2))
    by (intros l1 l2 H1 H2; apply Forall_app; auto).
  assert (C : forall x l, calm x -> Forall calm l -> Forall calm (x :: l))
    by (intros; constructor; auto).
  pose proof calm_sessionCheck as B3.
  pose proof calm_print as B0.
  run_steps w st; simpl.
  1: { exists evs. split; [exact Ft |]. intros ev Hin Hf. exfalso.
       exact (calm_not_failed _ _ (B1 _ Fp) Hin Hf). }
  1: { exists (evs ++ evs0)%list. split; [rewrite Ft0, Ft, app_assoc; reflexivity |].
       intros ev Hin Hf. exfalso.
       exact (calm_not_failed _ _ (F _ _ (B1 _ Fp) (B2 _ Fp0)) Hin Hf). }
  all: match type of H4 with
       | loginStep ?w0 ?b ?s = _ =>
           destruct (loginStep_cases w0 b s) as [(c4 & L4) | (l4 & L4 & P4)];
           rewrite L4 in H4; injection H4 as E4 S4; try discriminate E4;
           simpl in S4
       end.
  all: try match type of H6 with
       | UpdateKubeconfig ?w0 ?s = _ =>
           destruct (UpdateKubeconfig_cases w0 s) as [(c6 & L6) | L6];
           rewrite L6 in H6; injection H6 as E6 S6; try discriminate E6
       end.
  all: try (exfalso; exact (Fe4 _ eq_refl)).
  all: try (exfalso; exact (Fe5 _ eq_refl)).
  all: match goal with
       | H : CheckSSOSession _ _ = (_, mkState _ _ (_ ++ [?x])) |- _ =>
           set (chk := x) in *;
           assert (Hchk : calm chk) by apply B3
       end.
  - rewrite <- S4, <- E4. simpl.
    exists ((evs ++ evs0 ++ [chk; EvPrint MLoggingIn])
            ++ [EvRun "aws" (loginArgs (config s2)) (Some c4)])%list.
    split; [rewrite Ft0, Ft, <- !app_assoc; reflexivity |].
    intros ev Hin Hf.
    assert (Hpre : Forall calm (evs ++ evs0 ++ [chk; EvPrint MLoggingIn]))
      by (repeat apply F; auto).
    rewrite (calm_last _ _ _ Hpre Hin Hf).
    eexists. exists c4. eexists. split; [reflexivity |].
    split; [exact Hpre |]. split; [reflexivity |]. left. auto.
  - rewrite <- S4 in Ft2. simpl in Ft2.
    exists (evs ++ evs0 ++ [chk] ++ l4 ++ evs2)%list.
    split; [rewrite Ft2, Ft0, Ft, <- !app_assoc; reflexivity |].
    intros ev Hin Hf. exfalso.
    assert (Hpre : Forall calm (evs ++ evs0 ++ [chk] ++ l4 ++ evs2))
      by (repeat apply F; auto).
    exact (calm_not_failed _ _ Hpre Hin Hf).
  - rewrite <- S6, <- E6. simpl. rewrite <- S4 in Ft2. simpl in Ft2.
    exists ((evs ++ evs0 ++ [chk] ++ l4 ++ evs2
             ++ [EvPrint (MUpdatingKubeconfig (Cluster (config s5)))])
            ++ [EvRun "aws" (updateKubeconfigArgs (config s5)) (Some c6)])%list.
    split; [rewrite Ft2, Ft0, Ft, <- !app_assoc; reflexivity |].
    intros ev Hin Hf.
    assert (Hpre : Forall calm
                     (evs ++ evs0 ++ [chk] ++ l4 ++ evs2
                      ++ [EvPrint (MUpdatingKubeconfig (Cluster (config s5)))]))
      by (repeat apply F; auto).
    rewrite (calm_last _ _ _ Hpre Hin Hf).
    eexists. exists c6. eexists. split; [reflexivity |].
    split; [exact Hpre |]. split; [reflexivity |]. right. auto.
  - rewrite <- S4 in Ft2. simpl in Ft2. rewrite <- S6 in Ft4. simpl in Ft4.
    exists ((evs ++ evs0 ++ [chk] ++ l4 ++ evs2
             ++ [EvPrint (MUpdatingKubeconfig (Cluster (config s5)));
                 EvRun "aws" (updateKubeconfigArgs (config s5)) None;
                 EvPrint MKubeconfigUpdated])
            ++ evs4 ++ evs5)%list.
    split; [rewrite Ft5, Ft4, Ft2, Ft0, Ft, <- !app_assoc; reflexivity |].
    intros ev Hin Hf. exfalso.
    apply in_app_or in Hin. destruct Hin as [Hin | Hin].
    + refine (calm_not_failed _ _ _ Hin Hf).
      repeat apply F; auto.
      repeat constructor; simpl; auto.
    + apply in_app_or in Hin. rewrite Forall_forall in Fp4, Fp5.
      destruct Hin as [Hin | Hin];
        [apply Fp4 in Hin | apply Fp5 in Hin];
        destruct ev as [| | ? ? [] | | |]; simpl in *; auto.
Qed.

Lemma runsFor_CheckDependencies cfg ev : evCheckDependencies ev -> runsFor cfg ev.
Proof. destruct ev; simpl; tauto. Qed.

Lemma runsFor_SelectProfile cfg ev : evSelectProfile ev -> runsFor cfg ev.
Proof. destruct ev; simpl; tauto. Qed.

Lemma runsFor_SelectCluster cfg ev : evSelectCluster ev -> runsFor cfg ev.
Proof. destruct ev; simpl; tauto. Qed.

Lemma runsFor_VerifyConnection cfg ev : evVerifyConnection ev -> runsFor cfg ev.
Proof. destruct ev; simpl; tauto. Qed.

Lemma runsFor_ShowSummary cfg ev : evShowSummary ev -> runsFor cfg ev.
Proof. destruct ev; simpl; tauto. Qed.

(** What the login step starts on the terminal is the login for the
    profile of the configuration. *)
Lemma loginStep_runs w valid st cfg :
  Profile cfg = Profile (config st) ->
  exists evs,
    trace (snd (loginStep w valid st)) = (trace st ++ evs)%list
    /\ Forall (runsFor cfg) evs.
Proof.
  intros Hp.
  assert (Hl : loginArgs (config st) = loginArgs cfg)
    by (unfold loginArgs; rewrite Hp; reflexivity).
  unfold loginStep. destruct valid.
  - exists [EvPrint MSessionValid]. split; [reflexivity |].
    constructor; [exact I | constructor].
  - rewrite LoginSSO_eq. cbv zeta. destruct (SkipSSO (config st)).
    + exists []. rewrite app_nil_r. split; [reflexivity | constructor].
    + fold (loginArgs (config st)). rewrite Hl.
      destruct (wRun w (trace st ++ [EvPrint MLoggingIn]) "aws" (loginArgs cfg))
        as [c |]; simpl; rewrite <- !app_assoc; simpl;
        (eexists; split; [reflexivity |]);
        repeat (constructor; [simpl; auto |]); constructor.
Qed.

(** What [UpdateKubeconfig] starts on the terminal is the config update
    for the configuration. *)
Lemma UpdateKubeconfig_runs w st :
  exists evs,
    trace (snd (UpdateKubeconfig w st)) = (trace st ++ evs)%list
    /\ Forall (runsFor (config st)) evs.
Proof.
  rewrite UpdateKubeconfig_eq. cbv zeta.
  destruct (wRun w (trace st ++ [EvPrint (MUpdatingKubeconfig (Cluster (config st)))])
              "aws" (updateKubeconfigArgs (config st))) as [c |];
    simpl; rewrite <- !app_assoc; simpl;
    (eexists; split; [reflexivity |]);
    repeat (constructor; [simpl; auto |]); constructor.
Qed.

(** Every subprocess [Run] starts on the terminal is the login or the
    config update, for the configuration at the end of the run. *)
Lemma Run_runs (w : World) (st : AppState) :
  exists evs,
    trace (snd (Run w st)) = (trace st ++ evs)%list
    /\ Forall (runsFor (config (snd (Run w st)))) evs.
Proof.
  assert (B1 : forall c l, Forall evCheckDependencies l -> Forall (runsFor c) l)
    by (intros c l; apply Forall_impl; apply runsFor_CheckDependencies).
  assert (B2 : forall c l, Forall evSelectProfile l -> Forall (runsFor c) l)
    by (intros c l; apply Forall_impl; apply runsFor_SelectProfile).
  assert (B5 : forall c l, Forall evSelectCluster l -> Forall (runsFor c) l)
    by (intros c l; apply Forall_impl; apply runsFor_SelectCluster).
  assert (B7 : forall c l, Forall evVerifyConnection l -> Forall (runsFor c) l)
    by (intros c l; apply Forall_impl; apply runsFor_VerifyConnection).
  assert (B8 : forall c l, Forall evShowSummary l -> Forall (runsFor c) l)
    by (intros c l; apply Forall_impl; apply runsFor_ShowSummary).
  assert (F : forall c l1 l2, Forall (runsFor c) l1 -> Forall (runsFor c) l2 ->
                             Forall (runsFor c) (l1 ++ l2))
    by (intros c l1 l2 H1 H2; apply Forall_app; auto).
  assert (B3 : forall c name args res, Forall (runsFor c) [EvOutput name args res])
    by (intros; constructor; [exact I | constructor]).
  run_steps w st; simpl.
  - exists evs. auto.
  - exists (evs ++ evs0)%list. split; [rewrite Ft0, Ft, app_assoc; reflexivity |].
    auto.
  - assert (HP : Profile (config s4) = Profile (config s2))
      by (unfold keepAll in *; congruence).
    match type of H4 with
    | loginStep _ ?b ?s = _ =>
        destruct (loginStep_runs w b s (config s4) HP) as (l4 & T4 & P4)
    end.
    rewrite H4 in T4. simpl in T4.
    eexists. split; [rewrite T4, Ft0, Ft, <- !app_assoc; reflexivity |].
    repeat apply F; auto.
  - assert (HP : Profile (config s5) = Profile (config s2))
      by (unfold keepAll, keepButCluster in *; congruence).
    match type of H4 with
    | loginStep _ ?b ?s = _ =>
        destruct (loginStep_runs w b s (config s5) HP) as (l4 & T4 & P4)
    end.
    rewrite H4 in T4. simpl in T4.
    eexists. split; [rewrite Ft2, T4, Ft0, Ft, <- !app_assoc; reflexivity |].
    repeat apply F; auto.
  - assert (HC : config s6 = config s5) by (unfold keepAll in *; congruence).
    assert (HP : Profile (config s6) = Profile (config s2))
      by (unfold keepAll, keepButCluster in *; congruence).
    match type of H4 with
    | loginStep _ ?b ?s = _ =>
        destruct (loginStep_runs w b s (config s6) HP) as (l4 & T4 & P4)
    end.
    rewrite H4 in T4. simpl in T4.
    destruct (UpdateKubeconfig_runs w s5) as (l6 & T6 & P6).
    rewrite H6 in T6. simpl in T6. rewrite <- HC in P6.
    eexists. split; [rewrite T6, Ft2, T4, Ft0, Ft, <- !app_assoc; reflexivity |].
    repeat apply F; auto.
  - exfalso. exact (Fe4 _ eq_refl).
  - exfalso. exact (Fe5 _ eq_refl).
  - assert (HC : config s8 = config s5) by (unfold keepAll in *; congruence).
    assert (HP : Profile (config s8) = Profile (config s2))
      by (unfold keepAll, keepButCluster in *; congruence).
    match type of H4 with
    | loginStep _ ?b ?s = _ =>
        destruct (loginStep_runs w b s (config s8) HP) as (l4 & T4 & P4)
    end.
    rewrite H4 in T4. simpl in T4.
    destruct (UpdateKubeconfig_runs w s5) as (l6 & T6 & P6).
    rewrite H6 in T6. simpl in T6. rewrite <- HC in P6.
    eexists. split;
      [rewrite Ft5, Ft4, T6, Ft2, T4, Ft0, Ft, <- !app_assoc; reflexivity |].
    repeat apply F; auto.
Qed.

(** X4.  In a run of [main], every subprocess started on the terminal,
    whether it succeeds or fails, is [aws sso login] or
    [aws eks update-kubeconfig], with the arguments the configuration at
    the end of the run gives: the profile logged into is the profile
    written to the kubeconfig.  When one of them fails, the run ends: the
    very next output is the error line that wraps its error, the exit
    status is 1, and before it no other such subprocess failed and
    [kubectl] was not called. *)
Theorem X4_failed_subprocess_fatal (w : World) (f : Flags)
  (input : list string) :
  let r := main w (CmdRoot f) input in
  Forall (runsFor (config (snd r))) (trace (snd r))
  /\ forall ev, In ev (trace (snd r)) -> isFailedRun ev ->
     fst r = 1
     /\ exists pre c e,
          trace (snd r) = (pre ++ [ev; EvPrint (MError e); EvExit 1])%list
          /\ Forall calm pre
          /\ ((ev = EvRun "aws" (loginArgs (config (snd r))) (Some c)
               /\ e = ErrLogin c)
              \/ (ev = EvRun "aws" (updateKubeconfigArgs (config (snd r)))
                         (Some c)
                  /\ e = ErrUpdateKubeconfig c)).
Proof.
  intros r. subst r. unfold main.
  destruct (Run_failed_run w (mkState (bindFlags NewEKSLoginApp f) input []))
    as (evs & Ht & H).
  destruct (Run_runs w (mkState (bindFlags NewEKSLoginApp f) input []))
    as (evs' & Ht' & H').
  destruct (Run w (mkState (bindFlags NewEKSLoginApp f) input []))
    as [[e | []] s]; simpl in *.
  - split.
    { rewrite Ht'. apply Forall_app. split; [exact H' |].
      constructor; [exact I | constructor; [exact I | constructor]]. }
    intros ev Hin Hf. split; [reflexivity |]. rewrite Ht in *.
    apply in_app_or in Hin. destruct Hin as [Hin | Hin].
    + destruct (H ev Hin Hf) as (pre & c & e0 & Hevs & Hpre & He & Hor).
      injection He as <-. exists pre, c, e. rewrite Hevs, <- app_assoc.
      auto.
    + exfalso. destruct Hin as [<- | [<- | []]]; exact Hf.
  - split; [rewrite Ht'; exact H' |].
    intros ev Hin Hf. exfalso. rewrite Ht in Hin.
    destruct (H ev Hin Hf) as (pre & c & e0 & _ & _ & He & _). discriminate He.
Qed.

Lemma X4_witness :
  let r := main worldLoginFails (CmdRoot flagsNoSkip) [] in
  fst r = 1
  /\ exists pre c e,
       trace (snd r) =
       (pre ++ [EvRun "aws" ["sso"; "login"; "--profile"; "a"]
                  (Some "exit status 1");
                EvPrint (MError e); EvExit 1])%list
       /\ Forall calm pre
       /\ ((EvRun "aws" ["sso"; "login"; "--profile"; "a"] (Some "exit status 1")
            = EvRun "aws" (loginArgs (config (snd r))) (Some c)
            /\ e = ErrLogin c)
           \/ (EvRun "aws" ["sso"; "login"; "--profile"; "a"]
                 (Some "exit status 1")
               = EvRun "aws" (updateKubeconfigArgs (config (snd r))) (Some c)
               /\ e = ErrUpdateKubeconfig c)).
Proof.
  apply (proj2 (X4_failed_subprocess_fatal worldLoginFails flagsNoSkip [])).
  - vm_compute. repeat (try (left; reflexivity); right).
  - exact I.
Defined.

(** *** A run with the profile and the cluster given *)

Lemma noSelection_CheckDependencies ev : evCheckDependencies ev -> noSelection ev.
Proof.
  destruct ev as [| | | m | |]; simpl; try contradiction;
    try (intros _; split; simpl; tauto).
  destruct m; simpl; try contradiction; intros _; split; simpl; tauto.
Qed.

Lemma noSelection_loginStep ev : evLoginStep ev -> noSelection ev.
Proof.
  destruct ev as [| | | m | |]; simpl; try contradiction;
    try (intros _; split; simpl; tauto).
  destruct m; simpl; try contradiction; intros _; split; simpl; tauto.
Qed.

Lemma noSelection_UpdateKubeconfig ev : evUpdateKubeconfig ev -> noSelection ev.
Proof.
  destruct ev as [| | | m | |]; simpl; try contradiction;
    try (intros _; split; simpl; tauto).
  destruct m; simpl; try contradiction; intros _; split; simpl; tauto.
Qed.

Lemma noSelection_VerifyConnection ev : evVerifyConnection ev -> noSelection ev.
Proof.
  destruct ev as [| name args res | | m | |]; simpl; try contradiction.
  - intros ->. split; simpl; intros (H & _); discriminate H.
  - destruct m; simpl; try contradiction; intros _; split; simpl; tauto.
Qed.

Lemma noSelection_ShowSummary ev : evShowSummary ev -> noSelection ev.
Proof.
  destruct ev as [| | | m | |]; simpl; try contradiction.
  destruct m; simpl; try contradiction; intros _; split; simpl; tauto.
Qed.

Lemma noSelection_sessionCheck p res :
  noSelection (EvOutput "aws" ["sts"; "get-caller-identity"; "--profile"; p] res).
Proof.
  split; simpl; intros (_ & rest & H); discriminate H.
Qed.

(** A run with the profile and the cluster given selects nothing. *)
Lemma Run_given (w : World) (st : AppState) :
  Profile (config st) <> EmptyString ->
  Cluster (config st) <> EmptyString ->
  config (snd (Run w st)) = config st
  /\ (exists evs,
        trace (snd (Run w st)) = (trace st ++ evs)%list
        /\ Forall noSelection evs)
  /\ (forall e, fst (Run w st) = inl e -> errGiven e).
Proof.
  intros Hp Hc.
  assert (B1 : forall l, Forall evCheckDependencies l -> Forall noSelection l)
    by (intros l; apply Forall_impl; exact noSelection_CheckDependencies).
  assert (B4 : forall l, Forall evLoginStep l -> Forall noSelection l)
    by (intros l; apply Forall_impl; exact noSelection_loginStep).
  assert (B6 : forall l, Forall evUpdateKubeconfig l -> Forall noSelection l)
    by (intros l; apply Forall_impl; exact noSelection_UpdateKubeconfig).
  assert (B7 : forall l, Forall evVerifyConnection l -> Forall noSelection l)
    by (intros l; apply Forall_impl; exact noSelection_VerifyConnection).
  assert (B8 : forall l, Forall evShowSummary l -> Forall noSelection l)
    by (intros l; apply Forall_impl; exact noSelection_ShowSummary).
  assert (F : forall l1 l2, Forall noSelection l1 -> Forall noSelection l2 ->
                           Forall noSelection (l1 ++ l2))
    by (intros l1 l2 H1 H2; apply Forall_app; auto).
  assert (C : forall x, noSelection x -> Forall noSelection [x])
    by (intros x H; constructor; [exact H | constructor]).
  pose proof noSelection_sessionCheck as B3.
  run_steps w st; simpl.
  1: { split; [exact Fc |]. split; [eauto |].
       intros e0 He. injection He as <-. specialize (Fe _ eq_refl).
       destruct e; simpl in *; auto. }
  all: assert (Hs : s2 = s1)
         by (rewrite profileStep_given in H2;
             [inversion H2; reflexivity | unfold keepAll in Fc; congruence]).
  1: { rewrite profileStep_given in H2; [discriminate H2 |].
       unfold keepAll in Fc. congruence. }
  all: subst s2.
  1: { split; [unfold keepAll in *; congruence |]. split.
       - eexists. split; [rewrite Ft1, Ft, <- !app_assoc; reflexivity |].
         repeat apply F; auto.
       - intros e0 He. injection He as <-. specialize (Fe1 _ eq_refl).
         destruct e; simpl in *; auto. }
  all: assert (Hs : s5 = s4)
         by (rewrite clusterStep_given in H5;
             [inversion H5; reflexivity | unfold keepAll in *; congruence]).
  1: { rewrite clusterStep_given in H5; [discriminate H5 |].
       unfold keepAll in *. congruence. }
  all: subst s5.
  1: { split; [unfold keepAll in *; congruence |]. split.
       - eexists. split; [rewrite Ft3, Ft1, Ft, <- !app_assoc; reflexivity |].
         repeat apply F; auto.
       - intros e0 He. injection He as <-. specialize (Fe3 _ eq_refl).
         destruct e; simpl in *; auto. }
  1: { exfalso. exact (Fe4 _ eq_refl). }
  1: { exfalso. exact (Fe5 _ eq_refl). }
  split; [unfold keepAll in *; congruence |].
  split; [| discriminate].
  eexists. split; [rewrite Ft5, Ft4, Ft3, Ft1, Ft, <- !app_assoc; reflexivity |].
  repeat apply F; auto.
Qed.

(** X6.  With a profile and a cluster given on the command line, both
    not empty, a run of [main] selects nothing: the configuration stays
    as the flags set it, no event belongs to a selection step (no profile
    or cluster listing, no region lookup, no prompt, no read of the
    terminal by the program), and the only errors the run can end in are
    a missing tool, a failed login and a failed config update. *)
Theorem X6_flags_select_nothing (w : World) (f : Flags) (input : list string)
  (p c : string) :
  flagProfile f = Some p -> p <> EmptyString ->
  flagCluster f = Some c -> c <> EmptyString ->
  let r := main w (CmdRoot f) input in
  config (snd r) = bindFlags NewEKSLoginApp f
  /\ Forall noSelection (trace (snd r))
  /\ (forall e,
        fst (Run w (mkState (bindFlags NewEKSLoginApp f) input [])) = inl e ->
        errGiven e).
Proof.
  intros Hfp Hp Hfc Hc r. subst r. unfold main.
  destruct (Run_given w (mkState (bindFlags NewEKSLoginApp f) input []))
    as (Hcfg & (evs & Ht & Hev) & He).
  - simpl. rewrite Hfp. exact Hp.
  - simpl. rewrite Hfc. exact Hc.
  - destruct (Run w (mkState (bindFlags NewEKSLoginApp f) input []))
      as [[e | u] s]; simpl in *.
    + split; [exact Hcfg |]. split; [| exact He].
      rewrite Ht. apply Forall_app. split; [exact Hev |].
      repeat constructor; simpl; tauto.
    + split; [exact Hcfg |]. split; [| exact He].
      rewrite Ht. exact Hev.
Qed.

Lemma X6_witness :
  let r := main worldKubectlDown (CmdRoot flagsNoSkip) ["1"] in
  config (snd r) = bindFlags NewEKSLoginApp flagsNoSkip
  /\ Forall noSelection (trace (snd r))
  /\ (forall e,
        fst (Run worldKubectlDown
               (mkState (bindFlags NewEKSLoginApp flagsNoSkip) ["1"] []))
        = inl e ->
        errGiven e).
Proof.
  apply (X6_flags_select_nothing worldKubectlDown flagsNoSkip ["1"] "a" "prod");
    [reflexivity | discriminate | reflexivity | discriminate].
Defined.

(** *** The commands of a run *)

Lemma cmdFor_ext cfg cfg' ev :
  Profile cfg = Profile cfg' -> Region cfg = Region cfg' ->
  cmdFor cfg ev -> cmdFor cfg' ev.
Proof.
  intros Hp Hr. destruct ev; simpl; auto.
  unfold sessionArgs, listClustersArgs. rewrite Hp, Hr. auto.
Qed.

Lemma cmdFor_loginStep cfg ev : evLoginStep ev -> cmdFor cfg ev.
Proof. destruct ev; simpl; tauto. Qed.

Lemma cmdFor_UpdateKubeconfig cfg ev : evUpdateKubeconfig ev -> cmdFor cfg ev.
Proof. destruct ev; simpl; tauto. Qed.

Lemma cmdFor_ShowSummary cfg ev : evShowSummary ev -> cmdFor cfg ev.
Proof. destruct ev; simpl; tauto. Qed.

Lemma cmdFor_SelectCluster cfg ev :
  evSelectCluster ev -> notOutput ev -> cmdFor cfg ev.
Proof. destruct ev; simpl; tauto. Qed.

Section Commands.

Variable w : World.
Variable c : Config.

Lemma cmds_CheckDependencies st :
  exists evs,
    trace (snd (CheckDependencies w st)) = (trace st ++ evs)%list
    /\ Forall (cmdFor c) evs.
Proof.
  rewrite CheckDependencies_eq. cbv zeta.
  destruct (wLookPath w (trace st ++ [EvPrint MCheckingDeps]) "aws").
  - match goal with
    | |- context [wLookPath w ?h "kubectl"] => destruct (wLookPath w h "kubectl")
    end; simpl; rewrite <- !app_assoc; simpl;
      (eexists; split; [reflexivity |]);
      repeat (constructor; [simpl; auto |]); constructor.
  - simpl. rewrite <- !app_assoc. simpl.
    eexists. split; [reflexivity |].
    repeat (constructor; [simpl; auto |]); constructor.
Qed.

Lemma cmds_profilesOfLines lines : forall profiles,
  frame keepNone (cmdFor c) errAny (profilesOfLines w lines profiles).
Proof.
  induction lines as [| line lines IH]; intros profiles st; simpl.
  - apply frameAt_ret.
  - destruct (String.eqb (TrimSpace line) EmptyString); simpl.
    + apply IH.
    + apply frameAt_bind.
      * apply frameAt_Execute. intros res. simpl. left. eauto.
      * intros r st1 _. apply frameAt_bind; [apply frameAt_getConfig |].
        intros cfg st2 _. apply IH.
Qed.

Lemma cmds_GetAWSProfiles :
  frame keepNone (cmdFor c) errAny (GetAWSProfiles w).
Proof.
  intros st. unfold GetAWSProfiles. apply frameAt_bind.
  - apply frameAt_Execute. intros res. simpl. left. auto.
  - intros r st1 _. destruct (snd r).
    + apply frameAt_fail. exact I.
    + apply cmds_profilesOfLines.
Qed.

Lemma cmds_selectProfileLoop profiles lines : forall cfg tr,
  exists evs,
    trace (snd (selectProfileLoop profiles lines cfg tr)) = (tr ++ evs)%list
    /\ Forall (cmdFor c) evs.
Proof.
  induction lines as [| l rest IH]; intros cfg tr; simpl.
  - eexists. rewrite <- app_assoc. split; [reflexivity |].
    repeat constructor.
  - destruct (Atoi (TrimSpace (l ++ nl))) as [choice err].
    destruct (negb (isNil err) || (choice <? 1) || (len profiles <? choice)).
    + match goal with
      | |- context [selectProfileLoop profiles rest cfg ?t] =>
          destruct (IH cfg t) as (evs & Ht & Hp)
      end.
      eexists. split.
      * rewrite Ht. rewrite <- !app_assoc. reflexivity.
      * simpl. repeat constructor. exact Hp.
    + destruct (nth_error profiles (Z.to_nat (choice - 1))); simpl;
        (eexists; rewrite <- app_assoc; split; [reflexivity |];
         repeat constructor).
Qed.

Lemma cmds_SelectProfile :
  frame keepNone (cmdFor c) errAny (SelectProfile w).
Proof.
  intros st. unfold SelectProfile. apply frameAt_bind.
  - apply cmds_GetAWSProfiles.
  - intros profiles st1 _. destruct (len profiles =? 0).
    + apply frameAt_fail. exact I.
    + destruct (len profiles =? 1).
      * destruct (nth_error profiles 0); [| apply frameAt_fail; exact I].
        apply frameAt_bind; [apply frameAt_getConfig |].
        intros cfg st2 _.
        apply frameAt_bind; [apply frameAt_putConfig; reflexivity |].
        intros _ st3 _. apply frameAt_bind; [apply frameAt_getConfig |].
        intros cfg' st4 _. apply frameAt_print. exact I.
      * apply frameAt_bind; [apply frameAt_print; exact I |].
        intros _ st2 _. apply frameAt_bind.
        -- apply frame_forEachIndexed. intros i x st3.
           apply frameAt_print. exact I.
        -- intros _ st3 _. split; [reflexivity |].
           split; [| intros; exact I].
           apply cmds_selectProfileLoop.
Qed.

Lemma cmds_profileStep st :
  exists evs,
    trace (snd (profileStep w st)) = (trace st ++ evs)%list
    /\ Forall (cmdFor c) evs.
Proof.
  unfold profileStep.
  destruct (String.eqb (Profile (config st)) EmptyString).
  - exact (proj1 (proj2 (cmds_SelectProfile st))).
  - exists []. simpl. rewrite app_nil_r. auto.
Qed.

Lemma cmds_VerifyConnection :
  frame keepNone (cmdFor c) errAny (VerifyConnection w).
Proof.
  intros st. unfold VerifyConnection.
  apply frameAt_bind; [apply frameAt_print; exact I |].
  intros _ st1 _. apply frameAt_bind.
  - apply frameAt_Execute. intros res. simpl. right. auto.
  - intros r st2 _. destruct (snd r).
    + apply frameAt_print. exact I.
    + apply frameAt_bind; [apply frameAt_print; exact I |].
      intros _ st3 _. apply frameAt_bind.
      * apply frameAt_Execute. intros res. simpl. right. auto.
      * intros c0 st4 _. apply frameAt_bind.
        -- destruct (isNil (snd c0)).
           ++ apply frameAt_print. exact I.
           ++ apply frameAt_ret.
        -- intros _ st5 _. apply frameAt_print. exact I.
Qed.

End Commands.

(** The listing call of the cluster step is made with the profile and the
    region of the configuration. *)
Lemma cmds_clusterStep w st evs :
  trace (snd (clusterStep w st)) = (trace st ++ evs)%list ->
  Forall evSelectCluster evs ->
  Forall (cmdFor (config st)) evs.
Proof.
  unfold clusterStep.
  destruct (String.eqb (Cluster (config st)) EmptyString).
  - intros Ht Hev.
    destruct (SelectCluster_trace w st) as (more & Hm & Hno).
    rewrite Hm in Ht. apply app_inv_head in Ht. subst evs.
    constructor; [exact I |]. constructor; [simpl; auto 6 |].
    inversion Hev as [| ? ? _ Hev1]. inversion Hev1 as [| ? ? _ Hev2].
    clear - Hev2 Hno. induction more as [| ev more IH]; constructor.
    + inversion Hev2. inversion Hno. apply cmdFor_SelectCluster; assumption.
    + inversion Hev2. inversion Hno. apply IH; assumption.
  - simpl. intros Ht _. rewrite <- (app_nil_r (trace st)) in Ht at 1.
    apply app_inv_head in Ht. subst evs. constructor.
Qed.

(** Every tool looked up and every command captured by [Run] is one of
    the inventory, for the configuration at the end of the run. *)
Lemma Run_cmds (w : World) (st : AppState) :
  exists evs,
    trace (snd (Run w st)) = (trace st ++ evs)%list
    /\ Forall (cmdFor (config (snd (Run w st)))) evs.
Proof.
  assert (B4 : forall c l, Forall evLoginStep l -> Forall (cmdFor c) l)
    by (intros c l; apply Forall_impl; apply cmdFor_loginStep).
  assert (B6 : forall c l, Forall evUpdateKubeconfig l -> Forall (cmdFor c) l)
    by (intros c l; apply Forall_impl; apply cmdFor_UpdateKubeconfig).
  assert (B8 : forall c l, Forall evShowSummary l -> Forall (cmdFor c) l)
    by (intros c l; apply Forall_impl; apply cmdFor_ShowSummary).
  assert (F : forall c l1 l2, Forall (cmdFor c) l1 -> Forall (cmdFor c) l2 ->
                             Forall (cmdFor c) (l1 ++ l2))
    by (intros c l1 l2 H1 H2; apply Forall_app; auto).
  assert (X : forall c c' l, Profile c = Profile c' -> Region c = Region c' ->
                            Forall (cmdFor c) l -> Forall (cmdFor c') l)
    by (intros c c' l Hp Hr; apply Forall_impl; intros ev;
        apply cmdFor_ext; assumption).
  assert (B3 : forall c res,
             Forall (cmdFor c) [EvOutput "aws" (sessionArgs c) res])
    by (intros c res; constructor; [simpl; auto 6 | constructor]).
  run_steps w st; simpl.
  - destruct (cmds_CheckDependencies w (config s1) st) as (l1 & T1 & P1).
    rewrite H1 in T1. exists l1. auto.
  - destruct (cmds_CheckDependencies w (config s2) st) as (l1 & T1 & P1).
    rewrite H1 in T1. simpl in T1.
    destruct (cmds_profileStep w (config s2) s1) as (l2 & T2 & P2).
    rewrite H2 in T2. simpl in T2.
    exists (l1 ++ l2)%list. split; [rewrite T2, T1, app_assoc; reflexivity |].
    auto.
  - destruct (cmds_CheckDependencies w (config s4) st) as (l1 & T1 & P1).
    rewrite H1 in T1. simpl in T1.
    destruct (cmds_profileStep w (config s4) s1) as (l2 & T2 & P2).
    rewrite H2 in T2. simpl in T2.
    assert (HP : Profile (config s2) = Profile (config s4)
                 /\ Region (config s2) = Region (config s4))
      by (unfold keepAll in *; split; congruence).
    destruct HP as [HP HR].
    pose proof (X _ _ _ HP HR (B3 (config s2) res)) as P3.
    eexists. split; [rewrite Ft1, T2, T1, <- !app_assoc; reflexivity |].
    repeat apply F; auto.
  - destruct (cmds_CheckDependencies w (config s5) st) as (l1 & T1 & P1).
    rewrite H1 in T1. simpl in T1.
    destruct (cmds_profileStep w (config s5) s1) as (l2 & T2 & P2).
    rewrite H2 in T2. simpl in T2.
    assert (HP : Profile (config s2) = Profile (config s5)
                 /\ Region (config s2) = Region (config s5))
      by (unfold keepAll, keepButCluster in *; split; congruence).
    destruct HP as [HP HR].
    assert (HP4 : Profile (config s4) = Profile (config s5)
                  /\ Region (config s4) = Region (config s5))
      by (unfold keepAll, keepButCluster in *; split; congruence).
    destruct HP4 as [HP4 HR4].
    pose proof (X _ _ _ HP HR (B3 (config s2) res)) as P3.
    assert (P5 : Forall (cmdFor (config s5)) evs2).
    { apply (X (config s4)); [exact HP4 | exact HR4 |].
      apply (cmds_clusterStep w s4); [rewrite H5; exact Ft2 | exact Fp2]. }
    eexists. split; [rewrite Ft2, Ft1, T2, T1, <- !app_assoc; reflexivity |].
    repeat apply F; auto.
  - destruct (cmds_CheckDependencies w (config s6) st) as (l1 & T1 & P1).
    rewrite H1 in T1. simpl in T1.
    destruct (cmds_profileStep w (config s6) s1) as (l2 & T2 & P2).
    rewrite H2 in T2. simpl in T2.
    assert (HP : Profile (config s2) = Profile (config s6)
                 /\ Region (config s2) = Region (config s6))
      by (unfold keepAll, keepButCluster in *; split; congruence).
    destruct HP as [HP HR].
    assert (HP4 : Profile (config s4) = Profile (config s6)
                  /\ Region (config s4) = Region (config s6))
      by (unfold keepAll, keepButCluster in *; split; congruence).
    destruct HP4 as [HP4 HR4].
    pose proof (X _ _ _ HP HR (B3 (config s2) res)) as P3.
    assert (P5 : Forall (cmdFor (config s6)) evs2).
    { apply (X (config s4)); [exact HP4 | exact HR4 |].
      apply (cmds_clusterStep w s4); [rewrite H5; exact Ft2 | exact Fp2]. }
    eexists.
    split; [rewrite Ft3, Ft2, Ft1, T2, T1, <- !app_assoc; reflexivity |].
    repeat apply F; auto.
  - exfalso. exact (Fe4 _ eq_refl).
  - exfalso. exact (Fe5 _ eq_refl).
  - destruct (cmds_CheckDependencies w (config s8) st) as (l1 & T1 & P1).
    rewrite H1 in T1. simpl in T1.
    destruct (cmds_profileStep w (config s8) s1) as (l2 & T2 & P2).
    rewrite H2 in T2. simpl in T2.
    assert (HP : Profile (config s2) = Profile (config s8)
                 /\ Region (config s2) = Region (config s8))
      by (unfold keepAll, keepButCluster in *; split; congruence).
    destruct HP as [HP HR].
    assert (HP4 : Profile (config s4) = Profile (config s8)
                  /\ Region (config s4) = Region (config s8))
      by (unfold keepAll, keepButCluster in *; split; congruence).
    destruct HP4 as [HP4 HR4].
    pose proof (X _ _ _ HP HR (B3 (config s2) res)) as P3.
    assert (P5 : Forall (cmdFor (config s8)) evs2).
    { apply (X (config s4)); [exact HP4 | exact HR4 |].
      apply (cmds_clusterStep w s4); [rewrite H5; exact Ft2 | exact Fp2]. }
    destruct (cmds_VerifyConnection w (config s8) s6) as (_ & (l7 & T7 & P7) & _).
    rewrite H7 in T7. simpl in T7.
    eexists.
    split; [rewrite Ft5, T7, Ft3, Ft2, Ft1, T2, T1, <- !app_assoc; reflexivity |].
    repeat apply F; auto.
Qed.

(** X7.  The inventory of a run of [main].  The only tools looked up on
    the PATH are [aws] and [kubectl].  Every command whose output is
    captured is one of six: the profile listing, a region lookup, the
    session check and the cluster listing by [aws], and [cluster-info]
    and [config current-context] by [kubectl]; the session check and the
    cluster listing carry the profile, and the listing also the region,
    that the configuration holds at the end of the run, so the profile
    selected is the one checked and listed with. *)
Theorem X7_command_inventory (w : World) (f : Flags) (input : list string) :
  let r := main w (CmdRoot f) input in
  Forall (cmdFor (config (snd r))) (trace (snd r)).
Proof.
  intros r. subst r. unfold main.
  destruct (Run_cmds w (mkState (bindFlags NewEKSLoginApp f) input []))
    as (evs & Ht & H).
  destruct (Run w (mkState (bindFlags NewEKSLoginApp f) input []))
    as [[e | []] s]; simpl in *.
  - rewrite Ht. apply Forall_app. split; [exact H |].
    constructor; [exact I | constructor; [exact I | constructor]].
  - rewrite Ht. exact H.
Qed.

(** *** The numbers of a listing, typed back *)

Lemma digitsValue_string_of_uint d : forall acc,
  digitsValue acc (NilEmpty.string_of_uint d) = Some (decimalValue acc d).
Proof.
  induction d; intros acc; simpl; try reflexivity; apply IHd.
Qed.

Lemma decimalValue_pos d : forall p,
  decimalValue (Z.pos p) d = Z.pos (Pos.of_uint_acc d p).
Proof.
  induction d; intros p; cbn [decimalValue Pos.of_uint_acc];
    try reflexivity; rewrite <- IHd; f_equal; lia.
Qed.

Lemma decimalValue_zero d : decimalValue 0 d = Z.of_N (Pos.of_uint d).
Proof.
  induction d; cbn [decimalValue Pos.of_uint]; try reflexivity;
    try exact IHd; cbn [Z.of_N]; rewrite <- decimalValue_pos; reflexivity.
Qed.

Lemma allDigits_string_of_uint d : allDigits (NilEmpty.string_of_uint d) = true.
Proof. induction d; simpl; auto. Qed.

(** [%d] of a positive number: its decimal digits, at least one. *)
Lemma itoa_pos p :
  itoa (Z.pos p) = NilEmpty.string_of_uint (Pos.to_uint p)
  /\ itoa (Z.pos p) <> EmptyString.
Proof.
  unfold itoa. simpl.
  pose proof (DecimalPos.Unsigned.to_uint_nonnil p) as Hn.
  destruct (Pos.to_uint p) eqn:Hd; try (exfalso; apply Hn; reflexivity);
    simpl; split; try reflexivity; discriminate.
Qed.

Lemma digitsValue_itoa p : digitsValue 0 (itoa (Z.pos p)) = Some (Z.pos p).
Proof.
  rewrite (proj1 (itoa_pos p)), digitsValue_string_of_uint, decimalValue_zero.
  rewrite DecimalPos.Unsigned.of_to. reflexivity.
Qed.

(** A digit is no white space, and no byte of a white space rune of two
    or three bytes but a first one. *)
Lemma digit_no_space c :
  isDigit c = true ->
  asciiSpace c = false
  /\ (forall c2, space2 c c2 = false)
  /\ (forall c1, space2 c1 c = false)
  /\ (forall c2 c3, space3 c c2 c3 = false)
  /\ (forall c1 c2, space3 c1 c2 c = false)
  /\ Ascii.eqb c "-" = false
  /\ Ascii.eqb c "+" = false.
Proof.
  unfold isDigit, asciiSpace, space2, space3. cbv zeta. intros H.
  apply andb_true_iff in H. destruct H as [H1 H2].
  apply Z.leb_le in H1. apply Z.leb_le in H2.
  assert (E : forall k, k < 48 \/ 57 < k -> (byte c =? k) = false)
    by (intros k Hk; apply Z.eqb_neq; lia).
  assert (L : forall k, 57 < k -> (k <=? byte c) = false)
    by (intros k Hk; apply Z.leb_gt; lia).
  assert (G : forall k, k < 48 -> (byte c <=? k) = false)
    by (intros k Hk; apply Z.leb_gt; lia).
  repeat split; intros;
    rewrite ?(G 13), ?(E 32), ?(E 194), ?(E 133), ?(E 160), ?(E 225),
      ?(E 226), ?(E 227), ?(E 128), ?(L 128), ?(E 168), ?(E 169), ?(E 175),
      ?(E 159) by lia;
    rewrite ?andb_false_r, ?orb_false_r; simpl;
    rewrite ?andb_false_r, ?orb_false_r; try reflexivity.
  - destruct (Ascii.eqb c "-") eqn:Hm; [| reflexivity].
    apply Ascii.eqb_eq in Hm. subst c. vm_compute in H1. exfalso.
    apply H1. reflexivity.
  - destruct (Ascii.eqb c "+") eqn:Hm; [| reflexivity].
    apply Ascii.eqb_eq in Hm. subst c. vm_compute in H1. exfalso.
    apply H1. reflexivity.
Qed.

Lemma TrimLeftSpace_digit c t :
  isDigit c = true -> TrimLeftSpace (String c t) = String c t.
Proof.
  intros H. destruct (digit_no_space c H) as (Ha & H2 & _ & H3 & _).
  cbn [TrimLeftSpace]. rewrite Ha.
  destruct t as [| c2 [| c3 t3]]; rewrite ?H2, ?H3; reflexivity.
Qed.

Lemma trimRevSpace_digit c t :
  isDigit c = true -> trimRevSpace (String c t) = String c t.
Proof.
  intros H. destruct (digit_no_space c H) as (Ha & _ & H2 & _ & H3 & _).
  cbn [trimRevSpace]. rewrite Ha.
  destruct t as [| c2 [| c3 t3]]; rewrite ?H2, ?H3; reflexivity.
Qed.

Lemma list_ascii_of_string_app s t :
  list_ascii_of_string (s ++ t)
  = (list_ascii_of_string s ++ list_ascii_of_string t)%list.
Proof. induction s; simpl; [reflexivity | rewrite IHs; reflexivity]. Qed.

Lemma rev_app_nl s : rev (s ++ nl) = String newline (rev s).
Proof.
  unfold rev. rewrite list_ascii_of_string_app. simpl list_ascii_of_string.
  rewrite rev_unit. reflexivity.
Qed.

Lemma rev_rev s : rev (rev s) = s.
Proof.
  unfold rev. rewrite list_ascii_of_string_of_list_ascii, rev_involutive.
  apply string_of_list_ascii_of_string.
Qed.

Lemma allDigits_forallb s :
  allDigits s = forallb isDigit (list_ascii_of_string s).
Proof. induction s; simpl; [reflexivity | rewrite IHs; reflexivity]. Qed.

(** The reverse of a string of digits starts with a digit. *)
Lemma rev_digits s :
  allDigits s = true -> s <> EmptyString ->
  exists c r, rev s = String c r /\ isDigit c = true.
Proof.
  intros Hd Hn. rewrite allDigits_forallb in Hd.
  rewrite forallb_forall in Hd. unfold rev.
  destruct (List.rev (list_ascii_of_string s)) as [| c r] eqn:Hr.
  - exfalso. apply Hn.
    rewrite <- (string_of_list_ascii_of_string s).
    rewrite <- (rev_involutive (list_ascii_of_string s)), Hr. reflexivity.
  - exists c, (string_of_list_ascii r). split; [reflexivity |].
    apply Hd. apply in_rev. rewrite Hr. left. reflexivity.
Qed.

(** A line of digits as the loops trim it: the line end goes, the digits
    stay. *)
Lemma TrimSpace_digits_nl s :
  allDigits s = true -> s <> EmptyString -> TrimSpace (s ++ nl) = s.
Proof.
  intros Hd Hn. destruct s as [| c t]; [contradiction |].
  pose proof Hd as Hd'. simpl in Hd'. apply andb_true_iff in Hd'.
  destruct Hd' as [Hc _].
  unfold TrimSpace. change (String c t ++ nl) with (String c (t ++ nl)).
  rewrite (TrimLeftSpace_digit c _ Hc).
  change (String c (t ++ nl)) with (String c t ++ nl).
  unfold TrimRightSpace. rewrite rev_app_nl.
  destruct (rev_digits (String c t) Hd Hn) as (c' & r & Hr & Hc').
  change (trimRevSpace (String newline (rev (String c t))))
    with (trimRevSpace (rev (String c t))).
  rewrite Hr, (trimRevSpace_digit c' r Hc'), <- Hr. apply rev_rev.
Qed.

(** [Atoi] on a string of digits that fits an [int]. *)
Lemma Atoi_digits s n :
  allDigits s = true -> s <> EmptyString ->
  digitsValue 0 s = Some n -> 0 <= n <= maxInt ->
  Atoi s = (n, None).
Proof.
  intros Hd Hn Hv Hr. destruct s as [| c t]; [contradiction |].
  pose proof Hd as Hd'. simpl in Hd'. apply andb_true_iff in Hd'.
  destruct Hd' as [Hc _].
  destruct (digit_no_space c Hc) as (_ & _ & _ & _ & _ & Hm & Hp).
  unfold Atoi. rewrite Hm, Hp. cbn [orb]. cbv iota zeta. rewrite Hv.
  assert (H1 : (n <? minInt) = false)
    by (apply Z.ltb_ge; unfold minInt; lia).
  assert (H2 : (maxInt <? n) = false) by (apply Z.ltb_ge; lia).
  rewrite H1, H2. reflexivity.
Qed.

(** The round trip of a number: printed with [%d] and typed back at the
    prompt, it is read as itself. *)
Lemma parsedLine_itoa n :
  1 <= n <= maxInt -> parsedLine (itoa n) = (n, None).
Proof.
  intros Hr. destruct n as [| p | p]; try lia.
  destruct (itoa_pos p) as [Hi Hn].
  assert (Hd : allDigits (itoa (Z.pos p)) = true)
    by (rewrite Hi; apply allDigits_string_of_uint).
  unfold parsedLine. rewrite (TrimSpace_digits_nl _ Hd Hn).
  apply Atoi_digits; auto; [apply digitsValue_itoa | lia].
Qed.

(** X8.  The numbers of a listing can be typed back.  A number from 1 to
    the largest [int], printed with [%d] as the listings print it and read
    back as the selection loops read a line (the line end trimmed, then
    [Atoi]), is that number.  So in a listing of profiles, and in one of
    clusters, the line that holds the number shown beside an item selects
    that item. *)
Theorem X8_listed_number_selects :
  (forall n, 1 <= n <= maxInt -> parsedLine (itoa n) = (n, None))
  /\ (forall profiles k p rest cfg tr,
        len profiles <= maxInt ->
        nth_error profiles k = Some p ->
        let shown := Z.of_nat k + 1 in
        nth_error (listing profileItem 0 profiles) k
        = Some (EvPrint (MProfileItem shown (Name p) (PRegion p)))
        /\ render (MProfileItem shown (Name p) (PRegion p))
           = "  " ++ itoa shown ++ ". " ++ Name p
             ++ " (region: " ++ PRegion p ++ ")" ++ nl
        /\ selectProfileLoop profiles (itoa shown :: rest) cfg tr =
           (inr tt,
            mkState (setRegion (setProfile cfg (Name p)) (PRegion p)) rest
              (tr ++ [EvPrint (MSelectProfile (len profiles));
                      EvReadLine (Some (itoa shown ++ nl))])))
  /\ (forall clusters k c rest cfg tr,
        len clusters <= maxInt ->
        nth_error clusters k = Some c ->
        let shown := Z.of_nat k + 1 in
        nth_error (listing clusterItem 0 clusters) k
        = Some (EvPrint (MClusterItem shown c))
        /\ render (MClusterItem shown c) = "  " ++ itoa shown ++ ". " ++ c ++ nl
        /\ selectClusterLoop clusters (itoa shown :: rest) cfg tr =
           (inr tt,
            mkState (setCluster cfg c) rest
              (tr ++ [EvPrint (MSelectCluster (len clusters));
                      EvReadLine (Some (itoa shown ++ nl))]))).
Proof.
  split; [exact parsedLine_itoa | split].
  - intros profiles k p rest cfg tr Hlen Hk. cbv zeta.
    assert (Hlt : (k < List.length profiles)%nat)
      by (apply nth_error_Some; congruence).
    assert (Hv : validLine (len profiles) (itoa (Z.of_nat k + 1))
                   (Z.of_nat k + 1))
      by (unfold len in *; split; [apply parsedLine_itoa |]; lia).
    split; [| split; [reflexivity |]].
    + rewrite (listing_nth profileItem profiles 0 k p Hk).
      unfold profileItem. rewrite Z.add_0_l. reflexivity.
    + destruct (selectProfileLoop_accepts profiles _ rest cfg tr _ Hv)
        as (p' & Hn & Heq).
      replace (Z.to_nat (Z.of_nat k + 1 - 1)) with k in Hn by lia.
      rewrite Hk in Hn. injection Hn as <-. exact Heq.
  - intros clusters k c rest cfg tr Hlen Hk. cbv zeta.
    assert (Hlt : (k < List.length clusters)%nat)
      by (apply nth_error_Some; congruence).
    assert (Hv : validLine (len clusters) (itoa (Z.of_nat k + 1))
                   (Z.of_nat k + 1))
      by (unfold len in *; split; [apply parsedLine_itoa |]; lia).
    split; [| split; [reflexivity |]].
    + rewrite (listing_nth clusterItem clusters 0 k c Hk).
      unfold clusterItem. rewrite Z.add_0_l. reflexivity.
    + destruct (selectClusterLoop_accepts clusters _ rest cfg tr _ Hv)
        as (c' & Hn & Heq).
      replace (Z.to_nat (Z.of_nat k + 1 - 1)) with k in Hn by lia.
      rewrite Hk in Hn. injection Hn as <-. exact Heq.
Qed.

(** *** The region flag of a run that selects its profile *)

Lemma CheckDependencies_region w r st :
  CheckDependencies w (withRegion r st) =
  (fst (CheckDependencies w st), withRegion r (snd (CheckDependencies w st))).
Proof.
  rewrite !CheckDependencies_eq. cbv zeta. simpl.
  destruct (wLookPath w (trace st ++ [EvPrint MCheckingDeps]) "aws");
    [| reflexivity].
  match goal with
  | |- context [wLookPath w ?h "kubectl"] => destruct (wLookPath w h "kubectl")
  end; reflexivity.
Qed.

Lemma GetAWSProfiles_region w r st :
  GetAWSProfiles w (withRegion r st) =
  (fst (GetAWSProfiles w st), withRegion r (snd (GetAWSProfiles w st))).
Proof.
  rewrite !GetAWSProfiles_eq. cbv zeta. simpl.
  destruct (wOutput w (trace st) "aws" ["configure"; "list-profiles"]);
    reflexivity.
Qed.

Lemma selectProfileLoop_region r profiles lines : forall cfg tr,
  sameBut r (selectProfileLoop profiles lines cfg tr)
    (selectProfileLoop profiles lines (setRegion cfg r) tr).
Proof.
  induction lines as [| l rest IH]; intros cfg tr; simpl.
  - split; [reflexivity | left; reflexivity].
  - destruct (Atoi (TrimSpace (l ++ nl))) as [choice err].
    destruct (negb (isNil err) || (choice <? 1) || (len profiles <? choice)).
    + apply IH.
    + destruct (nth_error profiles (Z.to_nat (choice - 1)));
        (split; [reflexivity | simpl; auto]).
Qed.

(** [SelectProfile] does the same whatever the region was: it writes the
    region before anything reads it. *)
Lemma SelectProfile_region w r st :
  sameBut r (SelectProfile w st) (SelectProfile w (withRegion r st)).
Proof.
  destruct (GetAWSProfiles w st) as [[e | profiles] st1] eqn:Hg.
  - assert (Ha : SelectProfile w st = (inl e, st1))
      by (unfold SelectProfile, bind; rewrite Hg; reflexivity).
    assert (Hb : SelectProfile w (withRegion r st) = (inl e, withRegion r st1))
      by (unfold SelectProfile, bind; rewrite GetAWSProfiles_region, Hg;
          reflexivity).
    rewrite Ha, Hb. split; [reflexivity | left; reflexivity].
  - rewrite (SelectProfile_by_count w st profiles st1 Hg).
    rewrite (SelectProfile_by_count w (withRegion r st) profiles
               (withRegion r st1))
      by (rewrite GetAWSProfiles_region, Hg; reflexivity).
    destruct profiles as [| p [| p2 ps]].
    + split; [reflexivity | left; reflexivity].
    + split; reflexivity.
    + apply selectProfileLoop_region.
Qed.

(** A run that selects its profile does the same whatever the region
    was. *)
Lemma Run_region (w : World) (r : string) (st : AppState) :
  Profile (config st) = EmptyString ->
  sameBut r (Run w st) (Run w (withRegion r st)).
Proof.
  intros Hp. rewrite !Run_unfold. rewrite CheckDependencies_region.
  pose proof (frame_CheckDependencies w st) as (Hc & _ & _).
  destruct (CheckDependencies w st) as [[e | u] s1]; simpl in *.
  - split; [reflexivity | left; reflexivity].
  - assert (Hp1 : Profile (config s1) = EmptyString)
      by (unfold keepAll in Hc; congruence).
    unfold profileStep. simpl. rewrite Hp1. simpl.
    destruct (SelectProfile_region w r s1) as [Hf Hs].
    destruct (SelectProfile w s1) as [[e | u1] s2];
      destruct (SelectProfile w (withRegion r s1)) as [[e' | u1'] s2'];
      simpl in *; try discriminate Hf.
    + injection Hf as ->. split; [reflexivity | exact Hs].
    + subst s2'.
      match goal with
      | |- sameBut r ?a ?a =>
          destruct a as [[e | u2] s9]; (split; [reflexivity | simpl; auto])
      end.
Qed.

(** X9.  Without a profile on the command line (the flag left out or
    empty), the region flag has no effect on what a run of [main] does:
    two runs in the same world that differ only in that flag have the
    same exit status and the same trace (output, subprocess calls and
    reads), and when they succeed they end in the same configuration.
    The profile selection writes the region of the selected profile
    before any step reads the field. *)
Theorem X9_region_flag_unused_without_profile (w : World)
  (fp fr fr' fc : option string) (fs fi : option bool) (input : list string) :
  orDefault fp EmptyString = EmptyString ->
  let a := main w (CmdRoot (mkFlags fp fr fc fs fi)) input in
  let b := main w (CmdRoot (mkFlags fp fr' fc fs fi)) input in
  fst b = fst a
  /\ trace (snd b) = trace (snd a)
  /\ (fst a = 0 -> config (snd b) = config (snd a)).
Proof.
  intros Hp a b. subst a b. unfold main.
  set (st := mkState (bindFlags NewEKSLoginApp (mkFlags fp fr fc fs fi)) input []).
  assert (Hst : mkState (bindFlags NewEKSLoginApp (mkFlags fp fr' fc fs fi))
                  input []
                = withRegion (orDefault fr' (DefaultRegion NewEKSLoginApp)) st)
    by reflexivity.
  rewrite Hst.
  destruct (Run_region w (orDefault fr' (DefaultRegion NewEKSLoginApp)) st Hp)
    as [Hf Hs].
  destruct (Run w st) as [[e | u] s];
    destruct (Run w (withRegion (orDefault fr' (DefaultRegion NewEKSLoginApp)) st))
      as [[e' | u'] s']; simpl in *; try discriminate Hf.
  - injection Hf as ->. split; [reflexivity |].
    destruct Hs as [-> | ->]; simpl; repeat split; intros H; discriminate H.
  - subst s'. repeat split.
Qed.

Lemma X9_witness :
  let a := main worldDevProd (CmdRoot (mkFlags None None None None None)) ["2"] in
  let b := main worldDevProd
             (CmdRoot (mkFlags None (Some "eu-central-1") None None None)) ["2"] in
  fst b = fst a
  /\ trace (snd b) = trace (snd a)
  /\ (fst a = 0 -> config (snd b) = config (snd a)).
Proof.
  apply (X9_region_flag_unused_without_profile worldDevProd None None
           (Some "eu-central-1") None None None ["2"]).
  reflexivity.
Defined.

(** *** A listing that fails *)

(** [Execute], written out. *)
Lemma Execute_eq w name args st :
  Execute w name args st =
  let res := wOutput w (trace st) name args in
  (inr (match res with CmdOk output => TrimSpace output | _ => EmptyString end,
        executeError res),
   mkState (config st) (stdin st) (trace st ++ [EvOutput name args res])).
Proof.
  unfold Execute. destruct (wOutput w (trace st) name args); reflexivity.
Qed.

Lemma notFailed_notOutput ev : notOutput ev -> ~ isFailedListing ev.
Proof. destruct ev; simpl; tauto. Qed.

Lemma notFailed_CheckDependencies ev :
  evCheckDependencies ev -> ~ isFailedListing ev.
Proof. destruct ev; simpl; tauto. Qed.

Lemma notFailed_loginStep ev : evLoginStep ev -> ~ isFailedListing ev.
Proof. destruct ev; simpl; tauto. Qed.

Lemma notFailed_UpdateKubeconfig ev :
  evUpdateKubeconfig ev -> ~ isFailedListing ev.
Proof. destruct ev; simpl; tauto. Qed.

Lemma notFailed_VerifyConnection ev :
  evVerifyConnection ev -> ~ isFailedListing ev.
Proof.
  destruct ev; simpl; try tauto. intros -> (H & _). discriminate H.
Qed.

Lemma notFailed_ShowSummary ev : evShowSummary ev -> ~ isFailedListing ev.
Proof. destruct ev; simpl; tauto. Qed.

Lemma notFailed_sessionCheck p res :
  ~ isFailedListing
      (EvOutput "aws" ["sts"; "get-caller-identity"; "--profile"; p] res).
Proof.
  simpl. intros (_ & _ & [H | (rest & H)]); discriminate H.
Qed.

Lemma notFailed_regionLookups l :
  Forall (fun ev => ~ isFailedListing ev) (map regionLookup l).
Proof.
  induction l as [| nr l IH]; simpl; constructor; [| exact IH].
  simpl. intros (_ & _ & [H | (rest & H)]); discriminate H.
Qed.

Lemma selectProfileLoop_notOutput profiles lines : forall cfg tr,
  exists evs,
    trace (snd (selectProfileLoop profiles lines cfg tr)) = (tr ++ evs)%list
    /\ Forall notOutput evs.
Proof.
  induction lines as [| l rest IH]; intros cfg tr; simpl.
  - eexists. rewrite <- app_assoc. split; [reflexivity |].
    repeat constructor.
  - destruct (Atoi (TrimSpace (l ++ nl))) as [choice err].
    destruct (negb (isNil err) || (choice <? 1) || (len profiles <? choice)).
    + match goal with
      | |- context [selectProfileLoop profiles rest cfg ?t] =>
          destruct (IH cfg t) as (evs & Ht & Hp)
      end.
      eexists. split.
      * rewrite Ht. rewrite <- !app_assoc. reflexivity.
      * simpl. repeat constructor. exact Hp.
    + destruct (nth_error profiles (Z.to_nat (choice - 1))); simpl;
        (eexists; rewrite <- app_assoc; split; [reflexivity |];
         repeat constructor).
Qed.

(** [SelectProfile] when the profile listing fails, and when it does
    not. *)
Lemma SelectProfile_listing w st :
  let res := wOutput w (trace st) "aws" ["configure"; "list-profiles"] in
  match executeError res with
  | Some cause =>
      SelectProfile w st =
      (inl (ErrListProfiles cause),
       mkState (config st) (stdin st)
         (trace st ++ [EvOutput "aws" ["configure"; "list-profiles"] res]))
  | None =>
      exists evs,
        trace (snd (SelectProfile w st)) = (trace st ++ evs)%list
        /\ Forall (fun ev => ~ isFailedListing ev) evs
  end.
Proof.
  cbv zeta.
  destruct (wOutput w (trace st) "aws" ["configure"; "list-profiles"])
    as [out | err stderr | err] eqn:Hres; simpl.
  - assert (N : forall l, Forall notOutput l ->
                          Forall (fun ev => ~ isFailedListing ev) l)
      by (intros l; apply Forall_impl; exact notFailed_notOutput).
    pose proof (GetAWSProfiles_eq w st) as Hg. cbv zeta in Hg.
    rewrite Hres in Hg.
    rewrite (SelectProfile_by_count w st _ _ Hg).
    match type of Hg with
    | _ = (inr ?ps, mkState _ _ (_ ++ map regionLookup ?l)) =>
        pose proof (notFailed_regionLookups l) as Hl;
        set (lk := map regionLookup l) in *;
        destruct ps as [| p [| p2 ps']]
    end; simpl.
    + eexists. rewrite <- !app_assoc. split; [reflexivity |].
      apply Forall_app. split; [| exact Hl].
      repeat constructor. simpl. intros (_ & H & _). discriminate H.
    + eexists. rewrite <- !app_assoc. split; [reflexivity |].
      apply Forall_app. split; [| apply Forall_app; split; [exact Hl |]].
      * repeat constructor. simpl. intros (_ & H & _). discriminate H.
      * repeat constructor. simpl. tauto.
    + match goal with
      | |- context [selectProfileLoop ?pl ?ls ?cfg ?t] =>
          destruct (selectProfileLoop_notOutput pl ls cfg t) as (evs & Ht & Hp)
      end.
      rewrite Ht. eexists. rewrite <- !app_assoc. split; [reflexivity |].
      apply Forall_app. split; [| apply Forall_app; split; [exact Hl |]].
      * repeat constructor. simpl. intros (_ & H & _). discriminate H.
      * simpl. repeat (constructor; [simpl; tauto |]).
        apply Forall_app. split; [| exact (N _ Hp)].
        apply N. apply listing_notOutput.
  - unfold SelectProfile, bind. rewrite GetAWSProfiles_eq. cbv zeta.
    rewrite Hres. reflexivity.
  - unfold SelectProfile, bind. rewrite GetAWSProfiles_eq. cbv zeta.
    rewrite Hres. reflexivity.
Qed.

(** [SelectCluster] when the cluster listing fails, and when it does
    not. *)
Lemma SelectCluster_listing w st :
  let res := wOutput w (trace st ++ [EvPrint MFetchingClusters]) "aws"
               (listClustersArgs (config st)) in
  match executeError res with
  | Some cause =>
      SelectCluster w st =
      (inl (ErrListClusters cause),
       mkState (config st) (stdin st)
         (trace st ++ [EvPrint MFetchingClusters;
                       EvOutput "aws" (listClustersArgs (config st)) res]))
  | None =>
      exists evs,
        trace (snd (SelectCluster w st)) = (trace st ++ evs)%list
        /\ Forall (fun ev => ~ isFailedListing ev) evs
  end.
Proof.
  cbv zeta.
  destruct (wOutput w (trace st ++ [EvPrint MFetchingClusters]) "aws"
              (listClustersArgs (config st)))
    as [out | err stderr | err] eqn:Hres; simpl.
  - destruct (SelectCluster_trace w st) as (more & Hm & Hno).
    rewrite Hres in Hm. eexists. split; [exact Hm |].
    constructor; [simpl; tauto |].
    constructor; [simpl; intros (_ & H & _); discriminate H |].
    revert Hno. apply Forall_impl. exact notFailed_notOutput.
  - unfold SelectCluster, bind. rewrite ListEKSClusters_eq. cbv zeta.
    rewrite Hres. simpl. rewrite <- app_assoc. reflexivity.
  - unfold SelectCluster, bind. rewrite ListEKSClusters_eq. cbv zeta.
    rewrite Hres. simpl. rewrite <- app_assoc. reflexivity.
Qed.

(** The two ways the profile step of [Run] ends, as far as listings go:
    the profile listing failed, which is the last event and the error of
    the step; or no listing failed. *)
Lemma profileStep_listing w st :
  (exists ev e,
      profileStep w st =
      (inl e, mkState (config st) (stdin st) (trace st ++ [ev]))
      /\ isFailedListing ev /\ listingError ev = Some e)
  \/ (exists evs,
        trace (snd (profileStep w st)) = (trace st ++ evs)%list
        /\ Forall (fun ev => ~ isFailedListing ev) evs).
Proof.
  unfold profileStep.
  destruct (String.eqb (Profile (config st)) EmptyString).
  - pose proof (SelectProfile_listing w st) as H. cbv zeta in H.
    destruct (wOutput w (trace st) "aws" ["configure"; "list-profiles"])
      as [out | err stderr | err]; simpl in H.
    + right. exact H.
    + left. eexists. eexists. split; [exact H |].
      split; [simpl; auto | reflexivity].
    + left. eexists. eexists. split; [exact H |].
      split; [simpl; auto | reflexivity].
  - right. exists []. simpl. rewrite app_nil_r. auto.
Qed.

Lemma clusterStep_failed_listing w st :
  (exists ev e,
      clusterStep w st =
      (inl e,
       mkState (config st) (stdin st)
         (trace st ++ [EvPrint MFetchingClusters; ev]))
      /\ isFailedListing ev /\ listingError ev = Some e)
  \/ (exists evs,
        trace (snd (clusterStep w st)) = (trace st ++ evs)%list
        /\ Forall (fun ev => ~ isFailedListing ev) evs).
Proof.
  unfold clusterStep.
  destruct (String.eqb (Cluster (config st)) EmptyString).
  - pose proof (SelectCluster_listing w st) as H. cbv zeta in H.
    destruct (wOutput w (trace st ++ [EvPrint MFetchingClusters]) "aws"
                (listClustersArgs (config st)))
      as [out | err stderr | err]; simpl in H.
    + right. exact H.
    + left. eexists. eexists. split; [exact H |].
      split; [| reflexivity].
      simpl. split; [reflexivity | split; [reflexivity |]].
      right. eexists. reflexivity.
    + left. eexists. eexists. split; [exact H |].
      split; [| reflexivity].
      simpl. split; [reflexivity | split; [reflexivity |]].
      right. eexists. reflexivity.
  - right. exists []. simpl. rewrite app_nil_r. auto.
Qed.

Lemma notFailed_in (l : list Event) ev :
  Forall (fun x => ~ isFailedListing x) l -> In ev l -> ~ isFailedListing ev.
Proof. intros H Hin. rewrite Forall_forall in H. exact (H ev Hin). Qed.

Lemma notFailed_last (pre : list Event) x ev :
  Forall (fun x => ~ isFailedListing x) pre ->
  In ev (pre ++ [x]) -> isFailedListing ev -> ev = x.
Proof.
  intros H Hin Hf. apply in_app_or in Hin. destruct Hin as [Hin | [Hin | []]].
  - exfalso. exact (notFailed_in _ _ H Hin Hf).
  - auto.
Qed.

(** A failed listing is the last event of [Run], and its error, wrapped,
    is the error [Run] returns. *)
Lemma Run_failed_listing (w : World) (st : AppState) :
  exists evs,
    trace (snd (Run w st)) = (trace st ++ evs)%list
    /\ forall ev, In ev evs -> isFailedListing ev ->
       exists pre e,
         evs = (pre ++ [ev])%list
         /\ Forall (fun x => ~ isFailedListing x) pre
         /\ fst (Run w st) = inl e
         /\ listingError ev = Some e.
Proof.
  assert (B1 : forall l, Forall evCheckDependencies l ->
                         Forall (fun x => ~ isFailedListing x) l)
    by (intros l; apply Forall_impl; exact notFailed_CheckDependencies).
  assert (B4 : forall l, Forall evLoginStep l ->
                         Forall (fun x => ~ isFailedListing x) l)
    by (intros l; apply Forall_impl; exact notFailed_loginStep).
  assert (B6 : forall l, Forall evUpdateKubeconfig l ->
                         Forall (fun x => ~ isFailedListing x) l)
    by (intros l; apply Forall_impl; exact notFailed_UpdateKubeconfig).
  assert (B7 : forall l, Forall evVerifyConnection l ->
                         Forall (fun x => ~ isFailedListing x) l)
    by (intros l; apply Forall_impl; exact notFailed_VerifyConnection).
  assert (B8 : forall l, Forall evShowSummary l ->
                         Forall (fun x => ~ isFailedListing x) l)
    by (intros l; apply Forall_impl; exact notFailed_ShowSummary).
  assert (F : forall l1 l2,
             Forall (fun x => ~ isFailedListing x) l1 ->
             Forall (fun x => ~ isFailedListing x) l2 ->
             Forall (fun x => ~ isFailedListing x) (l1 ++ l2))
    by (intros l1 l2 H1 H2; apply Forall_app; auto).
  assert (B3 : forall p res,
             Forall (fun x => ~ isFailedListing x)
               [EvOutput "aws" ["sts"; "get-caller-identity"; "--profile"; p]
                  res])
    by (intros p res; constructor; [apply notFailed_sessionCheck | constructor]).
  assert (B0 : forall m, Forall (fun x => ~ isFailedListing x) [EvPrint m])
    by (intros m; constructor; [simpl; tauto | constructor]).
  run_steps w st; simpl.
  1: { exists evs. split; [exact Ft |]. intros ev Hin Hf. exfalso.
       exact (notFailed_in _ _ (B1 _ Fp) Hin Hf). }
  1: { destruct (profileStep_listing w s1)
         as [(ev2 & e2 & L2 & I2 & E2) | (l2 & T2 & P2)].
       - rewrite L2 in H2. injection H2 as He Hs. subst e s2. simpl.
         exists (evs ++ [ev2])%list.
         split; [rewrite Ft, app_assoc; reflexivity |].
         intros ev Hin Hf.
         rewrite (notFailed_last _ _ _ (B1 _ Fp) Hin Hf).
         exists evs, e2. auto.
       - rewrite H2 in T2. simpl in T2.
         exists (evs ++ l2)%list.
         split; [rewrite T2, Ft, app_assoc; reflexivity |].
         intros ev Hin Hf. exfalso.
         exact (notFailed_in _ _ (F _ _ (B1 _ Fp) P2) Hin Hf). }
  all: destruct (profileStep_listing w s1)
         as [(ev2 & e2 & L2 & I2 & E2) | (l2 & T2 & P2)];
    [rewrite L2 in H2; discriminate H2 | rewrite H2 in T2; simpl in T2].
  1: { eexists. split; [rewrite Ft1, T2, Ft, <- !app_assoc; reflexivity |].
       intros ev Hin Hf. exfalso.
       refine (notFailed_in _ _ _ Hin Hf). repeat apply F; auto. }
  1: { destruct (clusterStep_failed_listing w s4)
         as [(ev5 & e5 & L5 & I5 & E5) | (l5 & T5 & P5)].
       - rewrite L5 in H5. injection H5 as He Hs. subst e s5. simpl.
         match goal with
         | H : CheckSSOSession _ _ = (_, mkState _ _ (_ ++ [?x])) |- _ =>
             set (chk := x) in *
         end.
         assert (Hpre : Forall (fun x => ~ isFailedListing x)
                          (evs ++ l2 ++ [chk] ++ evs1
                           ++ [EvPrint MFetchingClusters]))
           by (repeat apply F; auto; apply B3).
         exists ((evs ++ l2 ++ [chk] ++ evs1 ++ [EvPrint MFetchingClusters])
                 ++ [ev5])%list.
         split; [rewrite Ft1, T2, Ft, <- !app_assoc; reflexivity |].
         intros ev Hin Hf.
         rewrite (notFailed_last _ _ _ Hpre Hin Hf).
         eexists. exists e5. auto.
       - rewrite H5 in T5. simpl in T5.
         eexists.
         split; [rewrite T5, Ft1, T2, Ft, <- !app_assoc; reflexivity |].
         intros ev Hin Hf. exfalso.
         refine (notFailed_in _ _ _ Hin Hf). repeat apply F; auto. }
  all: destruct (clusterStep_failed_listing w s4)
         as [(ev5 & e5 & L5 & I5 & E5) | (l5 & T5 & P5)];
    [rewrite L5 in H5; discriminate H5 | rewrite H5 in T5; simpl in T5].
  1: { eexists.
       split; [rewrite Ft3, T5, Ft1, T2, Ft, <- !app_assoc; reflexivity |].
       intros ev Hin Hf. exfalso.
       refine (notFailed_in _ _ _ Hin Hf). repeat apply F; auto. }
  1: { exfalso. exact (Fe4 _ eq_refl). }
  1: { exfalso. exact (Fe5 _ eq_refl). }
  eexists.
  split; [rewrite Ft5, Ft4, Ft3, T5, Ft1, T2, Ft, <- !app_assoc; reflexivity |].
  intros ev Hin Hf. exfalso.
  refine (notFailed_in _ _ _ Hin Hf). repeat apply F; auto.
Qed.

(** X10.  A listing that fails ends the run.  When [aws configure
    list-profiles] or [aws eks list-clusters] fails in a run of [main],
    it is the last command of the run: the next output is the error line,
    whose error wraps what [Execute] returned for the command (the exit
    error with the standard error it collected, or the error of a command
    that could not be started) as a failure to list the profiles or the
    clusters, and the exit status is 1.  No listing failed before it. *)
Theorem X10_failed_listing_fatal (w : World) (f : Flags)
  (input : list string) :
  let r := main w (CmdRoot f) input in
  forall ev, In ev (trace (snd r)) -> isFailedListing ev ->
  fst r = 1
  /\ exists pre e,
       trace (snd r) = (pre ++ [ev; EvPrint (MError e); EvExit 1])%list
       /\ Forall (fun x => ~ isFailedListing x) pre
       /\ listingError ev = Some e.
Proof.
  intros r ev. subst r. unfold main.
  destruct (Run_failed_listing w (mkState (bindFlags NewEKSLoginApp f) input []))
    as (evs & Ht & H).
  destruct (Run w (mkState (bindFlags NewEKSLoginApp f) input []))
    as [[e | []] s]; simpl in *.
  - intros Hin Hf. split; [reflexivity |]. rewrite Ht in *.
    apply in_app_or in Hin. destruct Hin as [Hin | Hin].
    + destruct (H ev Hin Hf) as (pre & e0 & Hevs & Hpre & He & Hl).
      injection He as <-. exists pre, e. rewrite Hevs, <- app_assoc. auto.
    + exfalso. destruct Hin as [<- | [<- | []]]; exact Hf.
  - intros Hin Hf. exfalso. rewrite Ht in Hin.
    destruct (H ev Hin Hf) as (pre & e0 & _ & _ & He & _). discriminate He.
Qed.

Lemma X10_witness :
  let r := main worldListingRefused (CmdRoot flagsProfile) [] in
  let ev := EvOutput "aws"
              ["eks"; "list-clusters"; "--profile"; "a"; "--region"; "us-west-2";
               "--output"; "json"]
              (CmdExit "exit status 254" "AccessDeniedException") in
  fst r = 1
  /\ exists pre e,
       trace (snd r) = (pre ++ [ev; EvPrint (MError e); EvExit 1])%list
       /\ Forall (fun x => ~ isFailedListing x) pre
       /\ listingError ev = Some e.
Proof.
  apply (X10_failed_listing_fatal worldListingRefused flagsProfile []).
  - vm_compute. repeat (try (left; reflexivity); right).
  - simpl. split; [reflexivity | split; [reflexivity |]].
    right. eexists. reflexivity.
Defined.
